(** * Wyze light platform (custom_components/wyzeapi/light.py, entity.py)

    A shallow embedding of the light platform of the Wyze integration:
    the device records of the vendor library, the two entity classes
    [WyzeLight] and [WyzeCamerafloodlight], the set-up function, and the
    unit conversions between the vendor's encoding and the host's.

    Python values are modelled as the code has them: [int] as [Z],
    [float] as IEEE-754 binary64 ([spec_float] with precision 53),
    [str] as [string], [dict] as [gmap], exceptions as an outcome that
    keeps the state reached when the exception was raised. *)

From Stdlib Require Import ZArith List String Lia Bool.
From Stdlib Require Import SpecFloat.
From stdpp Require Import base option list gmap strings pretty.

Open Scope Z_scope.

(** ** Python numbers *)

Module PyNum.

  (** [float] is binary64. *)
Definition prec : Z := 53.
Definition emax : Z := 1024.

  (** [float(z)] for an [int]: the nearest double (infinite when out of
      range, where Python raises [OverflowError]). *)
Definition of_int (z : Z) : spec_float := binary_normalize prec emax z 0 false.

Definition mul : spec_float -> spec_float -> spec_float := SFmul prec emax.
Definition div : spec_float -> spec_float -> spec_float := SFdiv prec emax.
Definition leb : spec_float -> spec_float -> bool := SFleb.

  (** The literal [2.55]: the double nearest to 255/100. *)
Definition lit_2_55 : spec_float := S754_finite false 5742089524897382 (-51).

  (** Nearest integer to [n / d] for [0 <= n] and [0 < d], ties to even. *)
Definition round_half_even (n d : Z) : Z :=
    let q := n / d in
    match (2 * (n mod d)) ?= d with
    | Lt => q
    | Gt => q + 1
    | Eq => if Z.even q then q else q + 1
    end.

  (** The integer nearest to [m * 2^e * k], ties to even, for a double
      of mantissa [m] and exponent [e]. *)
Definition scaled_nearest (k : Z) (m : positive) (e : Z) : Z :=
    match e with
    | Zneg p => round_half_even (k * Zpos m) (2 ^ Zpos p)
    | _ => k * Zpos m * 2 ^ e
    end.

  (** [round(x)]: an [int], rounding the exact value of the double half
      to even; [None] where Python raises (infinities and NaN). *)
Definition round (x : spec_float) : option Z :=
    match x with
    | S754_zero _ => Some 0
    | S754_finite s m e =>
        let n := scaled_nearest 1 m e in Some (if s then - n else n)
    | S754_infinity _ | S754_nan => None
    end.

  (** [round(x, 1)]: the exact value is rounded to one decimal, half to
      even, and the decimal is read back as the nearest double. *)
Definition round1 (x : spec_float) : spec_float :=
    match x with
    | S754_finite s m e =>
        let n := scaled_nearest 10 m e in
        div (binary_normalize prec emax (if s then - n else n) 0 s) (of_int 10)
    | _ => x
    end.

  (** [str(z)] for an [int]. *)
Definition str (z : Z) : string := pretty z.

End PyNum.

(** ** Exceptions and the state-and-exception monad *)

Inductive exn : Type :=
| AttributeError (msg : string)
| ValueError
| TypeError
| KeyError
| ZeroDivisionError
| OverflowError
| VendorAuthFailure            (* the vendor library's authentication errors *)
| VendorFailure (what : string) (* any other failure of a vendor call *).

(** How a call ends: it returns, it raises, or the re-authentication flow
    of the host has been started in its place. *)
Inductive outcome (A : Type) : Type :=
| Returned (a : A)
| Raised (e : exn)
| Reauth.
Arguments Returned {A} a.
Arguments Raised {A} e.
Arguments Reauth {A}.

(** A computation over a mutable state [S]; the state reached so far is
    kept when an exception leaves the computation, as Python keeps the
    attribute assignments made before a [raise]. *)
Definition M (S A : Type) : Type := S -> outcome A * S.

Definition ret {S A} (a : A) : M S A := fun s => (Returned a, s).

Definition bind {S A B} (m : M S A) (f : A -> M S B) : M S B :=
  fun s =>
    match m s with
    | (Returned a, s') => f a s'
    | (Raised e, s') => (Raised e, s')
    | (Reauth, s') => (Reauth, s')
    end.

Definition raise {S A} (e : exn) : M S A := fun s => (Raised e, s).
Definition gets {S A} (f : S -> A) : M S A := fun s => (Returned (f s), s).
Definition modify {S} (f : S -> S) : M S unit := fun s => (Returned tt, f s).
Definition lift {S A} (o : outcome A) : M S A := fun s => (o, s).
Definition when {S} (b : bool) (m : M S unit) : M S unit :=
  if b then m else ret tt.

Declare Scope py_scope.
Delimit Scope py_scope with py.
Notation "x <- c1 ;; c2" := (bind c1 (fun x => c2))
  (at level 100, c1 at next level, right associativity) : py_scope.
Notation "c1 ;; c2" := (bind c1 (fun _ => c2))
  (at level 100, right associativity) : py_scope.

(** ** Vendor library types (wyzeapy) *)

(** [dict] values of type [Any]; the source only reads them. *)
Inductive pyvalue : Type :=
| PyNone
| PyBool (b : bool)
| PyInt (z : Z)
| PyStr (s : string).

(** [DeviceTypes]: the three members the source names, and every other
    member of the vendor's enumeration, told apart by its value. *)
Inductive DeviceTypes : Type :=
| LIGHT
| MESH_LIGHT
| LIGHTSTRIP
| OTHER_TYPE (value : string).

#[global] Instance DeviceTypes_eq_dec : EqDecision DeviceTypes.
Proof. solve_decision. Defined.

(** The members of [PropertyIDs] that light.py uses. *)
Inductive PropertyIDs : Type :=
| BRIGHTNESS
| SUN_MATCH
| COLOR_TEMP
| COLOR_MODE
| COLOR
| LIGHTSTRIP_EFFECTS.

#[global] Instance PropertyIDs_eq_dec : EqDecision PropertyIDs.
Proof. solve_decision. Defined.

(** [create_pid_pair(pid, value)]: one property-ID/value pair of a command. *)
Record pid_pair : Type := create_pid_pair { pid : PropertyIDs; pvalue : string }.

#[global] Instance pid_pair_eq_dec : EqDecision pid_pair.
Proof. solve_decision. Defined.

(** The fields of the vendor's [Device] that the entities read. *)
Record Device : Type := {
  product_type : string;
  product_model : string;
  mac : string;
  nickname : string;
  parent_device_mac : option string;
  firmware_ver : string;
  available : bool;
  device_params : gmap string pyvalue
}.

(** The update callback an entity registers on its device. *)
Inductive callback_ref : Type :=
| async_update_callback_of_light.

(** [Bulb(Device)]: brightness is a percentage, color a hex string,
    color_temp is in Kelvin, color_mode and effects are discriminators. *)
Module Bulb.
Record t : Type := {
    base : Device;
    brightness : Z;
    color : string;
    color_temp : Z;
    color_mode : string;
    effects : string;
    sun_match : bool;
    on : bool;
    cloud_fallback : bool;
    callback_function : option callback_ref
  }.

Definition set_brightness (v : Z) (d : t) : t :=
    {| base := base d; brightness := v; color := color d;
       color_temp := color_temp d; color_mode := color_mode d;
       effects := effects d; sun_match := sun_match d; on := on d;
       cloud_fallback := cloud_fallback d;
       callback_function := callback_function d |}.
Definition set_color (v : string) (d : t) : t :=
    {| base := base d; brightness := brightness d; color := v;
       color_temp := color_temp d; color_mode := color_mode d;
       effects := effects d; sun_match := sun_match d; on := on d;
       cloud_fallback := cloud_fallback d;
       callback_function := callback_function d |}.
Definition set_color_temp (v : Z) (d : t) : t :=
    {| base := base d; brightness := brightness d; color := color d;
       color_temp := v; color_mode := color_mode d;
       effects := effects d; sun_match := sun_match d; on := on d;
       cloud_fallback := cloud_fallback d;
       callback_function := callback_function d |}.
Definition set_color_mode (v : string) (d : t) : t :=
    {| base := base d; brightness := brightness d; color := color d;
       color_temp := color_temp d; color_mode := v;
       effects := effects d; sun_match := sun_match d; on := on d;
       cloud_fallback := cloud_fallback d;
       callback_function := callback_function d |}.
Definition set_effects (v : string) (d : t) : t :=
    {| base := base d; brightness := brightness d; color := color d;
       color_temp := color_temp d; color_mode := color_mode d;
       effects := v; sun_match := sun_match d; on := on d;
       cloud_fallback := cloud_fallback d;
       callback_function := callback_function d |}.
Definition set_sun_match (v : bool) (d : t) : t :=
    {| base := base d; brightness := brightness d; color := color d;
       color_temp := color_temp d; color_mode := color_mode d;
       effects := effects d; sun_match := v; on := on d;
       cloud_fallback := cloud_fallback d;
       callback_function := callback_function d |}.
Definition set_callback_function (v : option callback_ref) (d : t) : t :=
    {| base := base d; brightness := brightness d; color := color d;
       color_temp := color_temp d; color_mode := color_mode d;
       effects := effects d; sun_match := sun_match d; on := on d;
       cloud_fallback := cloud_fallback d; callback_function := v |}.
Definition set_on (v : bool) (d : t) : t :=
    {| base := base d; brightness := brightness d; color := color d;
       color_temp := color_temp d; color_mode := color_mode d;
       effects := effects d; sun_match := sun_match d; on := v;
       cloud_fallback := cloud_fallback d;
       callback_function := callback_function d |}.
End Bulb.

(** [Camera(Device)]. *)
Module Camera.
Record t : Type := {
    base : Device;
    floodlight : bool
  }.
End Camera.

(** The services of the vendor client, as far as the platform awaits them:
    each field is what the call answers. *)
Record BulbService : Type := {
  get_bulbs : outcome (list Bulb.t);
  update : Bulb.t -> outcome Bulb.t;
  start_update_manager : outcome unit
}.

Record CameraService : Type := {
  get_cameras : outcome (list Camera.t);
  floodlight_on : Camera.t -> outcome unit;
  floodlight_off : Camera.t -> outcome unit
}.

Record Wyzeapy : Type := {
  camera_service : outcome CameraService;
  bulb_service : outcome BulbService
}.

(** ** Host platform types (homeassistant) *)

Record ConfigEntry : Type := {
  entry_id : string;
  options : gmap string pyvalue
}.

(** [DeviceInfo]: the MAC that forms the connection and the identifier, and
    the descriptive fields, present only for a device without a parent. *)
Record DeviceInfo : Type := {
  info_mac : string;
  info_name : option string;
  info_manufacturer : option string;
  info_model : option string;
  info_sw_version : option string
}.

(** A keyword argument: the key is missing, or it was passed with a value,
    which may be Python's [None]. *)
Inductive kwarg (A : Type) : Type :=
| Missing
| Passed (v : option A).
Arguments Missing {A}.
Arguments Passed {A} v.

(** [kwargs.get(key)] *)
Definition kwargs_get {A} (k : kwarg A) : option A :=
  match k with Missing => None | Passed v => v end.

(** What the platform takes from outside light.py and entity.py: the host's
    colour functions, the vendor's enumeration look-up and [Device.type]
    property, and the option key of const.py. *)
Class Externals : Type := {
  HS : Type;                                  (* an (h, s) tuple *)
  RGB : Type;                                 (* an (r, g, b) tuple *)
  color_temperature_to_rgb : Z -> RGB;
  color_hs_to_RGB : HS -> RGB;
  color_rgb_to_hex : RGB -> string;
  DeviceTypes_call : string -> option DeviceTypes;  (* [DeviceTypes(value)]; [None] is ValueError *)
  Device_type : Device -> DeviceTypes;              (* the [type] property *)
  BULB_LOCAL_CONTROL : string
}.

(** ** homeassistant.util.color: mireds and Kelvin *)

Module color_util.

  (** Modelled from the spec: the host's conversion between mireds and
      Kelvin, the reciprocal scaled by 1,000,000 and rounded down to an
      integer ([math.floor(1000000 / x)]); the float quotient of an [int]
      [1 <= x] has the floor of the exact quotient. *)
Definition color_temperature_mired_to_kelvin (mired_temperature : Z) : outcome Z :=
    if mired_temperature =? 0 then Raised ZeroDivisionError
    else Returned (1000000 / mired_temperature).

Definition color_temperature_kelvin_to_mired (kelvin_temperature : Z) : outcome Z :=
    if kelvin_temperature =? 0 then Raised ZeroDivisionError
    else Returned (1000000 / kelvin_temperature).

End color_util.

(** ** The event loop and the vendor calls, as an entity sees them *)

(** A coroutine handed to the event loop and not awaited.  The service
    calls take the entity's device by reference: they see the record as it
    is when they run, not as it was when they were scheduled. *)
Inductive coroutine : Type :=
| service_turn_on (local_control : pyvalue) (options : list pid_pair)
| service_turn_off (local_control : pyvalue)
| update_ha_state.

(** A call into the vendor library that has been made and has answered. *)
Inductive vendor_call : Type :=
| call_camera_service
| call_bulb_service
| call_get_bulbs
| call_get_cameras
| call_update
| call_register_updater (interval : Z)
| call_unregister_updater
| call_start_update_manager
| call_floodlight_on
| call_floodlight_off.

(** What a method works on: its object [this], the coroutines waiting on
    the event loop, and the vendor calls made so far. *)
Record World (E : Type) : Type := {
  this : E;
  loop : list coroutine;
  vendor_calls : list vendor_call
}.
Arguments this {E} _.
Arguments loop {E} _.
Arguments vendor_calls {E} _.

Definition with_this {E} (f : E -> E) (w : World E) : World E :=
  {| this := f (this w); loop := loop w; vendor_calls := vendor_calls w |}.

(** [loop.create_task(c)]: [c] is queued, nothing of it runs. *)
Definition create_task {E} (c : coroutine) : M (World E) unit :=
  modify (fun w => {| this := this w; loop := loop w ++ [c];
                      vendor_calls := vendor_calls w |}).

(** A vendor call that is waited for: it is recorded, and its answer
    (a value or an exception) is the result. *)
Definition perform {E A} (c : vendor_call) (answer : outcome A) : M (World E) A :=
  (modify (fun w => {| this := this w; loop := loop w;
                       vendor_calls := vendor_calls w ++ [c] |}) ;;
   lift answer)%py.

(** [self.async_schedule_update_ha_state()] *)
Definition async_schedule_update_ha_state {E} : M (World E) unit :=
  create_task update_ha_state.

(** [dict.get(key)] and [dict.get(key, default)] *)
Definition dict_get (d : gmap string pyvalue) (key : string) : pyvalue :=
  default PyNone (d !! key).
Definition dict_get_default (d : gmap string pyvalue) (key : string)
    (dflt : pyvalue) : pyvalue :=
  default dflt (d !! key).

(** ** token_manager.py *)

(** Modelled from the spec: token_manager.py is not among the sources; the
    decorator is the wrapper that "catches vendor-authentication failures
    and triggers a re-authentication flow on the host platform".  Every
    other way the wrapped function ends goes through unchanged. *)
Definition token_exception_handler {S A} (func : M S A) : M S A :=
  fun s =>
    match func s with
    | (Raised VendorAuthFailure, s') => (Reauth, s')
    | r => r
    end.

(** ** entity.py: WyzeDeviceEntity *)

Module WyzeDeviceEntity.

(** The device information built by [__init__]: from the parent's MAC when
    the device has one, from the device itself otherwise. *)
Definition device_info (device : Device) : DeviceInfo :=
  match parent_device_mac device with
  | Some parent_mac =>
      if bool_decide (parent_mac = EmptyString) then
        {| info_mac := mac device; info_name := Some (nickname device);
           info_manufacturer := Some "WyzeLabs"%string;
           info_model := Some (product_model device);
           info_sw_version := Some (firmware_ver device) |}
      else
        {| info_mac := parent_mac; info_name := None;
           info_manufacturer := None; info_model := None;
           info_sw_version := None |}
  | None =>
      {| info_mac := mac device; info_name := Some (nickname device);
         info_manufacturer := Some "WyzeLabs"%string;
         info_model := Some (product_model device);
         info_sw_version := Some (firmware_ver device) |}
  end.

End WyzeDeviceEntity.

(** ** light.py: WyzeLight *)

Module WyzeLight.

Definition EFFECT_SUN_MATCH : string := "sun match".
Definition EFFECT_SHADOW : string := "shadow".
Definition EFFECT_LEAP : string := "leap".
Definition EFFECT_FLICKER : string := "flicker".

Record t : Type := {
  _device : Bulb.t;
  _service : BulbService;
  _attr_device_info : DeviceInfo;
  _device_type : DeviceTypes;
  _config_entry : ConfigEntry;
  _local_control : pyvalue;
  _just_updated : bool
}.

Definition set__device (v : Bulb.t) (self : t) : t :=
  {| _device := v; _service := _service self;
     _attr_device_info := _attr_device_info self;
     _device_type := _device_type self; _config_entry := _config_entry self;
     _local_control := _local_control self;
     _just_updated := _just_updated self |}.
Definition set__local_control (v : pyvalue) (self : t) : t :=
  {| _device := _device self; _service := _service self;
     _attr_device_info := _attr_device_info self;
     _device_type := _device_type self; _config_entry := _config_entry self;
     _local_control := v; _just_updated := _just_updated self |}.
Definition set__just_updated (v : bool) (self : t) : t :=
  {| _device := _device self; _service := _service self;
     _attr_device_info := _attr_device_info self;
     _device_type := _device_type self; _config_entry := _config_entry self;
     _local_control := _local_control self; _just_updated := v |}.

(** [self._device.<field> = v] *)
Definition set_device_field (f : Bulb.t -> Bulb.t) : M (World t) unit :=
  modify (with_this (fun self => set__device (f (_device self)) self)).

(** [x in [a, b, ...]] and [x is a] on members of an enumeration *)
Definition type_in (x : DeviceTypes) (l : list DeviceTypes) : bool :=
  bool_decide (x ∈ l).
Definition type_is (x y : DeviceTypes) : bool := bool_decide (x = y).

(** [round((b / 255) * 100)]: the quotient of two [int]s is their exact
    quotient rounded to a double, the product with [100] is a float
    product, and [round] gives an [int]. *)
Definition exact_int (z : Z) : spec_float :=
  match z with
  | Z0 => S754_zero false
  | Zpos p => S754_finite false p 0
  | Zneg p => S754_finite true p 0
  end.

Definition brightness_to_percent (b : Z) : outcome Z :=
  match PyNum.round
          (PyNum.mul (PyNum.div (exact_int b) (exact_int 255)) (PyNum.of_int 100)) with
  | Some p => Returned p
  | None => Raised OverflowError
  end.

Section Methods.
Context `{Externals}.

(** The keyword arguments of [async_turn_on] that the method reads. *)
Record kwargs : Type := {
  ATTR_BRIGHTNESS : kwarg Z;
  ATTR_COLOR_TEMP : kwarg Z;
  ATTR_HS_COLOR : kwarg HS;
  ATTR_EFFECT : kwarg string
}.

(** [__init__(self, bulb, bulb_service, config_entry)] *)
Definition __init__ (bulb : Bulb.t) (bulb_service : BulbService)
    (config_entry : ConfigEntry) : outcome t :=
  match DeviceTypes_call (product_type (Bulb.base bulb)) with
  | None => Raised ValueError
  | Some device_type =>
      let self :=
        {| _device := bulb; _service := bulb_service;
           _attr_device_info := WyzeDeviceEntity.device_info (Bulb.base bulb);
           _device_type := device_type; _config_entry := config_entry;
           _local_control :=
             dict_get (options config_entry) BULB_LOCAL_CONTROL;
           _just_updated := false |} in
      if negb (type_in device_type [LIGHT; MESH_LIGHT; LIGHTSTRIP]) then
        Raised (AttributeError "Device type not supported")
      else Returned self
  end.

(** [if kwargs.get(ATTR_BRIGHTNESS) is not None: ...] *)
Definition turn_on_brightness (kw : kwargs) (options : list pid_pair)
    : M (World t) (list pid_pair) :=
  match kwargs_get (ATTR_BRIGHTNESS kw) with
  | Some b =>
      (brightness <- lift (brightness_to_percent b) ;;
       let options :=
         options ++ [create_pid_pair BRIGHTNESS (PyNum.str brightness)] in
       set_device_field (Bulb.set_brightness brightness) ;;
       ret options)%py
  | None => ret options
  end.

(** [any([kwargs.get(ATTR_COLOR_TEMP, kwargs.get(ATTR_HS_COLOR))])]: the
    value under the colour-temperature key when that key is present, the
    value under the HS key otherwise; an [int] is true when it is not
    zero, an (h, s) tuple always, [None] never. *)
Definition any_color_argument (kw : kwargs) : bool :=
  match ATTR_COLOR_TEMP kw with
  | Passed (Some mired) => negb (mired =? 0)
  | Passed None => false
  | Missing =>
      match kwargs_get (ATTR_HS_COLOR kw) with
      | Some _ => true
      | None => false
      end
  end.

(** [if self._device.sun_match: if any([...]): ...] *)
Definition turn_on_sun_match (kw : kwargs) (options : list pid_pair)
    : M (World t) (list pid_pair) :=
  (sun_match <- gets (fun w => Bulb.sun_match (_device (this w))) ;;
   if sun_match then
     if any_color_argument kw then
       let options := options ++ [create_pid_pair SUN_MATCH (PyNum.str 0)] in
       set_device_field (Bulb.set_sun_match false) ;;
       ret options
     else ret options
   else ret options)%py.

(** [if kwargs.get(ATTR_COLOR_TEMP) is not None: ...] *)
Definition turn_on_color_temp (kw : kwargs) (options : list pid_pair)
    : M (World t) (list pid_pair) :=
  match kwargs_get (ATTR_COLOR_TEMP kw) with
  | Some mired =>
      (color_temp <- lift (color_util.color_temperature_mired_to_kelvin mired) ;;
       let options :=
         options ++ [create_pid_pair COLOR_TEMP (PyNum.str color_temp)] in
       device_type <- gets (fun w => _device_type (this w)) ;;
       options <-
         (if type_in device_type [MESH_LIGHT; LIGHTSTRIP] then
            set_device_field (Bulb.set_color_mode "2") ;;
            ret (options ++ [create_pid_pair COLOR_MODE (PyNum.str 2)])
          else ret options) ;;
       set_device_field (Bulb.set_color_temp color_temp) ;;
       set_device_field
         (Bulb.set_color (color_rgb_to_hex (color_temperature_to_rgb color_temp))) ;;
       ret options)%py
  | None => ret options
  end.

(** [if kwargs.get(ATTR_HS_COLOR) is not None and (... is MESH_LIGHT or
    ... is LIGHTSTRIP): ...] *)
Definition turn_on_hs_color (kw : kwargs) (options : list pid_pair)
    : M (World t) (list pid_pair) :=
  (device_type <- gets (fun w => _device_type (this w)) ;;
   match kwargs_get (ATTR_HS_COLOR kw) with
   | Some hs =>
       if type_is device_type MESH_LIGHT || type_is device_type LIGHTSTRIP then
         let color := color_rgb_to_hex (color_hs_to_RGB hs) in
         let options :=
           options ++ [create_pid_pair COLOR color;
                       create_pid_pair COLOR_MODE (PyNum.str 1)] in
         set_device_field (Bulb.set_color color) ;;
         set_device_field (Bulb.set_color_mode "1") ;;
         ret options
       else ret options
   | None => ret options
   end)%py.

(** [if kwargs.get(ATTR_EFFECT) is not None: ...] *)
Definition turn_on_effect (kw : kwargs) (options : list pid_pair)
    : M (World t) (list pid_pair) :=
  match kwargs_get (ATTR_EFFECT kw) with
  | Some effect =>
      if bool_decide (effect = EFFECT_SUN_MATCH) then
        (let options := options ++ [create_pid_pair SUN_MATCH (PyNum.str 1)] in
         set_device_field (Bulb.set_sun_match true) ;;
         ret options)%py
      else
        (device <- gets (fun w => _device (this w)) ;;
         when (type_is (Device_type (Bulb.base device)) MESH_LIGHT)
           (modify (with_this (set__local_control (PyBool false)))) ;;
         let options := options ++ [create_pid_pair COLOR_MODE (PyNum.str 3)] in
         set_device_field (Bulb.set_color_mode "3") ;;
         if bool_decide (effect = EFFECT_SHADOW) then
           set_device_field (Bulb.set_effects "1") ;;
           ret (options ++ [create_pid_pair LIGHTSTRIP_EFFECTS (PyNum.str 1)])
         else if bool_decide (effect = EFFECT_LEAP) then
           set_device_field (Bulb.set_effects "2") ;;
           ret (options ++ [create_pid_pair LIGHTSTRIP_EFFECTS (PyNum.str 2)])
         else if bool_decide (effect = EFFECT_FLICKER) then
           set_device_field (Bulb.set_effects "3") ;;
           ret (options ++ [create_pid_pair LIGHTSTRIP_EFFECTS (PyNum.str 3)])
         else ret options)%py
  | None => ret options
  end.

(** [self._local_control = self._config_entry.options.get(BULB_LOCAL_CONTROL)] *)
Definition read_local_control : M (World t) unit :=
  modify (with_this (fun self =>
    set__local_control
      (dict_get (options (_config_entry self)) BULB_LOCAL_CONTROL) self)).

(** The body of [async_turn_on], before the decorator. *)
Definition async_turn_on_undecorated (kw : kwargs) : M (World t) unit :=
  (let options := [] in
   read_local_control ;;
   options <- turn_on_brightness kw options ;;
   options <- turn_on_sun_match kw options ;;
   options <- turn_on_color_temp kw options ;;
   options <- turn_on_hs_color kw options ;;
   options <- turn_on_effect kw options ;;
   local_control <- gets (fun w => _local_control (this w)) ;;
   create_task (service_turn_on local_control options) ;;
   set_device_field (Bulb.set_on true) ;;
   modify (with_this (set__just_updated true)) ;;
   async_schedule_update_ha_state)%py.

Definition async_turn_on (kw : kwargs) : M (World t) unit :=
  token_exception_handler (async_turn_on_undecorated kw).

(** The body of [async_turn_off], before the decorator. *)
Definition async_turn_off_undecorated : M (World t) unit :=
  (read_local_control ;;
   local_control <- gets (fun w => _local_control (this w)) ;;
   create_task (service_turn_off local_control) ;;
   set_device_field (Bulb.set_on false) ;;
   modify (with_this (set__just_updated true)) ;;
   async_schedule_update_ha_state)%py.

Definition async_turn_off : M (World t) unit :=
  token_exception_handler async_turn_off_undecorated.

(** The [brightness] property: [round(self._device.brightness * 2.55, 1)] *)
Definition brightness (self : t) : spec_float :=
  PyNum.round1
    (PyNum.mul (PyNum.of_int (Bulb.brightness (_device self))) PyNum.lit_2_55).

(** The [color_temp] property, in mireds *)
Definition color_temp (self : t) : outcome Z :=
  color_util.color_temperature_kelvin_to_mired (Bulb.color_temp (_device self)).

(** [max_mireds] and [min_mireds] *)
Definition max_mireds (self : t) : outcome Z :=
  if type_is (_device_type self) MESH_LIGHT then
    match color_util.color_temperature_kelvin_to_mired 1800 with
    | Returned m => Returned (m - 1)
    | o => o
    end
  else
    match color_util.color_temperature_kelvin_to_mired 2700 with
    | Returned m => Returned (m - 1)
    | o => o
    end.

Definition min_mireds (self : t) : outcome Z :=
  match color_util.color_temperature_kelvin_to_mired 6500 with
  | Returned m => Returned (m + 1)
  | o => o
  end.

(** [is_on] *)
Definition is_on (self : t) : bool := Bulb.on (_device self).

(** The body of [async_update], before the decorator. *)
Definition async_update_undecorated : M (World t) unit :=
  (just_updated <- gets (fun w => _just_updated (this w)) ;;
   if negb just_updated then
     self <- gets this ;;
     device <- perform call_update (update (_service self) (_device self)) ;;
     modify (with_this (set__device device))
   else
     modify (with_this (set__just_updated false)))%py.

Definition async_update : M (World t) unit :=
  token_exception_handler async_update_undecorated.

(** [async_added_to_hass] and [async_will_remove_from_hass]: neither is
    decorated. *)
Definition async_added_to_hass : M (World t) unit :=
  (set_device_field
     (Bulb.set_callback_function (Some async_update_callback_of_light)) ;;
   perform (call_register_updater 30) (Returned tt) ;;
   self <- gets this ;;
   perform call_start_update_manager (start_update_manager (_service self)))%py.

Definition async_will_remove_from_hass : M (World t) unit :=
  perform call_unregister_updater (Returned tt).

End Methods.
End WyzeLight.

(** ** light.py: WyzeCamerafloodlight *)

Module WyzeCamerafloodlight.

Record t : Type := {
  _device : Camera.t;
  _service : CameraService;
  _attr_device_info : DeviceInfo
}.

(** [__init__(self, camera, camera_service)], inherited from
    [WyzeDeviceEntity]. *)
Definition __init__ (camera : Camera.t) (camera_service : CameraService) : t :=
  {| _device := camera; _service := camera_service;
     _attr_device_info := WyzeDeviceEntity.device_info (Camera.base camera) |}.

(** The bodies of [async_turn_on] and [async_turn_off], before the
    decorator: the service call is awaited. *)
Definition async_turn_on_undecorated : M (World t) unit :=
  (self <- gets this ;;
   perform call_floodlight_on (floodlight_on (_service self) (_device self)) ;;
   async_schedule_update_ha_state)%py.

Definition async_turn_on : M (World t) unit :=
  token_exception_handler async_turn_on_undecorated.

Definition async_turn_off_undecorated : M (World t) unit :=
  (self <- gets this ;;
   perform call_floodlight_off (floodlight_off (_service self) (_device self)) ;;
   async_schedule_update_ha_state)%py.

Definition async_turn_off : M (World t) unit :=
  token_exception_handler async_turn_off_undecorated.

(** [is_on] *)
Definition is_on (self : t) : bool := Camera.floodlight (_device self).

(** The methods of the class that call its service, by name. *)
Definition service_methods : gmap string (M (World t) unit) :=
  {[ "async_turn_on"%string := async_turn_on;
     "async_turn_off"%string := async_turn_off ]}.

End WyzeCamerafloodlight.

(** ** light.py: async_setup_entry *)

Inductive Entity : Type :=
| LightEntity (e : WyzeLight.t)
| FloodlightEntity (e : WyzeCamerafloodlight.t).

(** The host: the client stored for each config entry, and the batches of
    entities handed to [async_add_entities], with their second argument. *)
Record HomeAssistant : Type := {
  data : gmap string Wyzeapy;
  added : list (list Entity * bool)
}.

(** [v > n] for a value of a [dict] and an [int] *)
Definition py_gt (v : pyvalue) (n : Z) : outcome bool :=
  match v with
  | PyInt z => Returned (n <? z)
  | PyBool b => Returned (n <? Z.b2z b)
  | PyNone | PyStr _ => Raised TypeError
  end.

Fixpoint mapM {S A B} (f : A -> M S B) (l : list A) : M S (list B) :=
  match l with
  | [] => ret []
  | a :: l' => (b <- f a ;; bs <- mapM f l' ;; ret (b :: bs))%py
  end.

Section Setup.
Context `{Externals}.

(** [async_add_entities(lights, True)] *)
Definition async_add_entities (new_entities : list Entity)
    (update_before_add : bool) : M (World HomeAssistant) unit :=
  modify (with_this (fun hass =>
    {| data := data hass;
       added := added hass ++ [(new_entities, update_before_add)] |})).

(** [for camera in ...: if camera.device_params.get("spotlight_status", 0) > 0:
    lights.append(WyzeCamerafloodlight(camera, camera_service))] *)
Fixpoint append_floodlights (camera_service : CameraService)
    (cameras : list Camera.t) (lights : list Entity)
    : M (World HomeAssistant) (list Entity) :=
  match cameras with
  | [] => ret lights
  | camera :: rest =>
      (lit <- lift (py_gt (dict_get_default
                             (device_params (Camera.base camera))
                             "spotlight_status" (PyInt 0)) 0) ;;
       append_floodlights camera_service rest
         (if (lit : bool) then
            lights ++ [FloodlightEntity
                         (WyzeCamerafloodlight.__init__ camera camera_service)]
          else lights))%py
  end.

(** The body of [async_setup_entry], before the decorator. *)
Definition async_setup_entry_undecorated (config_entry : ConfigEntry)
    : M (World HomeAssistant) unit :=
  (hass <- gets this ;;
   client <- lift (match data hass !! entry_id config_entry with
                   | Some client => Returned client
                   | None => Raised KeyError
                   end) ;;
   camera_service <- perform call_camera_service (camera_service client) ;;
   bulb_service <- perform call_bulb_service (bulb_service client) ;;
   bulbs <- perform call_get_bulbs (get_bulbs bulb_service) ;;
   lights <- mapM (fun light =>
                     lift (WyzeLight.__init__ light bulb_service config_entry))
                  bulbs ;;
   cameras <- perform call_get_cameras (get_cameras camera_service) ;;
   lights <- append_floodlights camera_service cameras
               (map LightEntity lights) ;;
   async_add_entities lights true)%py.

Definition async_setup_entry (config_entry : ConfigEntry)
    : M (World HomeAssistant) unit :=
  token_exception_handler (async_setup_entry_undecorated config_entry).

End Setup.

(** ** The properties, in the words of the specification *)

(** [handled e]: how a decorated function ends when its body raises [e]. *)
Definition handled {A} (e : exn) : outcome A :=
  match e with
  | VendorAuthFailure => Reauth
  | _ => Raised e
  end.

Section Expected.
Context `{Externals}.

(** An attribute is supplied when [kwargs.get] gives a value for it. *)
Definition supplied {A} (k : kwarg A) : bool :=
  match kwargs_get k with Some _ => true | None => false end.

(** The device types that have a colour mode. *)
Definition has_color_mode (device_type : DeviceTypes) : bool :=
  bool_decide (device_type = MESH_LIGHT) || bool_decide (device_type = LIGHTSTRIP).

(** The pairs of a command, attribute by attribute: the pair that forwards
    the attribute, and the mode-switching pairs the adapter adds to it. *)
Definition brightness_pairs (kw : WyzeLight.kwargs) : list pid_pair :=
  match kwargs_get (WyzeLight.ATTR_BRIGHTNESS kw) with
  | Some b =>
      match WyzeLight.brightness_to_percent b with
      | Returned p => [create_pid_pair BRIGHTNESS (PyNum.str p)]
      | _ => []
      end
  | None => []
  end.

Definition sun_match_off_pairs (kw : WyzeLight.kwargs) (sun_match : bool)
    : list pid_pair :=
  if sun_match && WyzeLight.any_color_argument kw
  then [create_pid_pair SUN_MATCH "0"] else [].

Definition color_temp_pairs (kw : WyzeLight.kwargs) (device_type : DeviceTypes)
    : list pid_pair :=
  match kwargs_get (WyzeLight.ATTR_COLOR_TEMP kw) with
  | Some mired =>
      create_pid_pair COLOR_TEMP (PyNum.str (1000000 / mired))
      :: (if has_color_mode device_type
          then [create_pid_pair COLOR_MODE "2"] else [])
  | None => []
  end.

Definition hs_color_pairs (kw : WyzeLight.kwargs) (device_type : DeviceTypes)
    : list pid_pair :=
  match kwargs_get (WyzeLight.ATTR_HS_COLOR kw) with
  | Some hs =>
      if has_color_mode device_type
      then [create_pid_pair COLOR (color_rgb_to_hex (color_hs_to_RGB hs));
            create_pid_pair COLOR_MODE "1"]
      else []
  | None => []
  end.

Definition effect_pairs (kw : WyzeLight.kwargs) : list pid_pair :=
  match kwargs_get (WyzeLight.ATTR_EFFECT kw) with
  | Some effect =>
      if bool_decide (effect = "sun match"%string)
      then [create_pid_pair SUN_MATCH "1"]
      else
        create_pid_pair COLOR_MODE "3"
        :: (if bool_decide (effect = "shadow"%string)
            then [create_pid_pair LIGHTSTRIP_EFFECTS "1"]
            else if bool_decide (effect = "leap"%string)
            then [create_pid_pair LIGHTSTRIP_EFFECTS "2"]
            else if bool_decide (effect = "flicker"%string)
            then [create_pid_pair LIGHTSTRIP_EFFECTS "3"]
            else [])
  | None => []
  end.

(** The command list of a call of [async_turn_on], from the keyword
    arguments, the sun-match flag of the device before the call and the
    device type of the entity. *)
Definition expected_options (kw : WyzeLight.kwargs) (sun_match : bool)
    (device_type : DeviceTypes) : list pid_pair :=
  brightness_pairs kw ++ sun_match_off_pairs kw sun_match
  ++ color_temp_pairs kw device_type ++ hs_color_pairs kw device_type
  ++ effect_pairs kw.

(** A command list only forwards the attributes supplied: each pair
    carries the property of a supplied attribute.  [COLOR_MODE] is the
    mode discriminator; no attribute of the host corresponds to it. *)
Definition forwards_only_supplied (kw : WyzeLight.kwargs)
    (options : list pid_pair) : Prop :=
  forall p, In p options ->
    match pid p with
    | BRIGHTNESS => supplied (WyzeLight.ATTR_BRIGHTNESS kw) = true
    | COLOR_TEMP => supplied (WyzeLight.ATTR_COLOR_TEMP kw) = true
    | COLOR => supplied (WyzeLight.ATTR_HS_COLOR kw) = true
    | SUN_MATCH | LIGHTSTRIP_EFFECTS => supplied (WyzeLight.ATTR_EFFECT kw) = true
    | COLOR_MODE => False
    end.

(** A bulb is supported when its product type is one of the three light
    members of [DeviceTypes]. *)
Definition supported_bulb (bulb : Bulb.t) : Prop :=
  exists device_type,
    DeviceTypes_call (product_type (Bulb.base bulb)) = Some device_type
    /\ device_type ∈ [LIGHT; MESH_LIGHT; LIGHTSTRIP].

(** The construction of a light raises [AttributeError] exactly for the
    product types outside the three light members. *)
Definition raises_attribute_error_iff_not_light (bulb : Bulb.t)
    (bulb_service : BulbService) (config_entry : ConfigEntry) : Prop :=
  (exists msg, WyzeLight.__init__ bulb bulb_service config_entry
               = Raised (AttributeError msg))
  <-> ~ supported_bulb bulb.

(** The ["spotlight_status"] of a camera, 0 when the key is absent, and
    whether it is a number above 0. *)
Definition spotlight_status (camera : Camera.t) : pyvalue :=
  dict_get_default (device_params (Camera.base camera)) "spotlight_status" (PyInt 0).

Definition is_number (v : pyvalue) : Prop :=
  match v with PyInt _ | PyBool _ => True | _ => False end.

Definition has_spotlight (camera : Camera.t) : bool :=
  match spotlight_status camera with
  | PyInt z => 0 <? z
  | PyBool b => b
  | _ => false
  end.

(** The device record of the entity a method works on. *)
Definition dev (w : World WyzeLight.t) : Bulb.t := WyzeLight._device (this w).

(** Two states of a light that differ at most in the light fields of the
    device record (brightness, colour, colour temperature, colour mode,
    effects, sun match) and in [_local_control]. *)
Definition light_frame (w w' : World WyzeLight.t) : Prop :=
  loop w' = loop w /\ vendor_calls w' = vendor_calls w
  /\ WyzeLight._just_updated (this w') = WyzeLight._just_updated (this w)
  /\ WyzeLight._device_type (this w') = WyzeLight._device_type (this w)
  /\ WyzeLight._service (this w') = WyzeLight._service (this w)
  /\ WyzeLight._config_entry (this w') = WyzeLight._config_entry (this w)
  /\ Bulb.on (dev w') = Bulb.on (dev w)
  /\ Bulb.base (dev w') = Bulb.base (dev w).

(** The keyword arguments with which [async_turn_on] raises nothing: a
    brightness that converts, and a colour temperature other than 0. *)
Definition turn_on_returns (kw : WyzeLight.kwargs) : Prop :=
  (forall b, kwargs_get (WyzeLight.ATTR_BRIGHTNESS kw) = Some b ->
     exists p, WyzeLight.brightness_to_percent b = Returned p)
  /\ kwargs_get (WyzeLight.ATTR_COLOR_TEMP kw) <> Some 0.

End Expected.

(** ** Sample values *)

Module Sample.

(** Stand-ins for the host's colour functions and the vendor's
    enumeration: some of its values, every other string being no member. *)
Definition externals : Externals :=
  {| HS := Z * Z;
     RGB := Z * Z * Z;
     color_temperature_to_rgb := fun kelvin => (255, kelvin / 100, kelvin / 100);
     color_hs_to_RGB := fun hs => (fst hs, snd hs, 0);
     color_rgb_to_hex := fun rgb =>
       (PyNum.str (fst (fst rgb)) +:+ "," +:+ PyNum.str (snd (fst rgb))
        +:+ "," +:+ PyNum.str (snd rgb))%string;
     DeviceTypes_call := fun value =>
       if bool_decide (value = "Light"%string) then Some LIGHT
       else if bool_decide (value = "MeshLight"%string) then Some MESH_LIGHT
       else if bool_decide (value = "LightStrip"%string) then Some LIGHTSTRIP
       else if bool_decide (value = "Camera"%string) then Some (OTHER_TYPE "Camera")
       else if bool_decide (value = "Plug"%string) then Some (OTHER_TYPE "Plug")
       else None;
     Device_type := fun device =>
       if bool_decide (product_type device = "Light"%string) then LIGHT
       else if bool_decide (product_type device = "MeshLight"%string) then MESH_LIGHT
       else if bool_decide (product_type device = "LightStrip"%string) then LIGHTSTRIP
       else OTHER_TYPE "Unknown";
     BULB_LOCAL_CONTROL := "bulb_local_control" |}.

Definition device (type params_key : string) (param : pyvalue) : Device :=
  {| product_type := type; product_model := "WLPA19C"; mac := "7C78B2000001";
     nickname := "Desk"; parent_device_mac := None; firmware_ver := "1.2.3";
     available := true; device_params := {[ params_key := param ]} |}.

Definition bulb (type : string) (sun : bool) : Bulb.t :=
  {| Bulb.base := device type "rssi" (PyInt (-50)); Bulb.brightness := 40;
     Bulb.color := "ffffff"; Bulb.color_temp := 2700; Bulb.color_mode := "2";
     Bulb.effects := "0"; Bulb.sun_match := sun; Bulb.on := false;
     Bulb.cloud_fallback := false; Bulb.callback_function := None |}.

Definition camera (status : pyvalue) : Camera.t :=
  {| Camera.base := device "Camera" "spotlight_status" status;
     Camera.floodlight := false |}.

Definition bulb_service (bulbs : list Bulb.t) (manager : outcome unit)
    : BulbService :=
  {| get_bulbs := Returned bulbs;
     update := fun b => Returned (Bulb.set_brightness 75 b);
     start_update_manager := manager |}.

Definition camera_service (cameras : list Camera.t) (answer : outcome unit)
    : CameraService :=
  {| get_cameras := Returned cameras;
     floodlight_on := fun _ => answer;
     floodlight_off := fun _ => answer |}.

Definition config_entry : ConfigEntry :=
  {| entry_id := "entry-1";
     options := {[ "bulb_local_control"%string := PyBool true ]} |}.

Definition light (type : DeviceTypes) (type_value : string) (sun : bool)
    (just_updated : bool) (manager : outcome unit) : WyzeLight.t :=
  {| WyzeLight._device := bulb type_value sun;
     WyzeLight._service := bulb_service [] manager;
     WyzeLight._attr_device_info :=
       WyzeDeviceEntity.device_info (Bulb.base (bulb type_value sun));
     WyzeLight._device_type := type;
     WyzeLight._config_entry := config_entry;
     WyzeLight._local_control := PyNone;
     WyzeLight._just_updated := just_updated |}.

Definition world {E} (e : E) : World E :=
  {| this := e; loop := []; vendor_calls := [] |}.

Definition kwargs (brightness color_temp : kwarg Z) (hs_color : kwarg (Z * Z))
    (effect : kwarg string) : @WyzeLight.kwargs externals :=
  @WyzeLight.Build_kwargs externals brightness color_temp hs_color effect.

(** A mesh light with sun match on, and a plain light with sun match off. *)
Definition mesh_light : World WyzeLight.t :=
  world (light MESH_LIGHT "MeshLight" true false (Returned tt)).
Definition plain_light : World WyzeLight.t :=
  world (light LIGHT "Light" false false (Returned tt)).

(** A host with one client, two bulbs and three cameras. *)
Definition cameras : list Camera.t :=
  [camera (PyInt 1); camera (PyInt 0); camera (PyInt 2)].
Definition bulbs : list Bulb.t := [bulb "Light" false; bulb "MeshLight" true].
Definition client : Wyzeapy :=
  Build_Wyzeapy (Returned (camera_service cameras (Returned tt)))
               (Returned (bulb_service bulbs (Returned tt))).
Definition hass : World HomeAssistant :=
  world {| data := {[ "entry-1"%string := client ]}; added := [] |}.

End Sample.

(** ** light.py: the state properties of the entities *)

(** Truth value and [str] of a [dict] value. *)
Definition truthy (v : pyvalue) : bool :=
  match v with
  | PyNone => false
  | PyBool b => b
  | PyInt z => negb (z =? 0)
  | PyStr s => negb (String.eqb s EmptyString)
  end.

Definition py_str (v : pyvalue) : string :=
  match v with
  | PyNone => "None"
  | PyBool true => "True"
  | PyBool false => "False"
  | PyInt z => PyNum.str z
  | PyStr s => s
  end.

(** [a and b]: [a] when [a] is false, [b] otherwise. *)
Definition py_and (a b : pyvalue) : pyvalue := if truthy a then b else a.

(** The host's [ColorMode], as far as light.py names it. *)
Module ColorMode.
Inductive t : Type :=
| ONOFF
| COLOR_TEMP
| HS.
End ColorMode.

#[global] Instance ColorMode_eq_dec : EqDecision ColorMode.t.
Proof. solve_decision. Defined.

#[global] Instance ColorMode_countable : Countable ColorMode.t.
Proof.
  refine (inj_countable'
            (fun m => match m with
                      | ColorMode.ONOFF => 0%nat
                      | ColorMode.COLOR_TEMP => 1%nat
                      | ColorMode.HS => 2%nat
                      end)
            (fun n => match n with
                      | O => ColorMode.ONOFF
                      | S O => ColorMode.COLOR_TEMP
                      | _ => ColorMode.HS
                      end) _).
  intros []; reflexivity.
Defined.

Module WyzeLightState.

(** [name] and [unique_id] *)
Definition name (self : WyzeLight.t) : string :=
  nickname (Bulb.base (WyzeLight._device self)).
Definition unique_id (self : WyzeLight.t) : string :=
  mac (Bulb.base (WyzeLight._device self)).

(** [effect_list] *)
Definition effect_list (self : WyzeLight.t) : list string :=
  if WyzeLight.type_is (WyzeLight._device_type self) LIGHTSTRIP then
    [WyzeLight.EFFECT_SHADOW; WyzeLight.EFFECT_LEAP; WyzeLight.EFFECT_FLICKER;
     WyzeLight.EFFECT_SUN_MATCH]
  else [WyzeLight.EFFECT_SUN_MATCH].

(** [extra_state_attributes]: the dictionary [dev_info], filled in the
    order of the source. *)
Definition extra_state_attributes (self : WyzeLight.t) : gmap string pyvalue :=
  let device := WyzeLight._device self in
  let params := device_params (Bulb.base device) in
  let dev_info : gmap string pyvalue := ∅ in
  let dev_info :=
    if truthy (dict_get params "ip")
    then <["IP"%string := PyStr (py_str (dict_get params "ip"))]> dev_info
    else dev_info in
  let dev_info :=
    if truthy (dict_get params "rssi")
    then <["RSSI"%string := PyStr (py_str (dict_get params "rssi"))]> dev_info
    else dev_info in
  let dev_info :=
    if truthy (dict_get params "ssid")
    then <["SSID"%string := PyStr (py_str (dict_get params "ssid"))]> dev_info
    else dev_info in
  let dev_info :=
    <["Sun Match"%string := PyBool (Bulb.sun_match device)]> dev_info in
  let dev_info :=
    <["local_control"%string :=
        py_and (WyzeLight._local_control self)
               (PyBool (negb (Bulb.cloud_fallback device)))]> dev_info in
  let dev_info :=
    if WyzeLight.type_is (WyzeLight._device_type self) LIGHTSTRIP
       && String.eqb (Bulb.color_mode device) "3"
    then
      if String.eqb (Bulb.effects device) "1"
      then <["effect_mode"%string := PyStr "Shadow"]> dev_info
      else if String.eqb (Bulb.effects device) "2"
      then <["effect_mode"%string := PyStr "Leap"]> dev_info
      else if String.eqb (Bulb.effects device) "3"
      then <["effect_mode"%string := PyStr "Flicker"]> dev_info
      else dev_info
    else dev_info in
  let dev_info :=
    if WyzeLight.type_is (WyzeLight._device_type self) MESH_LIGHT
       || WyzeLight.type_is (WyzeLight._device_type self) LIGHTSTRIP
    then
      if String.eqb (Bulb.color_mode device) "1"
      then <["mode"%string := PyStr "Color"]> dev_info
      else if String.eqb (Bulb.color_mode device) "2"
      then <["mode"%string := PyStr "White"]> dev_info
      else if String.eqb (Bulb.color_mode device) "3"
      then <["mode"%string := PyStr "Effect"]> dev_info
      else dev_info
    else dev_info in
  dev_info.

Section Views.
Context `{Externals}.

(** [supported_color_modes] and [color_mode]: both look at the [type]
    property of the device, not at [_device_type]. *)
Definition supported_color_modes (self : WyzeLight.t) : gset ColorMode.t :=
  if WyzeLight.type_in (Device_type (Bulb.base (WyzeLight._device self)))
       [MESH_LIGHT; LIGHTSTRIP]
  then {[ ColorMode.COLOR_TEMP; ColorMode.HS ]}
  else {[ ColorMode.COLOR_TEMP ]}.

Definition color_mode (self : WyzeLight.t) : ColorMode.t :=
  if WyzeLight.type_is (Device_type (Bulb.base (WyzeLight._device self))) LIGHT
  then ColorMode.COLOR_TEMP
  else if String.eqb (Bulb.color_mode (WyzeLight._device self)) "2"
  then ColorMode.COLOR_TEMP
  else ColorMode.HS.

End Views.
End WyzeLightState.

Module WyzeCamerafloodlightState.

(** [name] and [unique_id] *)
Definition name (self : WyzeCamerafloodlight.t) : string :=
  (nickname (Camera.base (WyzeCamerafloodlight._device self)) +:+ " floodlight")%string.
Definition unique_id (self : WyzeCamerafloodlight.t) : string :=
  (mac (Camera.base (WyzeCamerafloodlight._device self)) +:+ "-floodlight")%string.

End WyzeCamerafloodlightState.

(** The [unique_id] of an entity handed to the host. *)
Definition entity_unique_id (e : Entity) : string :=
  match e with
  | LightEntity l => WyzeLightState.unique_id l
  | FloodlightEntity f => WyzeCamerafloodlightState.unique_id f
  end.

(** ** The device record after [async_turn_on], block by block *)

Section ExpectedDevice.
Context `{Externals}.

Definition brightness_dev (kw : WyzeLight.kwargs) (d : Bulb.t) : Bulb.t :=
  match kwargs_get (WyzeLight.ATTR_BRIGHTNESS kw) with
  | Some b =>
      match WyzeLight.brightness_to_percent b with
      | Returned p => Bulb.set_brightness p d
      | _ => d
      end
  | None => d
  end.

Definition sun_match_dev (kw : WyzeLight.kwargs) (d : Bulb.t) : Bulb.t :=
  if Bulb.sun_match d && WyzeLight.any_color_argument kw
  then Bulb.set_sun_match false d else d.

Definition color_temp_dev (kw : WyzeLight.kwargs) (device_type : DeviceTypes)
    (d : Bulb.t) : Bulb.t :=
  match kwargs_get (WyzeLight.ATTR_COLOR_TEMP kw) with
  | Some mired =>
      let kelvin := 1000000 / mired in
      Bulb.set_color (color_rgb_to_hex (color_temperature_to_rgb kelvin))
        (Bulb.set_color_temp kelvin
           (if has_color_mode device_type then Bulb.set_color_mode "2" d else d))
  | None => d
  end.

Definition hs_color_dev (kw : WyzeLight.kwargs) (device_type : DeviceTypes)
    (d : Bulb.t) : Bulb.t :=
  match kwargs_get (WyzeLight.ATTR_HS_COLOR kw) with
  | Some hs =>
      if has_color_mode device_type
      then Bulb.set_color_mode "1"
             (Bulb.set_color (color_rgb_to_hex (color_hs_to_RGB hs)) d)
      else d
  | None => d
  end.

Definition effect_dev (kw : WyzeLight.kwargs) (d : Bulb.t) : Bulb.t :=
  match kwargs_get (WyzeLight.ATTR_EFFECT kw) with
  | Some effect =>
      if bool_decide (effect = "sun match"%string)
      then Bulb.set_sun_match true d
      else
        let d := Bulb.set_color_mode "3" d in
        if bool_decide (effect = "shadow"%string) then Bulb.set_effects "1" d
        else if bool_decide (effect = "leap"%string) then Bulb.set_effects "2" d
        else if bool_decide (effect = "flicker"%string) then Bulb.set_effects "3" d
        else d
  | None => d
  end.

(** The device record when a call of [async_turn_on] has returned. *)
Definition expected_device (kw : WyzeLight.kwargs) (device_type : DeviceTypes)
    (d : Bulb.t) : Bulb.t :=
  Bulb.set_on true
    (effect_dev kw
       (hs_color_dev kw device_type
          (color_temp_dev kw device_type
             (sun_match_dev kw (brightness_dev kw d))))).

(** Whether the keyword arguments name an effect other than sun match. *)
Definition other_effect (kw : WyzeLight.kwargs) : bool :=
  match kwargs_get (WyzeLight.ATTR_EFFECT kw) with
  | Some effect => negb (bool_decide (effect = "sun match"%string))
  | None => false
  end.

End ExpectedDevice.

(** ** light.py: the update callback of a light *)

(** A signal sent through the host's dispatcher, with the bulb it carries. *)
Record Signal : Type := { signal : string; payload : Bulb.t }.

(** A computation on the entity's world, run where the dispatcher is also
    in the state. *)
Definition on_world {S T A} (m : M S A) : M (S * T) A :=
  fun s => let '(r, s1) := m (fst s) in (r, (s1, snd s)).

Section Callback.
Context `{Externals}.
Variable LIGHT_UPDATED : string.        (* the signal prefix of const.py *)

(** [async_update_callback(self, bulb)] *)
Definition async_update_callback (bulb : Bulb.t)
    : M (World WyzeLight.t * list Signal) unit :=
  (on_world (modify (with_this (WyzeLight.set__device bulb))) ;;
   on_world WyzeLight.read_local_control ;;
   self <- on_world (gets this) ;;
   modify (fun s =>
     (fst s,
      snd s ++ [{| signal := (LIGHT_UPDATED +:+ "-"
                              +:+ mac (Bulb.base (WyzeLight._device self)))%string;
                   payload := bulb |}])) ;;
   on_world async_schedule_update_ha_state)%py.

End Callback.


(** ** light.py: what the set-up hands to the host *)

(** The two errors with which the constructor of a light ends. *)
Definition init_error (e : exn) : Prop :=
  e = AttributeError "Device type not supported" \/ e = ValueError.

(** The identifiers the set-up gives the host for a list of bulbs and of
    cameras: the MAC of each bulb, then the MAC of each camera with a
    spotlight, followed by [-floodlight]. *)
Definition setup_unique_ids (bulbs : list Bulb.t) (cameras : list Camera.t)
    : list string :=
  map (fun bulb => mac (Bulb.base bulb)) bulbs
  ++ map (fun camera => (mac (Camera.base camera) +:+ "-floodlight")%string)
         (List.filter has_spotlight cameras).

(** ** Further sample values *)

Module MoreSamples.

(** A device with a given MAC and parent. *)
Definition device_at (type m : string) (parent : option string)
    (params_key : string) (param : pyvalue) : Device :=
  {| product_type := type; product_model := "WLPA19C"; mac := m;
     nickname := "Shelf"; parent_device_mac := parent; firmware_ver := "1.2.3";
     available := true; device_params := {[ params_key := param ]} |}.

Definition bulb_at (type m : string) : Bulb.t :=
  {| Bulb.base := device_at type m None "rssi" (PyInt (-60));
     Bulb.brightness := 40; Bulb.color := "ffffff"; Bulb.color_temp := 2700;
     Bulb.color_mode := "2"; Bulb.effects := "0"; Bulb.sun_match := false;
     Bulb.on := false; Bulb.cloud_fallback := false;
     Bulb.callback_function := None |}.

Definition camera_at (m : string) (status : pyvalue) : Camera.t :=
  {| Camera.base := device_at "Camera" m None "spotlight_status" status;
     Camera.floodlight := false |}.

(** A host whose one client answers with the given bulbs and cameras. *)
Definition hass_of (bulbs : list Bulb.t) (cameras : list Camera.t)
    : World HomeAssistant :=
  Sample.world
    {| data := {[ "entry-1"%string :=
                   Build_Wyzeapy
                     (Returned (Sample.camera_service cameras (Returned tt)))
                     (Returned (Sample.bulb_service bulbs (Returned tt))) ]};
       added := [] |}.

(** A light strip, and a light whose service fails every poll. *)
Definition strip_light : World WyzeLight.t :=
  Sample.world (Sample.light LIGHTSTRIP "LightStrip" false false (Returned tt)).

Definition failing_service : BulbService :=
  {| get_bulbs := Returned [];
     update := fun _ => Raised (VendorFailure "timeout");
     start_update_manager := Returned tt |}.

Definition failing_light : World WyzeLight.t :=
  Sample.world
    {| WyzeLight._device := Sample.bulb "Light" false;
       WyzeLight._service := failing_service;
       WyzeLight._attr_device_info :=
         WyzeDeviceEntity.device_info (Bulb.base (Sample.bulb "Light" false));
       WyzeLight._device_type := LIGHT;
       WyzeLight._config_entry := Sample.config_entry;
       WyzeLight._local_control := PyNone;
       WyzeLight._just_updated := false |}.

End MoreSamples.

(** * Properties *)

(** ** Numbers *)

Lemma forallb_seq_range (P : Z -> bool) (n : nat) :
  forallb (fun i => P (Z.of_nat i)) (seq 0 n) = true ->
  forall b, 0 <= b < Z.of_nat n -> P b = true.
Proof.
  intros Hall b Hb. rewrite forallb_forall in Hall.
  specialize (Hall (Z.to_nat b)). rewrite Z2Nat.id in Hall by lia.
  apply Hall. apply in_seq. lia.
Qed.

(** The literal [2.55] is the double nearest to 255/100. *)
Lemma lit_2_55_nearest :
  PyNum.lit_2_55 = PyNum.div (PyNum.of_int 255) (PyNum.of_int 100).
Proof. vm_compute. reflexivity. Qed.

(** On the host's range the float computation of the percentage gives the
    integer nearest to [100 * b / 255]; no [b] falls on a tie. *)
Lemma brightness_to_percent_nearest (b : Z) :
  0 <= b <= 255 ->
  WyzeLight.brightness_to_percent b = Returned ((200 * b + 255) / 510).
Proof.
  intros Hb.
  pose (P := fun b =>
    match WyzeLight.brightness_to_percent b with
    | Returned p => p =? (200 * b + 255) / 510
    | _ => false
    end).
  assert (HP : P b = true).
  { apply (forallb_seq_range P 256); [vm_compute; reflexivity | lia]. }
  unfold P in HP.
  destruct (WyzeLight.brightness_to_percent b); try discriminate.
  apply Z.eqb_eq in HP. congruence.
Qed.

Lemma percent_range (b : Z) :
  0 <= b <= 255 -> 0 <= (200 * b + 255) / 510 <= 100.
Proof.
  intros Hb. split.
  - apply Z.div_pos; lia.
  - assert ((200 * b + 255) / 510 < 101) by (apply Z.div_lt_upper_bound; lia).
    lia.
Qed.

(** C2. For a device whose brightness is a percentage in 0..100, the
    [brightness] property is [round(brightness * 2.55, 1)], a float between
    0.0 and 255.0; it is 0.0 at 0 and 255.0 at 100. *)
Theorem brightness_property_in_host_range (self : WyzeLight.t) :
  0 <= Bulb.brightness (WyzeLight._device self) <= 100 ->
  WyzeLight.brightness self
  = PyNum.round1 (PyNum.mul (PyNum.of_int (Bulb.brightness (WyzeLight._device self)))
                            PyNum.lit_2_55)
  /\ PyNum.leb (PyNum.of_int 0) (WyzeLight.brightness self) = true
  /\ PyNum.leb (WyzeLight.brightness self) (PyNum.of_int 255) = true
  /\ (Bulb.brightness (WyzeLight._device self) = 0 ->
      WyzeLight.brightness self = PyNum.of_int 0)
  /\ (Bulb.brightness (WyzeLight._device self) = 100 ->
      WyzeLight.brightness self = PyNum.of_int 255).
Proof.
  intros Hb. unfold WyzeLight.brightness.
  set (b := Bulb.brightness (WyzeLight._device self)) in *.
  pose (P := fun b =>
    let r := PyNum.round1 (PyNum.mul (PyNum.of_int b) PyNum.lit_2_55) in
    PyNum.leb (PyNum.of_int 0) r && PyNum.leb r (PyNum.of_int 255)).
  assert (HP : P b = true).
  { apply (forallb_seq_range P 101); [vm_compute; reflexivity | lia]. }
  unfold P in HP. apply andb_true_iff in HP as [Hlo Hhi].
  repeat split; try assumption.
  - intros ->. vm_compute. reflexivity.
  - intros ->. vm_compute. reflexivity.
Qed.

Lemma brightness_property_in_host_range_witness :
  let self := Sample.light LIGHT "Light" false false (Returned tt) in
  WyzeLight.brightness self = PyNum.of_int 102
  /\ PyNum.leb (WyzeLight.brightness self) (PyNum.of_int 255) = true.
Proof.
  pose proof (brightness_property_in_host_range
                (Sample.light LIGHT "Light" false false (Returned tt))) as W.
  simpl in W. destruct W as (_ & _ & Hhi & _); [lia |].
  split; [vm_compute; reflexivity | exact Hhi].
Defined.

(** ** The blocks of [async_turn_on] *)

Section LightBlocks.
Context `{Externals}.
Import WyzeLight.

Arguments PyNum.str : simpl never.

Ltac run :=
  unfold turn_on_brightness, turn_on_sun_match, turn_on_color_temp,
    turn_on_hs_color, turn_on_effect, read_local_control,
    set_device_field, when, bind, gets, ret, lift, modify, raise,
    color_util.color_temperature_mired_to_kelvin in *;
  repeat (case_match; simplify_eq/=); simplify_eq/=.

Lemma has_color_mode_in ty :
  type_in ty [MESH_LIGHT; LIGHTSTRIP] = has_color_mode ty.
Proof.
  unfold type_in, has_color_mode.
  destruct ty; reflexivity.
Qed.

Lemma has_color_mode_is ty :
  type_is ty MESH_LIGHT || type_is ty LIGHTSTRIP = has_color_mode ty.
Proof. reflexivity. Qed.

Lemma brightness_to_percent_cases b :
  (exists p, brightness_to_percent b = Returned p)
  \/ brightness_to_percent b = Raised OverflowError.
Proof. unfold brightness_to_percent. case_match; eauto. Qed.

Lemma turn_on_brightness_spec kw opts w r w' :
  turn_on_brightness kw opts w = (r, w') ->
  light_frame w w'
  /\ Bulb.sun_match (dev w') = Bulb.sun_match (dev w)
  /\ (forall o, r = Returned o -> o = opts ++ brightness_pairs kw)
  /\ (kwargs_get (ATTR_BRIGHTNESS kw) = None -> r = Returned opts /\ w' = w)
  /\ (forall b p, kwargs_get (ATTR_BRIGHTNESS kw) = Some b ->
      brightness_to_percent b = Returned p ->
      Bulb.brightness (dev w') = p /\ exists o, r = Returned o)
  /\ ((exists o, r = Returned o) \/ r = Raised OverflowError).
Proof.
  unfold brightness_pairs, light_frame, dev, turn_on_brightness. intros Hrun.
  destruct (kwargs_get (ATTR_BRIGHTNESS kw)) as [b|] eqn:Hb.
  - destruct (brightness_to_percent_cases b) as [[p Hp] | Hp];
      unfold bind, lift, ret, set_device_field, modify in Hrun;
      rewrite Hp in Hrun; simplify_eq/=; rewrite ?Hp; repeat split; try done;
      intros; simplify_eq; eauto; congruence.
  - unfold ret in Hrun. simplify_eq. repeat split; try done; eauto.
    intros; simplify_eq. by rewrite app_nil_r.
Qed.

Lemma turn_on_sun_match_spec kw opts w r w' :
  turn_on_sun_match kw opts w = (r, w') ->
  light_frame w w'
  /\ Bulb.brightness (dev w') = Bulb.brightness (dev w)
  /\ r = Returned (opts ++ sun_match_off_pairs kw (Bulb.sun_match (dev w)))
  /\ (Bulb.sun_match (dev w) = true -> any_color_argument kw = true ->
      Bulb.sun_match (dev w') = false)
  /\ (Bulb.sun_match (dev w) && any_color_argument kw = false -> w' = w).
Proof.
  unfold sun_match_off_pairs, light_frame, dev. intros Hrun. run.
  all: rewrite ?app_nil_r; repeat split; try done.
Qed.

Lemma turn_on_color_temp_spec kw opts w r w' :
  turn_on_color_temp kw opts w = (r, w') ->
  light_frame w w'
  /\ Bulb.brightness (dev w') = Bulb.brightness (dev w)
  /\ (forall o, r = Returned o ->
      o = opts ++ color_temp_pairs kw (_device_type (this w)))
  /\ (kwargs_get (ATTR_COLOR_TEMP kw) = None -> r = Returned opts /\ w' = w)
  /\ (forall mired, kwargs_get (ATTR_COLOR_TEMP kw) = Some mired ->
      if mired =? 0 then r = Raised ZeroDivisionError /\ w' = w
      else (exists o, r = Returned o)
           /\ Bulb.color_temp (dev w') = 1000000 / mired)
  /\ ((exists o, r = Returned o) \/ r = Raised ZeroDivisionError).
Proof.
  unfold color_temp_pairs, light_frame, dev. intros Hrun.
  rewrite <- has_color_mode_in. run.
  all: rewrite ?app_nil_r; repeat split; try done; intros; simplify_eq/=;
    try case_match; try done; eauto.
  all: try by rewrite <- app_assoc.
Qed.

Lemma turn_on_hs_color_spec kw opts w r w' :
  turn_on_hs_color kw opts w = (r, w') ->
  light_frame w w'
  /\ Bulb.brightness (dev w') = Bulb.brightness (dev w)
  /\ Bulb.color_temp (dev w') = Bulb.color_temp (dev w)
  /\ Bulb.sun_match (dev w') = Bulb.sun_match (dev w)
  /\ r = Returned (opts ++ hs_color_pairs kw (_device_type (this w))).
Proof.
  unfold hs_color_pairs, light_frame, dev. intros Hrun.
  rewrite <- has_color_mode_is. run.
  all: rewrite ?app_nil_r; repeat split; try done.
Qed.

Lemma turn_on_effect_spec kw opts w r w' :
  turn_on_effect kw opts w = (r, w') ->
  light_frame w w'
  /\ Bulb.brightness (dev w') = Bulb.brightness (dev w)
  /\ Bulb.color_temp (dev w') = Bulb.color_temp (dev w)
  /\ r = Returned (opts ++ effect_pairs kw).
Proof.
  unfold effect_pairs, light_frame, dev. intros Hrun.
  unfold turn_on_effect, EFFECT_SUN_MATCH, EFFECT_SHADOW, EFFECT_LEAP,
    EFFECT_FLICKER in Hrun.
  change (PyNum.str 1) with "1"%string in Hrun.
  change (PyNum.str 2) with "2"%string in Hrun.
  change (PyNum.str 3) with "3"%string in Hrun.
  destruct (kwargs_get (ATTR_EFFECT kw)) as [effect|].
  - repeat (case_bool_decide; try congruence); run;
      rewrite ?app_nil_r, <- ?app_assoc; repeat split; done.
  - run. rewrite app_nil_r. repeat split; done.
Qed.

Lemma async_turn_on_undecorated_spec kw w r w' :
  async_turn_on_undecorated kw w = (r, w') ->
  (r = Returned tt \/ r = Raised OverflowError \/ r = Raised ZeroDivisionError)
  /\ _device_type (this w') = _device_type (this w)
  /\ _service (this w') = _service (this w)
  /\ _config_entry (this w') = _config_entry (this w)
  /\ vendor_calls w' = vendor_calls w
  /\ (r = Returned tt ->
      loop w' = loop w ++
        [service_turn_on (_local_control (this w'))
           (expected_options kw (Bulb.sun_match (dev w)) (_device_type (this w)));
         update_ha_state]
      /\ Bulb.on (dev w') = true
      /\ _just_updated (this w') = true)
  /\ (r <> Returned tt ->
      loop w' = loop w
      /\ Bulb.on (dev w') = Bulb.on (dev w)
      /\ _just_updated (this w') = _just_updated (this w))
  /\ (forall b p, kwargs_get (ATTR_BRIGHTNESS kw) = Some b ->
      brightness_to_percent b = Returned p ->
      Bulb.brightness (dev w') = p)
  /\ (forall mired, kwargs_get (ATTR_COLOR_TEMP kw) = Some mired ->
      r = Returned tt ->
      mired <> 0 /\ Bulb.color_temp (dev w') = 1000000 / mired)
  /\ (turn_on_returns kw -> r = Returned tt).
Proof.
  intros Hrun. unfold async_turn_on_undecorated in Hrun.
  cbv [bind read_local_control modify] in Hrun.
  set (w0 := with_this _ w) in Hrun.
  destruct (turn_on_brightness kw [] w0) as [r1 w1] eqn:E1.
  destruct (turn_on_brightness_spec _ _ _ _ _ E1) as (F1 & S1 & O1 & N1 & B1 & C1).
  assert (Hret1 : turn_on_returns kw -> exists o, r1 = Returned o).
  { intros [Hb _]. destruct (kwargs_get (ATTR_BRIGHTNESS kw)) as [b|] eqn:Eb.
    - destruct (Hb b eq_refl) as [p Hp]. by destruct (B1 b p eq_refl Hp).
    - destruct N1 as [-> _]; eauto. }
  unfold light_frame, dev in *. subst w0. simpl in *. destruct_and!.
  destruct C1 as [[o1 ->] | ->]; cycle 1.
  { simplify_eq. repeat split; eauto; try congruence; try done.
    - intros b p Hb Hp. by destruct (B1 b p Hb Hp).
    - intros Hr. destruct (Hret1 Hr) as [o Ho]. done. }
  specialize (O1 o1 eq_refl). simpl in O1. subst o1.
  clear Hret1 N1.
  destruct (turn_on_sun_match kw _ w1) as [r2 w2] eqn:E2.
  destruct (turn_on_sun_match_spec _ _ _ _ _ E2) as (F2 & B2 & -> & _).
  destruct (turn_on_color_temp kw _ w2) as [r3 w3] eqn:E3.
  destruct (turn_on_color_temp_spec _ _ _ _ _ E3) as (F3 & B3 & O3 & N3 & T3 & C3).
  assert (Hret3 : turn_on_returns kw -> exists o, r3 = Returned o).
  { intros [_ Hm]. destruct (kwargs_get (ATTR_COLOR_TEMP kw)) as [m|] eqn:Em.
    - specialize (T3 m eq_refl). destruct (Z.eqb_spec m 0); [congruence|].
      by destruct T3.
    - destruct N3 as [-> _]; eauto. }
  unfold light_frame, dev in *. simpl in *. destruct_and!.
  destruct C3 as [[o3 ->] | ->]; cycle 1.
  { simplify_eq. repeat split; eauto; try congruence; try done.
    - intros b p Hb Hp. destruct (B1 b p Hb Hp). congruence.
    - intros Hr. destruct (Hret3 Hr) as [o Ho]. done. }
  specialize (O3 o3 eq_refl). subst o3.
  destruct (turn_on_hs_color kw _ w3) as [r4 w4] eqn:E4.
  destruct (turn_on_hs_color_spec _ _ _ _ _ E4) as (F4 & B4 & T4 & _ & ->).
  destruct (turn_on_effect kw _ w4) as [r5 w5] eqn:E5.
  destruct (turn_on_effect_spec _ _ _ _ _ E5) as (F5 & B5 & T5 & ->).
  clear E1 E2 E3 E4 E5 N3.
  unfold light_frame, dev in *. simpl in *. destruct_and!.
  cbv [gets create_task set_device_field modify async_schedule_update_ha_state]
    in Hrun.
  simplify_eq/=.
  repeat split; eauto; try congruence.
  - unfold expected_options. rewrite S1.
    replace (_device_type (this w2)) with (_device_type (this w)) by congruence.
    replace (_device_type (this w3)) with (_device_type (this w)) by congruence.
    replace (loop w5) with (loop w) by congruence.
    by rewrite <- !app_assoc.
  - intros b p Hb Hp. destruct (B1 b p Hb Hp). congruence.
  - specialize (T3 mired ltac:(assumption)).
    destruct (Z.eqb_spec mired 0); destruct T3; [discriminate | assumption].
  - specialize (T3 mired ltac:(assumption)).
    destruct (Z.eqb_spec mired 0); destruct T3; [discriminate | congruence].
Qed.

Lemma async_turn_on_decorated kw w :
  async_turn_on kw w = async_turn_on_undecorated kw w.
Proof.
  unfold async_turn_on, token_exception_handler.
  destruct (async_turn_on_undecorated kw w) as [r w'] eqn:E.
  destruct (async_turn_on_undecorated_spec _ _ _ _ E) as ([-> | [-> | ->]] & _);
    reflexivity.
Qed.

Lemma async_turn_off_eq w :
  async_turn_off w =
  (Returned tt,
   {| this := set__just_updated true
        (set__device (Bulb.set_on false (dev w))
           (set__local_control
              (dict_get (options (_config_entry (this w))) BULB_LOCAL_CONTROL)
              (this w)));
      loop := loop w ++
        [service_turn_off
           (dict_get (options (_config_entry (this w))) BULB_LOCAL_CONTROL);
         update_ha_state];
      vendor_calls := vendor_calls w |}).
Proof.
  unfold async_turn_off, token_exception_handler, async_turn_off_undecorated.
  cbv [bind read_local_control modify gets create_task set_device_field
       async_schedule_update_ha_state with_this]. simpl.
  by rewrite <- app_assoc.
Qed.

(** The frame of a call that supplies at most a brightness: the colour
    fields, the effects and the sun-match flag of the device stay as they
    were, and the command list holds [BRIGHTNESS] pairs only. *)
Lemma turn_on_brightness_only_frame (kw : kwargs) (w w' : World WyzeLight.t)
    (r : outcome unit) :
  kwargs_get (ATTR_COLOR_TEMP kw) = None ->
  kwargs_get (ATTR_HS_COLOR kw) = None ->
  kwargs_get (ATTR_EFFECT kw) = None ->
  async_turn_on kw w = (r, w') ->
  Bulb.sun_match (dev w') = Bulb.sun_match (dev w)
  /\ Bulb.color_mode (dev w') = Bulb.color_mode (dev w)
  /\ Bulb.color (dev w') = Bulb.color (dev w)
  /\ Bulb.color_temp (dev w') = Bulb.color_temp (dev w)
  /\ Bulb.effects (dev w') = Bulb.effects (dev w)
  /\ (r = Returned tt ->
      (exists local_control,
         loop w' = loop w ++ [service_turn_on local_control (brightness_pairs kw);
                              update_ha_state])
      /\ forall p, In p (brightness_pairs kw) -> pid p = BRIGHTNESS).
Proof.
  intros Hct Hhs Heff Hrun. rewrite async_turn_on_decorated in Hrun.
  assert (Hany : any_color_argument kw = false).
  { unfold any_color_argument. rewrite Hhs.
    destruct (ATTR_COLOR_TEMP kw) as [| [m |]]; try reflexivity. discriminate. }
  unfold async_turn_on_undecorated, turn_on_brightness, turn_on_sun_match,
    turn_on_color_temp, turn_on_hs_color, turn_on_effect in Hrun.
  rewrite Hct, Hhs, Heff, Hany in Hrun. unfold brightness_pairs, dev.
  cbv [bind read_local_control modify gets ret lift create_task
       set_device_field async_schedule_update_ha_state with_this] in Hrun.
  simpl in Hrun.
  assert (Hone : forall q x, In q [create_pid_pair BRIGHTNESS x] ->
                        pid q = BRIGHTNESS) by (by intros q x [<- | []]).
  destruct (kwargs_get (ATTR_BRIGHTNESS kw)) as [b |].
  - destruct (brightness_to_percent_cases b) as [[p Hp] | Hp];
      rewrite Hp in Hrun |- *; simpl in Hrun.
    + destruct (Bulb.sun_match (_device (this w))) eqn:Hsm;
        injection Hrun as <- <-; simpl; split_and!; try done; intros _;
        (split; [rewrite <- app_assoc; by eexists | eauto]).
    + injection Hrun as <- <-. simpl. split_and!; done.
  - simpl in Hrun. destruct (Bulb.sun_match (_device (this w))) eqn:Hsm;
      injection Hrun as <- <-; simpl; split_and!; try done; intros _;
      (split; [rewrite <- app_assoc; by eexists | by intros q []]).
Qed.
(** ** The light entity *)

(** C1. When [async_turn_on] is called with a host brightness [b] in
    0..255, the percentage [round((b / 255) * 100)] is the integer nearest
    to [100 * b / 255]; the device record holds it as its brightness when
    the call ends, and when the call returns the command list handed to
    the service contains the [BRIGHTNESS] pair whose value is the string
    of that percentage.  The call returns unless a colour temperature of 0
    mireds is passed with it. *)
Theorem turn_on_brightness_sent_as_percentage (kw : kwargs)
    (w : World WyzeLight.t) (b : Z) :
  kwargs_get (ATTR_BRIGHTNESS kw) = Some b ->
  0 <= b <= 255 ->
  let p := (200 * b + 255) / 510 in
  brightness_to_percent b = Returned p
  /\ 0 <= p <= 100
  /\ forall r w', async_turn_on kw w = (r, w') ->
       Bulb.brightness (dev w') = p
       /\ (r = Returned tt ->
           exists local_control options,
             loop w' = loop w ++ [service_turn_on local_control options;
                                  update_ha_state]
             /\ In (create_pid_pair BRIGHTNESS (PyNum.str p)) options)
       /\ (kwargs_get (ATTR_COLOR_TEMP kw) <> Some 0 -> r = Returned tt).
Proof.
  intros Hkw Hb p.
  pose proof (brightness_to_percent_nearest b Hb) as Hp. fold p in Hp.
  split; [exact Hp |]. split; [apply percent_range; exact Hb |].
  intros r w' Hrun. rewrite async_turn_on_decorated in Hrun.
  destruct (async_turn_on_undecorated_spec _ _ _ _ Hrun)
    as (_ & _ & _ & _ & _ & Hret & _ & Hbr & _ & Htot).
  split; [eauto |]. split.
  - intros Hr. destruct (Hret Hr) as (Hloop & _).
    eexists _, _. split; [exact Hloop |].
    unfold expected_options, brightness_pairs. rewrite Hkw, Hp.
    apply in_or_app. left. left. reflexivity.
  - intros Hct. apply Htot. split; [| exact Hct].
    intros b' Hb'. rewrite Hkw in Hb'. injection Hb' as <-. eauto.
Qed.

(** The two conversions one after the other: rounding down twice gives
    back at least [mired], off by less than [mired / kelvin], and exactly
    [mired] up to 1000 mireds. *)
Lemma mired_kelvin_mired (mired : Z) :
  1 <= mired <= 1000000 ->
  let kelvin := 1000000 / mired in
  let m' := 1000000 / kelvin in
  1 <= kelvin /\ mired <= m' /\ (m' - mired) * kelvin < mired
  /\ (mired <= 1000 -> m' = mired).
Proof.
  intros Hm kelvin m'.
  assert (Hk1 : 1 <= kelvin) by (apply Z.div_le_lower_bound; lia).
  assert (Hk2 : kelvin * mired <= 1000000)
    by (rewrite Z.mul_comm; apply Z.mul_div_le; lia).
  assert (Hk3 : 1000000 < (kelvin + 1) * mired).
  { pose proof (Z.mod_pos_bound 1000000 mired ltac:(lia)) as Hmod.
    pose proof (Z.div_mod 1000000 mired ltac:(lia)) as Hdiv.
    fold kelvin in Hdiv. lia. }
  assert (Hm1 : m' * kelvin <= 1000000)
    by (rewrite Z.mul_comm; apply Z.mul_div_le; lia).
  assert (Hm2 : mired <= m') by (apply Z.div_le_lower_bound; lia).
  split; [exact Hk1 |]. split; [exact Hm2 |]. split; [nia |].
  intros Hsmall.
  assert (1000 <= kelvin) by (apply Z.div_le_lower_bound; lia).
  nia.
Qed.

(** C3. The [color_temp] property is the mired conversion of the Kelvin
    value of the device.  When [async_turn_on] returns from a call with a
    colour temperature of [mired] mireds, the device holds the Kelvin
    conversion [1000000 / mired].  Reading [color_temp] then gives [mired]
    again up to the rounding down of the two conversions: for [mired] from
    1 to 1000000 (a Kelvin value of at least 1) it is a value [m'] with
    [mired <= m'] and [(m' - mired) * kelvin < mired], and it is [mired]
    itself up to 1000 mireds, so on all of [min_mireds .. max_mireds]. *)
Theorem color_temp_round_trip (kw : kwargs) (w w' : World WyzeLight.t)
    (mired : Z) :
  kwargs_get (ATTR_COLOR_TEMP kw) = Some mired ->
  async_turn_on kw w = (Returned tt, w') ->
  color_temp (this w')
  = color_util.color_temperature_kelvin_to_mired (Bulb.color_temp (dev w'))
  /\ color_util.color_temperature_mired_to_kelvin mired
     = Returned (1000000 / mired)
  /\ Bulb.color_temp (dev w') = 1000000 / mired
  /\ (1 <= mired <= 1000000 ->
      exists m',
        color_temp (this w') = Returned m'
        /\ m' = 1000000 / (1000000 / mired)
        /\ mired <= m'
        /\ (m' - mired) * (1000000 / mired) < mired
        /\ (mired <= 1000 -> m' = mired))
  /\ (forall lo hi,
        min_mireds (this w') = Returned lo ->
        max_mireds (this w') = Returned hi ->
        lo <= mired <= hi ->
        color_temp (this w') = Returned mired).
Proof.
  intros Hkw Hrun. rewrite async_turn_on_decorated in Hrun.
  destruct (async_turn_on_undecorated_spec _ _ _ _ Hrun)
    as (_ & _ & _ & _ & _ & _ & _ & _ & Hct & _).
  destruct (Hct mired Hkw eq_refl) as [Hne Hk].
  assert (Hread : 1 <= mired <= 1000000 ->
            color_temp (this w') = Returned (1000000 / (1000000 / mired))).
  { intros Hm. destruct (mired_kelvin_mired mired Hm) as (Hk1 & _).
    unfold color_temp, color_util.color_temperature_kelvin_to_mired.
    fold (dev w'). rewrite Hk.
    destruct (Z.eqb_spec (1000000 / mired) 0); [lia | reflexivity]. }
  split; [reflexivity |]. split.
  { unfold color_util.color_temperature_mired_to_kelvin.
    destruct (Z.eqb_spec mired 0); [contradiction | reflexivity]. }
  split; [exact Hk |]. split.
  - intros Hm. destruct (mired_kelvin_mired mired Hm) as (_ & Hle & Herr & Hsame).
    eexists. split; [exact (Hread Hm) |]. repeat split; assumption.
  - intros lo hi Hlo Hhi Hrange.
    assert (Hm : 154 <= mired <= 554).
    { unfold min_mireds, max_mireds in *.
      change (color_util.color_temperature_kelvin_to_mired 6500)
        with (@Returned Z 153) in Hlo.
      change (color_util.color_temperature_kelvin_to_mired 1800)
        with (@Returned Z 555) in Hhi.
      change (color_util.color_temperature_kelvin_to_mired 2700)
        with (@Returned Z 370) in Hhi.
      injection Hlo as <-.
      destruct (type_is _ _); injection Hhi as <-; lia. }
    rewrite Hread by lia. f_equal.
    apply (mired_kelvin_mired mired); lia.
Qed.

(** C4. [async_turn_on] and [async_turn_off] only queue the service call
    on the event loop: when they return the call is still waiting there,
    no vendor call has been made, and the device record already says on
    (after [async_turn_off]: off).  [async_turn_off] always returns, and
    [async_turn_on] returns for arguments that convert. *)
Theorem turn_on_off_optimistic (kw : kwargs) (w : World WyzeLight.t) :
  (forall w', async_turn_on kw w = (Returned tt, w') ->
     (exists local_control options,
        loop w' = loop w ++ [service_turn_on local_control options;
                             update_ha_state])
     /\ vendor_calls w' = vendor_calls w
     /\ Bulb.on (dev w') = true
     /\ is_on (this w') = true)
  /\ (exists w' local_control,
        async_turn_off w = (Returned tt, w')
        /\ loop w' = loop w ++ [service_turn_off local_control; update_ha_state]
        /\ vendor_calls w' = vendor_calls w
        /\ Bulb.on (dev w') = false
        /\ is_on (this w') = false)
  /\ (turn_on_returns kw -> exists w', async_turn_on kw w = (Returned tt, w')).
Proof.
  split; [| split].
  - intros w' Hrun. rewrite async_turn_on_decorated in Hrun.
    destruct (async_turn_on_undecorated_spec _ _ _ _ Hrun)
      as (_ & _ & _ & _ & Hcalls & Hret & _).
    destruct (Hret eq_refl) as (Hloop & Hon & _).
    repeat split; eauto.
  - rewrite async_turn_off_eq. eexists _, _. repeat split.
  - intros Hok. rewrite async_turn_on_decorated.
    destruct (async_turn_on_undecorated kw w) as [r w'] eqn:Hrun.
    destruct (async_turn_on_undecorated_spec _ _ _ _ Hrun)
      as (_ & _ & _ & _ & _ & _ & _ & _ & _ & Htot).
    rewrite (Htot Hok). eauto.
Qed.

(** C10. [async_update] asks the service for the device exactly when
    [_just_updated] is false.  When the flag is true it only clears the
    flag.  A command that returns leaves the flag true, so of the updates
    that follow a command the first is skipped and the second asks. *)
Theorem update_skipped_once_after_command (w : World WyzeLight.t) :
  (_just_updated (this w) = true ->
     async_update w = (Returned tt, with_this (set__just_updated false) w))
  /\ (_just_updated (this w) = false ->
      exists r w',
        async_update w = (r, w')
        /\ vendor_calls w' = vendor_calls w ++ [call_update]
        /\ (forall d, update (_service (this w)) (dev w) = Returned d ->
            r = Returned tt /\ this w' = set__device d (this w)))
  /\ (forall r w', async_update w = (r, w') ->
      (vendor_calls w' = vendor_calls w ++ [call_update]
       <-> _just_updated (this w) = false))
  /\ (forall kw w1, async_turn_on kw w = (Returned tt, w1) ->
      _just_updated (this w1) = true)
  /\ (forall w1, async_turn_off w = (Returned tt, w1) ->
      _just_updated (this w1) = true)
  /\ (_just_updated (this w) = true ->
      exists w2,
        async_update w = (Returned tt, w2)
        /\ vendor_calls w2 = vendor_calls w
        /\ dev w2 = dev w
        /\ forall r w3, async_update w2 = (r, w3) ->
             vendor_calls w3 = vendor_calls w ++ [call_update]).
Proof.
  assert (Hskip : forall v, _just_updated (this v) = true ->
            async_update v = (Returned tt, with_this (set__just_updated false) v)).
  { intros v Hv. unfold async_update, token_exception_handler,
      async_update_undecorated. cbv [bind gets modify]. rewrite Hv. reflexivity. }
  assert (Hask : forall v r v', _just_updated (this v) = false ->
            async_update v = (r, v') ->
            vendor_calls v' = vendor_calls v ++ [call_update]
            /\ (forall d, update (_service (this v)) (dev v) = Returned d ->
                r = Returned tt /\ this v' = set__device d (this v))).
  { intros v r v' Hv. unfold async_update, token_exception_handler,
      async_update_undecorated, dev. cbv [bind gets modify perform lift].
    rewrite Hv. simpl.
    destruct (update (_service (this v)) (_device (this v))) as [d | e |];
      [| destruct e |]; intros [= <- <-]; split; try done;
      intros d' [= <-]; done. }
  split; [apply Hskip |]. split.
  { intros Hw. destruct (async_update w) as [r w'] eqn:E.
    exists r, w'. split; [reflexivity |]. eapply Hask; eauto. }
  split.
  { intros r w' Hrun. destruct (_just_updated (this w)) eqn:Hw.
    - rewrite (Hskip w Hw) in Hrun. injection Hrun as <- <-. simpl.
      split; [| discriminate]. intros Heq.
      apply (f_equal length) in Heq. rewrite length_app in Heq. simpl in Heq.
      lia.
    - split; [reflexivity |]. intros _. eapply Hask; eauto. }
  split.
  { intros kw w1 Hrun. rewrite async_turn_on_decorated in Hrun.
    destruct (async_turn_on_undecorated_spec _ _ _ _ Hrun)
      as (_ & _ & _ & _ & _ & Hret & _).
    by destruct (Hret eq_refl) as (_ & _ & ?). }
  split.
  { intros w1. rewrite async_turn_off_eq. by intros [= <-]. }
  intros Hw. eexists. split; [apply (Hskip w Hw) |]. simpl.
  repeat split. intros r w3 Hrun.
  by destruct (Hask (with_this (set__just_updated false) w) r w3 eq_refl Hrun)
    as [-> _].
Qed.

End LightBlocks.

(** ** Construction and set-up *)

Section PlatformClaims.
Context `{Externals}.

Lemma type_in_lights (device_type : DeviceTypes) :
  WyzeLight.type_in device_type [LIGHT; MESH_LIGHT; LIGHTSTRIP] = true
  <-> device_type ∈ [LIGHT; MESH_LIGHT; LIGHTSTRIP].
Proof. unfold WyzeLight.type_in. apply bool_decide_eq_true. Qed.

Lemma init_cases (bulb : Bulb.t) (bulb_service : BulbService)
    (config_entry : ConfigEntry) :
  match DeviceTypes_call (product_type (Bulb.base bulb)) with
  | None => WyzeLight.__init__ bulb bulb_service config_entry = Raised ValueError
  | Some device_type =>
      if WyzeLight.type_in device_type [LIGHT; MESH_LIGHT; LIGHTSTRIP] then
        exists self,
          WyzeLight.__init__ bulb bulb_service config_entry = Returned self
          /\ WyzeLight._device_type self = device_type
          /\ WyzeLight._device self = bulb
          /\ WyzeLight._service self = bulb_service
          /\ WyzeLight._just_updated self = false
      else
        WyzeLight.__init__ bulb bulb_service config_entry
        = Raised (AttributeError "Device type not supported")
  end.
Proof.
  unfold WyzeLight.__init__.
  destruct (DeviceTypes_call (product_type (Bulb.base bulb))) as [ty |];
    [| reflexivity].
  destruct (WyzeLight.type_in ty [LIGHT; MESH_LIGHT; LIGHTSTRIP]); simpl;
    [eexists; repeat split | reflexivity].
Qed.

(** C8, as the code has it.  The constructor raises [AttributeError] exactly
    when the product type is the value of a member of [DeviceTypes] other
    than [LIGHT], [MESH_LIGHT] and [LIGHTSTRIP], and [ValueError] exactly
    when it is the value of no member; it raises nothing else, and every
    light it returns has one of the three device types. *)
Theorem light_init_device_type (bulb : Bulb.t) (bulb_service : BulbService)
    (config_entry : ConfigEntry) :
  (WyzeLight.__init__ bulb bulb_service config_entry
   = Raised (AttributeError "Device type not supported")
   <-> exists device_type,
         DeviceTypes_call (product_type (Bulb.base bulb)) = Some device_type
         /\ device_type ∉ [LIGHT; MESH_LIGHT; LIGHTSTRIP])
  /\ (WyzeLight.__init__ bulb bulb_service config_entry = Raised ValueError
      <-> DeviceTypes_call (product_type (Bulb.base bulb)) = None)
  /\ (forall e, WyzeLight.__init__ bulb bulb_service config_entry = Raised e ->
      e = AttributeError "Device type not supported" \/ e = ValueError)
  /\ WyzeLight.__init__ bulb bulb_service config_entry <> Reauth
  /\ (forall self,
        WyzeLight.__init__ bulb bulb_service config_entry = Returned self ->
        WyzeLight._device_type self ∈ [LIGHT; MESH_LIGHT; LIGHTSTRIP]
        /\ DeviceTypes_call (product_type (Bulb.base bulb))
           = Some (WyzeLight._device_type self)
        /\ WyzeLight._device self = bulb)
  /\ (supported_bulb bulb ->
      exists self, WyzeLight.__init__ bulb bulb_service config_entry = Returned self).
Proof.
  pose proof (init_cases bulb bulb_service config_entry) as Hc.
  destruct (DeviceTypes_call (product_type (Bulb.base bulb))) as [ty |] eqn:Hty.
  - destruct (WyzeLight.type_in ty [LIGHT; MESH_LIGHT; LIGHTSTRIP]) eqn:Hin.
    + apply type_in_lights in Hin.
      destruct Hc as (self & Hc & Hself & Hdev & _). rewrite Hc.
      split. { split; [intros [=] | by intros (ty' & [= <-] & Hnot)]. }
      split. { split; intros [=]. }
      split. { intros e [=]. }
      split. { done. }
      split. { intros self' [= <-]. by rewrite Hself. }
      eauto.
    + assert (Hnot : ty ∉ [LIGHT; MESH_LIGHT; LIGHTSTRIP]).
      { intros Hyes. apply type_in_lights in Hyes. congruence. }
      rewrite Hc.
      split. { split; [eauto | done]. }
      split. { split; intros [=]. }
      split. { intros e [= <-]. by left. }
      split. { done. }
      split. { intros self [=]. }
      unfold supported_bulb. rewrite Hty. by intros (ty' & [= <-] & Hyes).
  - rewrite Hc.
    split. { split; [intros [=] | by intros (ty' & [=] & _)]. }
    split. { done. }
    split. { intros e [= <-]. by right. }
    split. { done. }
    split. { intros self [=]. }
    unfold supported_bulb. rewrite Hty. by intros (ty' & [=] & _).
Qed.

Lemma init_supported (bulb : Bulb.t) (bulb_service : BulbService)
    (config_entry : ConfigEntry) :
  supported_bulb bulb ->
  exists self,
    WyzeLight.__init__ bulb bulb_service config_entry = Returned self
    /\ WyzeLight._device self = bulb.
Proof.
  intros (ty & Hty & Hin).
  pose proof (init_cases bulb bulb_service config_entry) as Hc.
  rewrite Hty in Hc. apply type_in_lights in Hin. rewrite Hin in Hc.
  destruct Hc as (self & Hself & _ & Hdev & _). eauto.
Qed.

Lemma mapM_init (bulb_service : BulbService) (config_entry : ConfigEntry)
    (bulbs : list Bulb.t) (w : World HomeAssistant) :
  Forall supported_bulb bulbs ->
  exists lights,
    mapM (fun light => lift (WyzeLight.__init__ light bulb_service config_entry))
         bulbs w = (Returned lights, w)
    /\ Forall2 (fun bulb light =>
                  WyzeLight.__init__ bulb bulb_service config_entry = Returned light
                  /\ WyzeLight._device light = bulb) bulbs lights.
Proof.
  induction 1 as [| bulb bulbs Hb _ IH].
  - exists []. split; [reflexivity | constructor].
  - destruct IH as (lights & Hrun & Hall).
    destruct (init_supported bulb bulb_service config_entry Hb)
      as (self & Hself & Hdev).
    exists (self :: lights). split.
    + simpl. unfold bind at 1. unfold lift at 1. rewrite Hself.
      unfold bind. rewrite Hrun. reflexivity.
    + constructor; [split |]; assumption.
Qed.

Lemma append_floodlights_spec (camera_service : CameraService)
    (cameras : list Camera.t) (lights : list Entity) (w : World HomeAssistant) :
  Forall (fun camera => is_number (spotlight_status camera)) cameras ->
  append_floodlights camera_service cameras lights w
  = (Returned
       (lights ++
        map (fun camera =>
               FloodlightEntity (WyzeCamerafloodlight.__init__ camera camera_service))
            (List.filter has_spotlight cameras)), w).
Proof.
  intros Hall. revert lights.
  induction Hall as [| camera cameras Hn _ IH]; intros lights.
  - simpl. by rewrite app_nil_r.
  - simpl. unfold bind at 1. unfold lift at 1.
    unfold has_spotlight, spotlight_status, is_number in *.
    destruct (dict_get_default _ _ _) as [| b | z |]; try done; simpl.
    + rewrite IH. destruct b; simpl; [by rewrite <- app_assoc | done].
    + rewrite IH. destruct (0 <? z); simpl; [by rewrite <- app_assoc | done].
Qed.

(** C6. When the client and its services answer, every bulb of
    [get_bulbs] has a supported product type and every
    ["spotlight_status"] is a number, [async_setup_entry] returns after
    one call of [async_add_entities]: its list holds one [WyzeLight] per
    bulb, built from that bulb, then one [WyzeCamerafloodlight] per camera
    whose ["spotlight_status"] (0 when absent) is above 0, and nothing
    else. *)
Theorem setup_adds_lights_and_floodlights (config_entry : ConfigEntry)
    (w : World HomeAssistant) (client : Wyzeapy) (cameras_of : CameraService)
    (bulbs_of : BulbService) (bulbs : list Bulb.t) (cameras : list Camera.t) :
  data (this w) !! entry_id config_entry = Some client ->
  camera_service client = Returned cameras_of ->
  bulb_service client = Returned bulbs_of ->
  get_bulbs bulbs_of = Returned bulbs ->
  get_cameras cameras_of = Returned cameras ->
  Forall supported_bulb bulbs ->
  Forall (fun camera => is_number (spotlight_status camera)) cameras ->
  exists lights w',
    async_setup_entry config_entry w = (Returned tt, w')
    /\ Forall2 (fun bulb light =>
                  WyzeLight.__init__ bulb bulbs_of config_entry = Returned light
                  /\ WyzeLight._device light = bulb) bulbs lights
    /\ added (this w')
       = added (this w) ++
         [(map LightEntity lights ++
           map (fun camera =>
                  FloodlightEntity (WyzeCamerafloodlight.__init__ camera cameras_of))
               (List.filter has_spotlight cameras), true)]
    /\ length lights = length bulbs
    /\ data (this w') = data (this w)
    /\ loop w' = loop w.
Proof.
  intros Hclient Hcs Hbs Hbulbs Hcams Hsup Hnum.
  unfold async_setup_entry, token_exception_handler, async_setup_entry_undecorated.
  cbv [bind gets perform modify lift]. rewrite Hclient, Hcs, Hbs, Hbulbs.
  match goal with
  | |- context [mapM ?f bulbs ?v] =>
      destruct (mapM_init bulbs_of config_entry bulbs v Hsup)
        as (lights & Hrun & Hall);
      change (mapM f bulbs v = (Returned lights, v)) in Hrun
  end.
  rewrite Hrun, Hcams.
  match goal with
  | |- context [append_floodlights ?s ?c ?l ?v] =>
      rewrite (append_floodlights_spec s c l v Hnum)
  end.
  exists lights. eexists. split; [reflexivity |]. simpl.
  repeat split; try done.
  symmetry. eapply Forall2_length. exact Hall.
Qed.

(** How a decorated operation ends, from the answer of the one vendor
    call it waits for. *)
Lemma handler_of_raise {S A} (func : M S A) (s : S) :
  token_exception_handler func s
  = match func s with
    | (Raised e, s') => (handled e, s')
    | r => r
    end.
Proof.
  unfold token_exception_handler.
  destruct (func s) as [[a | e |] s']; try reflexivity. by destruct e.
Qed.

(** C5, as the code has it.  [async_setup_entry], the [async_turn_on],
    [async_turn_off] and [async_update] of [WyzeLight] and the
    [async_turn_on] and [async_turn_off] of [WyzeCamerafloodlight] are
    their bodies under [token_exception_handler]: an authentication
    failure raised in the body ends in the re-authentication flow, and
    every other exception leaves as it was raised.  The vendor calls that
    are waited for (the four of the set-up, [update], [floodlight_on],
    [floodlight_off]) reach the decorator with their failure; the
    [turn_on] and [turn_off] of the bulb service are only queued, so
    [WyzeLight.async_turn_on] and [async_turn_off] make no vendor call and
    never end in the re-authentication flow. *)
Theorem vendor_operations_wrapped :
  (forall (S A : Type) (func : M S A) (s : S),
     token_exception_handler func s
     = match func s with
       | (Raised e, s') => (handled e, s')
       | r => r
       end)
  /\ (forall w : World WyzeCamerafloodlight.t,
        fst (WyzeCamerafloodlight.async_turn_on w)
        = match floodlight_on (WyzeCamerafloodlight._service (this w))
                              (WyzeCamerafloodlight._device (this w)) with
          | Returned _ => Returned tt
          | Raised e => handled e
          | Reauth => Reauth
          end)
  /\ (forall w : World WyzeCamerafloodlight.t,
        fst (WyzeCamerafloodlight.async_turn_off w)
        = match floodlight_off (WyzeCamerafloodlight._service (this w))
                               (WyzeCamerafloodlight._device (this w)) with
          | Returned _ => Returned tt
          | Raised e => handled e
          | Reauth => Reauth
          end)
  /\ (forall w : World WyzeLight.t,
        WyzeLight._just_updated (this w) = false ->
        fst (WyzeLight.async_update w)
        = match update (WyzeLight._service (this w)) (dev w) with
          | Returned _ => Returned tt
          | Raised e => handled e
          | Reauth => Reauth
          end)
  /\ (forall (kw : WyzeLight.kwargs) (w : World WyzeLight.t),
        (fst (WyzeLight.async_turn_on kw w) = Returned tt
         \/ fst (WyzeLight.async_turn_on kw w) = Raised OverflowError
         \/ fst (WyzeLight.async_turn_on kw w) = Raised ZeroDivisionError)
        /\ vendor_calls (snd (WyzeLight.async_turn_on kw w)) = vendor_calls w
        /\ fst (WyzeLight.async_turn_off w) = Returned tt
        /\ vendor_calls (snd (WyzeLight.async_turn_off w)) = vendor_calls w)
  /\ (forall (config_entry : ConfigEntry) (w : World HomeAssistant)
             (client : Wyzeapy),
        data (this w) !! entry_id config_entry = Some client ->
        (forall e, camera_service client = Raised e ->
           fst (async_setup_entry config_entry w) = handled e)
        /\ (forall cameras_of e,
              camera_service client = Returned cameras_of ->
              bulb_service client = Raised e ->
              fst (async_setup_entry config_entry w) = handled e)
        /\ (forall cameras_of bulbs_of e,
              camera_service client = Returned cameras_of ->
              bulb_service client = Returned bulbs_of ->
              get_bulbs bulbs_of = Raised e ->
              fst (async_setup_entry config_entry w) = handled e)
        /\ (forall cameras_of bulbs_of bulbs e,
              camera_service client = Returned cameras_of ->
              bulb_service client = Returned bulbs_of ->
              get_bulbs bulbs_of = Returned bulbs ->
              Forall supported_bulb bulbs ->
              get_cameras cameras_of = Raised e ->
              fst (async_setup_entry config_entry w) = handled e)).
Proof.
  split; [intros; apply handler_of_raise |].
  split.
  { intros w. unfold WyzeCamerafloodlight.async_turn_on.
    rewrite handler_of_raise.
    unfold WyzeCamerafloodlight.async_turn_on_undecorated.
    cbv [bind gets perform modify lift async_schedule_update_ha_state create_task].
    simpl. by destruct (floodlight_on _ _). }
  split.
  { intros w. unfold WyzeCamerafloodlight.async_turn_off.
    rewrite handler_of_raise.
    unfold WyzeCamerafloodlight.async_turn_off_undecorated.
    cbv [bind gets perform modify lift async_schedule_update_ha_state create_task].
    simpl. by destruct (floodlight_off _ _). }
  split.
  { intros w Hw. unfold WyzeLight.async_update. rewrite handler_of_raise.
    unfold WyzeLight.async_update_undecorated, dev.
    cbv [bind gets perform modify lift]. rewrite Hw. simpl.
    by destruct (update _ _). }
  split.
  { intros kw w. rewrite async_turn_on_decorated, async_turn_off_eq.
    destruct (WyzeLight.async_turn_on_undecorated kw w) as [r w'] eqn:Hrun.
    destruct (async_turn_on_undecorated_spec _ _ _ _ Hrun)
      as (Hr & _ & _ & _ & Hcalls & _).
    simpl. repeat split; done. }
  intros config_entry w client Hclient.
  unfold async_setup_entry. rewrite handler_of_raise.
  unfold async_setup_entry_undecorated.
  cbv [bind gets perform modify lift]. rewrite Hclient.
  split; [intros e -> ; reflexivity |].
  split; [intros cs e -> -> ; reflexivity |].
  split; [intros cs bs e -> -> -> ; reflexivity |].
  intros cs bs bulbs e -> -> -> Hsup Hcams.
  match goal with
  | |- context [mapM ?f bulbs ?v] =>
      destruct (mapM_init bs config_entry bulbs v Hsup)
        as (lights & Hrun & Hall);
      change (mapM f bulbs v = (Returned lights, v)) in Hrun
  end.
  rewrite Hrun, Hcams. reflexivity.
Qed.

End PlatformClaims.

(** ** The properties at the sample values *)

Lemma turn_on_brightness_sent_as_percentage_witness :
  let kw := Sample.kwargs (Passed (Some 128)) (Passed (Some 250)) Missing Missing in
  exists w' local_control options,
    @WyzeLight.async_turn_on Sample.externals kw Sample.mesh_light = (Returned tt, w')
    /\ Bulb.brightness (dev w') = 50
    /\ loop w' = [service_turn_on local_control options; update_ha_state]
    /\ In (create_pid_pair BRIGHTNESS "50") options.
Proof.
  intros kw.
  destruct (@WyzeLight.async_turn_on Sample.externals kw Sample.mesh_light) as [r w'] eqn:Hrun.
  destruct (turn_on_brightness_sent_as_percentage
              (H := Sample.externals) kw Sample.mesh_light 128 eq_refl
              ltac:(lia)) as (_ & _ & Hall).
  destruct (Hall r w' Hrun) as (Hb & Hsent & Hret).
  assert (Hr : r = Returned tt) by (apply Hret; discriminate).
  destruct (Hsent Hr) as (lc & options & Hloop & Hin).
  subst r. exists w', lc, options. repeat split; assumption.
Defined.

Lemma color_temp_round_trip_witness :
  let kw := Sample.kwargs Missing (Passed (Some 250)) Missing Missing in
  exists w',
    @WyzeLight.async_turn_on Sample.externals kw Sample.mesh_light = (Returned tt, w')
    /\ Bulb.color_temp (dev w') = 4000
    /\ WyzeLight.color_temp (this w') = Returned 250.
Proof.
  intros kw.
  exists (snd (@WyzeLight.async_turn_on Sample.externals kw Sample.mesh_light)).
  assert (Hrun : @WyzeLight.async_turn_on Sample.externals kw Sample.mesh_light
                 = (Returned tt, snd (@WyzeLight.async_turn_on Sample.externals kw Sample.mesh_light)))
    by (vm_compute; reflexivity).
  destruct (color_temp_round_trip (H := Sample.externals) kw Sample.mesh_light
              _ 250 eq_refl Hrun)
    as (_ & _ & Hk & Hround & _).
  destruct (Hround ltac:(lia)) as (m' & Hm' & _ & _ & _ & Hsame).
  split; [exact Hrun |]. split; [exact Hk |].
  rewrite Hm'. f_equal. apply Hsame. lia.
Defined.

Lemma turn_on_off_optimistic_witness :
  exists w',
    @WyzeLight.async_turn_off Sample.externals Sample.plain_light = (Returned tt, w')
    /\ Bulb.on (dev w') = false
    /\ vendor_calls w' = [].
Proof.
  destruct (turn_on_off_optimistic (H := Sample.externals)
              (Sample.kwargs Missing Missing Missing Missing) Sample.plain_light)
    as (_ & (w' & lc & Hrun & _ & Hcalls & Hoff & _) & _).
  exists w'. repeat split; assumption.
Defined.

(** C7 fails as stated: with only a colour temperature supplied, a mesh
    light with sun match on is sent a [SUN_MATCH] pair and a [COLOR_MODE]
    pair besides the [COLOR_TEMP] pair. *)
Lemma turn_on_appends_mode_switch_pairs :
  let kw := Sample.kwargs Missing (Passed (Some 250)) Missing Missing in
  exists w' local_control options,
    @WyzeLight.async_turn_on Sample.externals kw Sample.mesh_light = (Returned tt, w')
    /\ loop w' = [service_turn_on local_control options; update_ha_state]
    /\ options = [create_pid_pair SUN_MATCH "0";
                  create_pid_pair COLOR_TEMP "4000";
                  create_pid_pair COLOR_MODE "2"]
    /\ ~ @forwards_only_supplied Sample.externals kw options.
Proof.
  intros kw. eexists _, _, _.
  split; [vm_compute; reflexivity |]. split; [reflexivity |].
  split; [reflexivity |].
  intros Hall.
  exact (Hall (create_pid_pair COLOR_MODE "2") ltac:(right; right; left; reflexivity)).
Qed.

(** C9 at an input where the code departs from it: the colour-temperature
    key is passed with [None] and an HS colour is passed with it, to a mesh
    light with sun match on.  The call returns, the command list is the
    [COLOR] pair and the [COLOR_MODE] pair, no [SUN_MATCH] pair, and sun
    match is still on in the device record. *)
Theorem sun_match_kept_on_none_color_temp :
  let kw := Sample.kwargs Missing (Passed None) (Passed (Some (30, 80))) Missing in
  supplied (@WyzeLight.ATTR_HS_COLOR Sample.externals kw) = true
  /\ Bulb.sun_match (dev Sample.mesh_light) = true
  /\ exists w',
       @WyzeLight.async_turn_on Sample.externals kw Sample.mesh_light = (Returned tt, w')
       /\ loop w'
          = [service_turn_on (PyBool true)
               [create_pid_pair COLOR "30,80,0"; create_pid_pair COLOR_MODE "1"];
             update_ha_state]
       /\ Bulb.sun_match (dev w') = true.
Proof.
  intros kw. split; [reflexivity |]. split; [reflexivity |].
  eexists. split; [vm_compute; reflexivity |]. split; reflexivity.
Qed.

Lemma update_skipped_once_after_command_witness :
  exists w1 w2 w3,
    @WyzeLight.async_turn_off Sample.externals Sample.plain_light = (Returned tt, w1)
    /\ WyzeLight.async_update w1 = (Returned tt, w2)
    /\ vendor_calls w2 = []
    /\ WyzeLight.async_update w2 = (Returned tt, w3)
    /\ vendor_calls w3 = [call_update].
Proof.
  set (w1 := snd (@WyzeLight.async_turn_off Sample.externals Sample.plain_light)).
  assert (Hoff : @WyzeLight.async_turn_off Sample.externals Sample.plain_light
                 = (Returned tt, w1)) by (vm_compute; reflexivity).
  destruct (update_skipped_once_after_command (H := Sample.externals)
              Sample.plain_light) as (_ & _ & _ & _ & Hflag & _).
  destruct (update_skipped_once_after_command (H := Sample.externals) w1)
    as (_ & _ & _ & _ & _ & Hseq).
  destruct (Hseq (Hflag w1 Hoff)) as (w2 & Hskip & Hcalls & _ & Hnext).
  assert (Hw2 : w2 = snd (WyzeLight.async_update w1)) by (by rewrite Hskip).
  exists w1, w2, (snd (WyzeLight.async_update w2)).
  split; [exact Hoff |]. split; [exact Hskip |].
  split; [rewrite Hcalls; reflexivity |].
  split; [subst w2; vm_compute; reflexivity |].
  rewrite (Hnext _ _ (surjective_pairing _)). reflexivity.
Defined.

Lemma setup_adds_lights_and_floodlights_witness :
  exists lights w',
    @async_setup_entry Sample.externals Sample.config_entry Sample.hass
    = (Returned tt, w')
    /\ length lights = 2%nat
    /\ added (this w')
       = [(map LightEntity lights ++
           [FloodlightEntity
              (WyzeCamerafloodlight.__init__ (Sample.camera (PyInt 1))
                 (Sample.camera_service Sample.cameras (Returned tt)));
            FloodlightEntity
              (WyzeCamerafloodlight.__init__ (Sample.camera (PyInt 2))
                 (Sample.camera_service Sample.cameras (Returned tt)))], true)].
Proof.
  destruct (setup_adds_lights_and_floodlights (H := Sample.externals)
              Sample.config_entry Sample.hass Sample.client
              (Sample.camera_service Sample.cameras (Returned tt))
              (Sample.bulb_service Sample.bulbs (Returned tt))
              Sample.bulbs Sample.cameras)
    as (lights & w' & Hrun & _ & Hadded & Hlen & _).
  - vm_compute. reflexivity.
  - reflexivity.
  - reflexivity.
  - reflexivity.
  - reflexivity.
  - repeat constructor.
    + exists LIGHT. split; [reflexivity | by apply (bool_decide_unpack _)].
    + exists MESH_LIGHT. split; [reflexivity | by apply (bool_decide_unpack _)].
  - repeat constructor; vm_compute; exact I.
  - exists lights, w'. split; [exact Hrun |]. split; [exact Hlen |].
    rewrite Hadded. reflexivity.
Defined.

Lemma light_init_device_type_witness :
  @WyzeLight.__init__ Sample.externals (Sample.bulb "Plug" false)
    (Sample.bulb_service [] (Returned tt)) Sample.config_entry
  = Raised (AttributeError "Device type not supported")
  /\ exists self,
       @WyzeLight.__init__ Sample.externals (Sample.bulb "MeshLight" false)
         (Sample.bulb_service [] (Returned tt)) Sample.config_entry
       = Returned self.
Proof.
  split.
  - apply (proj1 (light_init_device_type (H := Sample.externals)
                    (Sample.bulb "Plug" false)
                    (Sample.bulb_service [] (Returned tt)) Sample.config_entry)).
    exists (OTHER_TYPE "Plug"). split; [reflexivity | by apply (bool_decide_unpack _)].
  - apply (proj2 (proj2 (proj2 (proj2 (proj2
             (light_init_device_type (H := Sample.externals)
                (Sample.bulb "MeshLight" false)
                (Sample.bulb_service [] (Returned tt)) Sample.config_entry)))))).
    exists MESH_LIGHT. split; [reflexivity | by apply (bool_decide_unpack _)].
Defined.

(** C8 fails as stated: a product type that is the value of no member of
    [DeviceTypes] is none of the three light types, and the constructor
    raises [ValueError] for it, not [AttributeError]. *)
Lemma light_init_raises_value_error :
  let bulb := Sample.bulb "NotADeviceType" false in
  let bulb_service := Sample.bulb_service [] (Returned tt) in
  @WyzeLight.__init__ Sample.externals bulb bulb_service Sample.config_entry
  = Raised ValueError
  /\ ~ @supported_bulb Sample.externals bulb
  /\ ~ @raises_attribute_error_iff_not_light Sample.externals bulb bulb_service
         Sample.config_entry.
Proof.
  intros bulb bulb_service.
  assert (Hnot : ~ @supported_bulb Sample.externals bulb).
  { intros (ty & Hty & _). vm_compute in Hty. discriminate. }
  split; [reflexivity |]. split; [exact Hnot |].
  intros [_ Hraise]. destruct (Hraise Hnot) as [msg Hmsg].
  vm_compute in Hmsg. discriminate.
Qed.

Lemma vendor_operations_wrapped_witness :
  fst (WyzeCamerafloodlight.async_turn_on
         (Sample.world
            (WyzeCamerafloodlight.__init__ (Sample.camera (PyInt 1))
               (Sample.camera_service [] (Raised VendorAuthFailure)))))
  = Reauth.
Proof.
  rewrite (proj1 (proj2 (vendor_operations_wrapped (H := Sample.externals)))).
  reflexivity.
Defined.

(** C5 fails as stated: [WyzeCamerafloodlight] has no [async_update] among
    the methods that call its service, and [WyzeLight.async_added_to_hass],
    which waits for a vendor call, is not decorated: an authentication
    failure of that call leaves the method as it was raised. *)
Lemma undecorated_vendor_call :
  WyzeCamerafloodlight.service_methods !! "async_update"%string = None
  /\ fst (WyzeLight.async_added_to_hass
            (Sample.world (Sample.light MESH_LIGHT "MeshLight" true false
                             (Raised VendorAuthFailure))))
     = Raised VendorAuthFailure.
Proof. split; vm_compute; reflexivity. Qed.

(** ** The device record after [async_turn_on] *)

Section DeviceAfterTurnOn.
Context `{Externals}.
Import WyzeLight.

Ltac run_block :=
  unfold turn_on_brightness, turn_on_sun_match, turn_on_color_temp,
    turn_on_hs_color, turn_on_effect, read_local_control,
    set_device_field, when, bind, gets, ret, lift, modify, raise,
    color_util.color_temperature_mired_to_kelvin in *;
  repeat (case_match; simplify_eq/=); simplify_eq/=.

Lemma turn_on_brightness_dev kw opts w o w' :
  turn_on_brightness kw opts w = (Returned o, w') ->
  dev w' = brightness_dev kw (dev w)
  /\ _local_control (this w') = _local_control (this w).
Proof.
  unfold brightness_dev, dev, turn_on_brightness. intros Hrun.
  destruct (kwargs_get (ATTR_BRIGHTNESS kw)) as [b |].
  - unfold bind, lift, ret, set_device_field, modify in Hrun.
    destruct (brightness_to_percent b) as [p | e |]; simplify_eq/=; done.
  - unfold ret in Hrun. by simplify_eq.
Qed.

Lemma turn_on_sun_match_dev kw opts w o w' :
  turn_on_sun_match kw opts w = (Returned o, w') ->
  dev w' = sun_match_dev kw (dev w)
  /\ _local_control (this w') = _local_control (this w).
Proof.
  unfold sun_match_dev, dev. intros Hrun. run_block; done.
Qed.

Lemma turn_on_color_temp_dev kw opts w o w' :
  turn_on_color_temp kw opts w = (Returned o, w') ->
  dev w' = color_temp_dev kw (_device_type (this w)) (dev w)
  /\ _local_control (this w') = _local_control (this w).
Proof.
  unfold color_temp_dev, dev. intros Hrun.
  rewrite <- has_color_mode_in. run_block; done.
Qed.

Lemma turn_on_hs_color_dev kw opts w o w' :
  turn_on_hs_color kw opts w = (Returned o, w') ->
  dev w' = hs_color_dev kw (_device_type (this w)) (dev w)
  /\ _local_control (this w') = _local_control (this w).
Proof.
  unfold hs_color_dev, dev. intros Hrun.
  rewrite <- has_color_mode_is. run_block; done.
Qed.

Lemma turn_on_effect_dev kw opts w o w' :
  turn_on_effect kw opts w = (Returned o, w') ->
  dev w' = effect_dev kw (dev w)
  /\ _local_control (this w')
     = if other_effect kw
          && type_is (Device_type (Bulb.base (dev w))) MESH_LIGHT
       then PyBool false else _local_control (this w).
Proof.
  unfold effect_dev, other_effect, dev. intros Hrun.
  unfold turn_on_effect, EFFECT_SUN_MATCH, EFFECT_SHADOW, EFFECT_LEAP,
    EFFECT_FLICKER in Hrun.
  destruct (kwargs_get (ATTR_EFFECT kw)) as [effect |].
  - repeat (case_bool_decide; try congruence); run_block; done.
  - run_block. done.
Qed.

(** The device record and the local-control setting when a call has
    returned. *)
Lemma async_turn_on_device kw w w' :
  async_turn_on kw w = (Returned tt, w') ->
  dev w' = expected_device kw (_device_type (this w)) (dev w)
  /\ _local_control (this w')
     = if other_effect kw
          && type_is (Device_type (Bulb.base (dev w))) MESH_LIGHT
       then PyBool false
       else dict_get (options (_config_entry (this w))) BULB_LOCAL_CONTROL.
Proof.
  intros Hrun. rewrite async_turn_on_decorated in Hrun.
  unfold async_turn_on_undecorated in Hrun.
  cbv [bind read_local_control modify] in Hrun.
  set (w0 := with_this _ w) in Hrun.
  assert (Hd0 : dev w0 = dev w) by reflexivity.
  assert (Ht0 : _device_type (this w0) = _device_type (this w)) by reflexivity.
  assert (Hl0 : _local_control (this w0)
                = dict_get (options (_config_entry (this w))) BULB_LOCAL_CONTROL)
    by reflexivity.
  clearbody w0.
  destruct (turn_on_brightness kw [] w0) as [[o1 | e1 |] w1] eqn:E1;
    try discriminate.
  destruct (turn_on_brightness_dev _ _ _ _ _ E1) as [Hd1 Hl1].
  destruct (turn_on_brightness_spec _ _ _ _ _ E1) as (F1 & _).
  clear E1.
  destruct (turn_on_sun_match kw o1 w1) as [[o2 | e2 |] w2] eqn:E2;
    try discriminate.
  destruct (turn_on_sun_match_dev _ _ _ _ _ E2) as [Hd2 Hl2].
  destruct (turn_on_sun_match_spec _ _ _ _ _ E2) as (F2 & _).
  clear E2.
  destruct (turn_on_color_temp kw o2 w2) as [[o3 | e3 |] w3] eqn:E3;
    try discriminate.
  destruct (turn_on_color_temp_dev _ _ _ _ _ E3) as [Hd3 Hl3].
  destruct (turn_on_color_temp_spec _ _ _ _ _ E3) as (F3 & _).
  clear E3.
  destruct (turn_on_hs_color kw o3 w3) as [[o4 | e4 |] w4] eqn:E4;
    try discriminate.
  destruct (turn_on_hs_color_dev _ _ _ _ _ E4) as [Hd4 Hl4].
  destruct (turn_on_hs_color_spec _ _ _ _ _ E4) as (F4 & _).
  clear E4.
  destruct (turn_on_effect kw o4 w4) as [[o5 | e5 |] w5] eqn:E5;
    try discriminate.
  destruct (turn_on_effect_dev _ _ _ _ _ E5) as [Hd5 Hl5].
  clear E5.
  cbv [gets create_task set_device_field modify async_schedule_update_ha_state]
    in Hrun.
  injection Hrun as <-.
  destruct F1 as (_ & _ & _ & T1 & _ & _ & _ & B1).
  destruct F2 as (_ & _ & _ & T2 & _ & _ & _ & B2).
  destruct F3 as (_ & _ & _ & T3 & _ & _ & _ & B3).
  destruct F4 as (_ & _ & _ & T4 & _ & _ & _ & B4).
  unfold expected_device. unfold dev in *. simpl.
  split.
  - rewrite Hd5, Hd4, Hd3, Hd2, Hd1, Hd0.
    rewrite T3, T2, T1, Ht0. reflexivity.
  - rewrite Hl5, Hl4, Hl3, Hl2, Hl1, Hl0.
    rewrite B4, B3, B2, B1, Hd0. reflexivity.
Qed.

End DeviceAfterTurnOn.

(** ** The command list *)

Section CommandList.
Context `{Externals}.
Import WyzeLight.

(** C7, as the code has it.  When [async_turn_on] returns, the command
    list handed to the service is, in order: the [BRIGHTNESS] pair of a
    brightness supplied, at most one [SUN_MATCH] 0 pair, the [COLOR_TEMP]
    pair of a colour temperature supplied, the [COLOR] pair of an HS colour
    supplied, and the pairs of an effect supplied.  With these the adapter
    adds mode-switching pairs of its own: [COLOR_MODE] 2 after the colour
    temperature and [COLOR_MODE] 1 after the HS colour on a device type
    with a colour mode, [COLOR_MODE] 3 for an effect other than sun match,
    and [SUN_MATCH] 0 when sun match is on and a colour temperature is
    supplied, or an HS colour is supplied and the colour-temperature key is
    not passed.  No [SUN_MATCH] 0 is sent when sun match is off, or when
    none of colour temperature, HS colour and effect is supplied; a
    [COLOR_MODE] pair is only there for a colour temperature, an HS colour
    or an effect.  The list is sent with the local-control setting of the
    config entry, which the adapter replaces by [False] for an effect other
    than sun match on a device of type [MESH_LIGHT]. *)
Theorem turn_on_command_list (kw : kwargs) (w w' : World WyzeLight.t) :
  async_turn_on kw w = (Returned tt, w') ->
  let device_type := _device_type (this w) in
  let local_control :=
    if other_effect kw && type_is (Device_type (Bulb.base (dev w))) MESH_LIGHT
    then PyBool false
    else dict_get (options (_config_entry (this w))) BULB_LOCAL_CONTROL in
  exists sun_match_off : list pid_pair,
    loop w'
    = loop w ++
      [service_turn_on local_control
         (brightness_pairs kw ++ sun_match_off
          ++ color_temp_pairs kw device_type ++ hs_color_pairs kw device_type
          ++ effect_pairs kw);
       update_ha_state]
    /\ (sun_match_off = [] \/ sun_match_off = [create_pid_pair SUN_MATCH "0"])
    /\ (Bulb.sun_match (dev w) = false -> sun_match_off = [])
    /\ (supplied (ATTR_COLOR_TEMP kw) = false ->
        supplied (ATTR_HS_COLOR kw) = false ->
        supplied (ATTR_EFFECT kw) = false -> sun_match_off = [])
    /\ (Bulb.sun_match (dev w) = true -> supplied (ATTR_COLOR_TEMP kw) = true ->
        sun_match_off = [create_pid_pair SUN_MATCH "0"])
    /\ (Bulb.sun_match (dev w) = true -> ATTR_COLOR_TEMP kw = Missing ->
        supplied (ATTR_HS_COLOR kw) = true ->
        sun_match_off = [create_pid_pair SUN_MATCH "0"])
    /\ (forall b p, kwargs_get (ATTR_BRIGHTNESS kw) = Some b ->
        brightness_to_percent b = Returned p ->
        brightness_pairs kw = [create_pid_pair BRIGHTNESS (PyNum.str p)])
    /\ (kwargs_get (ATTR_BRIGHTNESS kw) = None -> brightness_pairs kw = [])
    /\ (kwargs_get (ATTR_COLOR_TEMP kw) = None ->
        color_temp_pairs kw device_type = [])
    /\ (kwargs_get (ATTR_HS_COLOR kw) = None ->
        hs_color_pairs kw device_type = [])
    /\ (kwargs_get (ATTR_EFFECT kw) = None -> effect_pairs kw = [])
    /\ (forall mired, kwargs_get (ATTR_COLOR_TEMP kw) = Some mired ->
        color_temp_pairs kw device_type
        = create_pid_pair COLOR_TEMP (PyNum.str (1000000 / mired))
          :: (if has_color_mode device_type
              then [create_pid_pair COLOR_MODE "2"] else []))
    /\ (forall hs, kwargs_get (ATTR_HS_COLOR kw) = Some hs ->
        has_color_mode device_type = true ->
        hs_color_pairs kw device_type
        = [create_pid_pair COLOR (color_rgb_to_hex (color_hs_to_RGB hs));
           create_pid_pair COLOR_MODE "1"])
    /\ (has_color_mode device_type = false -> hs_color_pairs kw device_type = [])
    /\ (kwargs_get (ATTR_EFFECT kw) = Some "sun match"%string ->
        effect_pairs kw = [create_pid_pair SUN_MATCH "1"])
    /\ (forall effect, kwargs_get (ATTR_EFFECT kw) = Some effect ->
        effect <> "sun match"%string ->
        exists rest,
          effect_pairs kw = create_pid_pair COLOR_MODE "3" :: rest
          /\ (rest = [] \/ exists number,
                 rest = [create_pid_pair LIGHTSTRIP_EFFECTS number]))
    /\ (forall p,
          In p (brightness_pairs kw ++ sun_match_off
                ++ color_temp_pairs kw device_type
                ++ hs_color_pairs kw device_type ++ effect_pairs kw) ->
          pid p = COLOR_MODE ->
          supplied (ATTR_COLOR_TEMP kw) = true /\ has_color_mode device_type = true
          \/ supplied (ATTR_HS_COLOR kw) = true /\ has_color_mode device_type = true
          \/ supplied (ATTR_EFFECT kw) = true).
Proof.
  intros Hrun device_type local_control.
  destruct (async_turn_on_device _ _ _ Hrun) as [_ Hlc].
  rewrite async_turn_on_decorated in Hrun.
  destruct (async_turn_on_undecorated_spec _ _ _ _ Hrun)
    as (_ & _ & _ & _ & _ & Hret & _ & _ & Hmired & _).
  destruct (Hret eq_refl) as (Hloop & _).
  exists (sun_match_off_pairs kw (Bulb.sun_match (dev w))).
  split; [rewrite Hloop, Hlc; reflexivity |].
  unfold sun_match_off_pairs.
  split.
  { destruct (Bulb.sun_match (dev w) && any_color_argument kw);
      [by right | by left]. }
  split; [by intros -> |].
  split.
  { intros Hct Hhs _. unfold supplied in Hct, Hhs.
    assert (Hany : any_color_argument kw = false).
    { unfold any_color_argument. unfold kwargs_get in Hct at 1.
      destruct (ATTR_COLOR_TEMP kw) as [| [mired |]]; try done;
        by destruct (kwargs_get (ATTR_HS_COLOR kw)). }
    by rewrite Hany, andb_false_r. }
  split.
  { intros -> Hct. unfold supplied in Hct.
    destruct (kwargs_get (ATTR_COLOR_TEMP kw)) as [mired |] eqn:Hget; [| done].
    destruct (Hmired mired eq_refl eq_refl) as [Hne _].
    assert (Hany : any_color_argument kw = true).
    { unfold any_color_argument. unfold kwargs_get in Hget.
      destruct (ATTR_COLOR_TEMP kw) as [| v]; [done |]. subst v.
      apply negb_true_iff, Z.eqb_neq, Hne. }
    by rewrite Hany. }
  split.
  { intros -> Hmissing Hhs. unfold supplied in Hhs.
    assert (Hany : any_color_argument kw = true).
    { unfold any_color_argument. rewrite Hmissing.
      by destruct (kwargs_get (ATTR_HS_COLOR kw)). }
    by rewrite Hany. }
  split; [intros b p Hget Hp; unfold brightness_pairs; by rewrite Hget, Hp |].
  split; [intros Hget; unfold brightness_pairs; by rewrite Hget |].
  split; [intros Hget; unfold color_temp_pairs; by rewrite Hget |].
  split; [intros Hget; unfold hs_color_pairs; by rewrite Hget |].
  split; [intros Hget; unfold effect_pairs; by rewrite Hget |].
  split; [intros mired Hget; unfold color_temp_pairs; by rewrite Hget |].
  split; [intros hs Hget Hmode; unfold hs_color_pairs; by rewrite Hget, Hmode |].
  split.
  { intros Hmode. unfold hs_color_pairs. rewrite Hmode.
    by destruct (kwargs_get (ATTR_HS_COLOR kw)). }
  split; [intros Hget; unfold effect_pairs; by rewrite Hget |].
  split.
  { intros effect Hget Hne. unfold effect_pairs. rewrite Hget.
    rewrite bool_decide_eq_false_2 by exact Hne. eexists. split; [reflexivity |].
    repeat case_bool_decide; eauto. }
  intros p Hin Hpid. unfold supplied.
  rewrite !in_app_iff in Hin. destruct Hin as [Hin | [Hin | [Hin | [Hin | Hin]]]].
  - unfold brightness_pairs in Hin. repeat case_match; simpl in Hin;
      intuition; subst; discriminate.
  - repeat case_match; simpl in Hin; intuition; subst; discriminate.
  - left. unfold color_temp_pairs in Hin.
    destruct (kwargs_get (ATTR_COLOR_TEMP kw)); [| done].
    destruct (has_color_mode device_type); [done |].
    simpl in Hin. intuition; subst; discriminate.
  - right. left. unfold hs_color_pairs in Hin.
    destruct (kwargs_get (ATTR_HS_COLOR kw)); [| done].
    by destruct (has_color_mode device_type).
  - right. right. unfold effect_pairs in Hin.
    by destruct (kwargs_get (ATTR_EFFECT kw)).
Qed.

End CommandList.

Lemma turn_on_command_list_witness :
  exists w',
    @WyzeLight.async_turn_on Sample.externals
      (Sample.kwargs Missing Missing (Passed (Some (30, 80))) Missing)
      Sample.mesh_light
    = (Returned tt, w')
    /\ loop w'
       = [service_turn_on (PyBool true)
            [create_pid_pair SUN_MATCH "0"; create_pid_pair COLOR "30,80,0";
             create_pid_pair COLOR_MODE "1"];
          update_ha_state].
Proof.
  exists (snd (@WyzeLight.async_turn_on Sample.externals
                 (Sample.kwargs Missing Missing (Passed (Some (30, 80))) Missing)
                 Sample.mesh_light)).
  assert (Hrun : @WyzeLight.async_turn_on Sample.externals
                   (Sample.kwargs Missing Missing (Passed (Some (30, 80))) Missing)
                   Sample.mesh_light
                 = (Returned tt,
                    snd (@WyzeLight.async_turn_on Sample.externals
                           (Sample.kwargs Missing Missing (Passed (Some (30, 80)))
                              Missing)
                           Sample.mesh_light)))
    by (vm_compute; reflexivity).
  destruct (turn_on_command_list (H := Sample.externals) _ _ _ Hrun)
    as (sun_match_off & Hloop & _ & _ & _ & _ & Hhs & _).
  split; [exact Hrun |].
  rewrite (Hhs eq_refl eq_refl eq_refl) in Hloop. exact Hloop.
Defined.

(** * Further properties of the code *)

(** ** Brightness and colour temperature, there and back *)

Lemma forallb_seq_range2 (P : Z -> Z -> bool) (n : nat) :
  forallb (fun i => forallb (fun j => P (Z.of_nat i) (Z.of_nat j)) (seq 0 n))
          (seq 0 n) = true ->
  forall a b, 0 <= a < Z.of_nat n -> 0 <= b < Z.of_nat n -> P a b = true.
Proof.
  intros Hall a b Ha Hb.
  pose proof (forallb_seq_range
                (fun a => forallb (fun j => P a (Z.of_nat j)) (seq 0 n)) n Hall
                a Ha) as Hrow.
  exact (forallb_seq_range (P a) n Hrow b Hb).
Qed.

(** X1: the percentage grows with the host brightness, and every percentage
    from 0 to 100 is the percentage of some host brightness in 0..255. *)
Theorem percent_monotone_and_onto :
  (forall b1 b2, 0 <= b1 <= b2 -> b2 <= 255 ->
     exists p1 p2,
       WyzeLight.brightness_to_percent b1 = Returned p1
       /\ WyzeLight.brightness_to_percent b2 = Returned p2
       /\ p1 <= p2)
  /\ (forall p, 0 <= p <= 100 ->
        exists b, 0 <= b <= 255 /\ WyzeLight.brightness_to_percent b = Returned p).
Proof.
  split.
  - intros b1 b2 H12 H2. eexists _, _.
    split; [apply brightness_to_percent_nearest; lia |].
    split; [apply brightness_to_percent_nearest; lia |].
    apply Z.div_le_mono; lia.
  - intros p Hp.
    pose (P := fun p =>
      match WyzeLight.brightness_to_percent ((255 * p + 50) / 100) with
      | Returned q => q =? p
      | _ => false
      end).
    assert (HP : P p = true).
    { apply (forallb_seq_range P 101); [vm_compute; reflexivity | lia]. }
    unfold P in HP. exists ((255 * p + 50) / 100). split.
    + split; [apply Z.div_pos; lia |].
      assert ((255 * p + 50) / 100 < 256) by (apply Z.div_lt_upper_bound; lia).
      lia.
    + destruct (WyzeLight.brightness_to_percent _); try discriminate.
      apply Z.eqb_eq in HP. congruence.
Qed.

(** X2: the [brightness] property grows strictly with the percentage of
    the device: two devices at different percentages in 0..100 never show
    the same host brightness. *)
Theorem brightness_property_increasing (self1 self2 : WyzeLight.t) :
  0 <= Bulb.brightness (WyzeLight._device self1) ->
  Bulb.brightness (WyzeLight._device self1)
  < Bulb.brightness (WyzeLight._device self2) ->
  Bulb.brightness (WyzeLight._device self2) <= 100 ->
  SFltb (WyzeLight.brightness self1) (WyzeLight.brightness self2) = true.
Proof.
  intros H1 H12 H2. unfold WyzeLight.brightness.
  set (p := Bulb.brightness (WyzeLight._device self1)) in *.
  set (q := Bulb.brightness (WyzeLight._device self2)) in *.
  pose (P := fun p q =>
    if p <? q then
      SFltb (PyNum.round1 (PyNum.mul (PyNum.of_int p) PyNum.lit_2_55))
            (PyNum.round1 (PyNum.mul (PyNum.of_int q) PyNum.lit_2_55))
    else true).
  assert (HP : P p q = true).
  { apply (forallb_seq_range2 P 101); [vm_compute; reflexivity | lia | lia]. }
  unfold P in HP. destruct (Z.ltb_spec p q); [exact HP | lia].
Qed.

Lemma brightness_property_increasing_witness :
  SFltb (WyzeLight.brightness (Sample.light LIGHT "Light" false false (Returned tt)))
        (WyzeLight.brightness
           (WyzeLight.set__device
              (Bulb.set_brightness 41 (Sample.bulb "Light" false))
              (Sample.light LIGHT "Light" false false (Returned tt))))
  = true.
Proof.
  apply brightness_property_increasing; simpl; lia.
Defined.

(** What the [brightness] property shows for the percentage of a host
    brightness: at most 1.5 away from it, and the same at 0 and at 255. *)
Lemma percent_back_to_host (b : Z) :
  0 <= b <= 255 ->
  let r := PyNum.round1 (PyNum.mul (PyNum.of_int ((200 * b + 255) / 510))
                                   PyNum.lit_2_55) in
  PyNum.leb (PyNum.of_int (2 * b - 3)) (PyNum.mul r (PyNum.of_int 2)) = true
  /\ PyNum.leb (PyNum.mul r (PyNum.of_int 2)) (PyNum.of_int (2 * b + 3)) = true
  /\ (b = 0 -> r = PyNum.of_int 0)
  /\ (b = 255 -> r = PyNum.of_int 255).
Proof.
  intros Hb r.
  pose (P := fun b =>
    let r := PyNum.round1 (PyNum.mul (PyNum.of_int ((200 * b + 255) / 510))
                                     PyNum.lit_2_55) in
    PyNum.leb (PyNum.of_int (2 * b - 3)) (PyNum.mul r (PyNum.of_int 2))
    && PyNum.leb (PyNum.mul r (PyNum.of_int 2)) (PyNum.of_int (2 * b + 3))).
  assert (HP : P b = true).
  { apply (forallb_seq_range P 256); [vm_compute; reflexivity | lia]. }
  unfold P in HP. apply andb_true_iff in HP as [Hlo Hhi].
  split; [exact Hlo |]. split; [exact Hhi |].
  split; intros ->; vm_compute; reflexivity.
Qed.

Section RoundTrips.
Context `{Externals}.
Import WyzeLight.

(** X3: a host brightness that is set with [async_turn_on] and read back
    through the [brightness] property comes back at most 1.5 away
    (compared after doubling, which is exact), and unchanged at 0 and at
    255. *)
Theorem brightness_set_then_read (kw : kwargs) (w w' : World WyzeLight.t)
    (b : Z) :
  kwargs_get (ATTR_BRIGHTNESS kw) = Some b ->
  0 <= b <= 255 ->
  async_turn_on kw w = (Returned tt, w') ->
  let r := WyzeLight.brightness (this w') in
  PyNum.leb (PyNum.of_int (2 * b - 3)) (PyNum.mul r (PyNum.of_int 2)) = true
  /\ PyNum.leb (PyNum.mul r (PyNum.of_int 2)) (PyNum.of_int (2 * b + 3)) = true
  /\ (b = 0 -> r = PyNum.of_int 0)
  /\ (b = 255 -> r = PyNum.of_int 255).
Proof.
  intros Hkw Hb Hrun r. rewrite async_turn_on_decorated in Hrun.
  destruct (async_turn_on_undecorated_spec _ _ _ _ Hrun)
    as (_ & _ & _ & _ & _ & _ & _ & Hbr & _).
  pose proof (Hbr b _ Hkw (brightness_to_percent_nearest b Hb)) as Hp.
  unfold r, WyzeLight.brightness. fold (dev w'). rewrite Hp.
  exact (percent_back_to_host b Hb).
Qed.

(** X4: the colour temperatures between [min_mireds] and [max_mireds] are
    sent as Kelvin values strictly inside the range of the bulb: below
    6500, and above 1800 for a mesh light, above 2700 otherwise.  The range
    is 154..554 for a mesh light and 154..369 otherwise. *)
Theorem advertised_mireds_within_kelvin_range (self : WyzeLight.t) :
  exists lo hi,
    min_mireds self = Returned lo
    /\ max_mireds self = Returned hi
    /\ lo = 154
    /\ hi = (if type_is (_device_type self) MESH_LIGHT then 554 else 369)
    /\ forall mired, lo <= mired <= hi ->
         exists kelvin,
           color_util.color_temperature_mired_to_kelvin mired = Returned kelvin
           /\ kelvin < 6500
           /\ (if type_is (_device_type self) MESH_LIGHT then 1800 else 2700)
              < kelvin.
Proof.
  unfold min_mireds, max_mireds.
  change (color_util.color_temperature_kelvin_to_mired 6500) with (@Returned Z 153).
  change (color_util.color_temperature_kelvin_to_mired 1800) with (@Returned Z 555).
  change (color_util.color_temperature_kelvin_to_mired 2700) with (@Returned Z 370).
  exists 154, (if type_is (_device_type self) MESH_LIGHT then 554 else 369).
  split; [reflexivity |].
  split; [destruct (type_is _ _); reflexivity |].
  split; [reflexivity |]. split; [reflexivity |].
  intros mired Hm. exists (1000000 / mired).
  unfold color_util.color_temperature_mired_to_kelvin.
  assert (Hbig : 154 <= mired) by lia.
  destruct (Z.eqb_spec mired 0); [lia |]. split; [reflexivity |]. split.
  - apply Z.div_lt_upper_bound; lia.
  - destruct (type_is _ _) in Hm |- *.
    + assert (1805 <= 1000000 / mired)
        by (apply Z.div_le_lower_bound; lia). lia.
    + assert (2710 <= 1000000 / mired)
        by (apply Z.div_le_lower_bound; lia). lia.
Qed.

(** X5: the [color_temp] property of a device at [kelvin] Kelvin lies
    between [min_mireds] and [max_mireds] exactly when [kelvin] is at most
    6493 and at least 1802 (mesh light) or 2703 (otherwise); at 6500 Kelvin
    it is 153, one below [min_mireds]. *)
Theorem color_temp_within_advertised_range (self : WyzeLight.t) :
  1 <= Bulb.color_temp (_device self) ->
  exists m,
    color_temp self = Returned m
    /\ ((154 <= m
         /\ m <= (if type_is (_device_type self) MESH_LIGHT then 554 else 369))
        <-> ((if type_is (_device_type self) MESH_LIGHT then 1802 else 2703)
             <= Bulb.color_temp (_device self)
             /\ Bulb.color_temp (_device self) <= 6493))
    /\ (Bulb.color_temp (_device self) = 6500 -> m = 153).
Proof.
  intros Hk. unfold color_temp, color_util.color_temperature_kelvin_to_mired.
  set (k := Bulb.color_temp (_device self)) in *.
  destruct (Z.eqb_spec k 0); [lia |].
  exists (1000000 / k). split; [reflexivity |]. split.
  - assert (Hlow : 154 <= 1000000 / k <-> k <= 6493).
    { split; intros Hx.
      - destruct (Z.le_gt_cases k 6493); [assumption |].
        assert (1000000 / k < 154) by (apply Z.div_lt_upper_bound; lia). lia.
      - apply Z.div_le_lower_bound; lia. }
    destruct (type_is _ _).
    + assert (Hhigh : 1000000 / k <= 554 <-> 1802 <= k).
      { split; intros Hx.
        - destruct (Z.le_gt_cases 1802 k); [assumption |].
          assert (555 <= 1000000 / k) by (apply Z.div_le_lower_bound; lia). lia.
        - assert (1000000 / k < 555) by (apply Z.div_lt_upper_bound; lia). lia. }
      tauto.
    + assert (Hhigh : 1000000 / k <= 369 <-> 2703 <= k).
      { split; intros Hx.
        - destruct (Z.le_gt_cases 2703 k); [assumption |].
          assert (370 <= 1000000 / k) by (apply Z.div_le_lower_bound; lia). lia.
        - assert (1000000 / k < 370) by (apply Z.div_lt_upper_bound; lia). lia. }
      tauto.
  - intros ->. reflexivity.
Qed.

End RoundTrips.

(** ** What the entity shows of its state *)

Section Attributes.
Import WyzeLight WyzeLightState.

Lemma lookup_cond_insert (c : bool) (k k' : string) (v : pyvalue)
    (m : gmap string pyvalue) :
  k <> k' -> (if c then <[k:=v]> m else m) !! k' = m !! k'.
Proof. intros Hne. destruct c; [by rewrite lookup_insert_ne | done]. Qed.

Lemma lookup_chain_ne (a c1 c2 c3 : bool) (k k' : string) (v1 v2 v3 : pyvalue)
    (m : gmap string pyvalue) :
  k <> k' ->
  (if a then
     if c1 then <[k:=v1]> m
     else if c2 then <[k:=v2]> m
     else if c3 then <[k:=v3]> m else m
   else m) !! k' = m !! k'.
Proof.
  intros Hne. destruct a, c1, c2, c3; try done; by rewrite lookup_insert_ne.
Qed.

Lemma lookup_chain_eq (a c1 c2 c3 : bool) (k : string) (v1 v2 v3 : pyvalue)
    (m : gmap string pyvalue) :
  m !! k = None ->
  (if a then
     if c1 then <[k:=v1]> m
     else if c2 then <[k:=v2]> m
     else if c3 then <[k:=v3]> m else m
   else m) !! k
  = if a then
      if c1 then Some v1 else if c2 then Some v2 else if c3 then Some v3 else None
    else None.
Proof.
  intros Hnone. destruct a, c1, c2, c3; try done; by rewrite lookup_insert_eq.
Qed.

(** The entries of [extra_state_attributes], key by key. *)
Lemma attributes_lookup (self : WyzeLight.t) :
  let device := _device self in
  let attrs := extra_state_attributes self in
  attrs !! "Sun Match"%string = Some (PyBool (Bulb.sun_match device))
  /\ attrs !! "local_control"%string
     = Some (py_and (_local_control self)
                    (PyBool (negb (Bulb.cloud_fallback device))))
  /\ attrs !! "effect_mode"%string
     = (if type_is (_device_type self) LIGHTSTRIP
           && String.eqb (Bulb.color_mode device) "3"
        then
          if String.eqb (Bulb.effects device) "1" then Some (PyStr "Shadow")
          else if String.eqb (Bulb.effects device) "2" then Some (PyStr "Leap")
          else if String.eqb (Bulb.effects device) "3" then Some (PyStr "Flicker")
          else None
        else None)
  /\ attrs !! "mode"%string
     = (if type_is (_device_type self) MESH_LIGHT
           || type_is (_device_type self) LIGHTSTRIP
        then
          if String.eqb (Bulb.color_mode device) "1" then Some (PyStr "Color")
          else if String.eqb (Bulb.color_mode device) "2" then Some (PyStr "White")
          else if String.eqb (Bulb.color_mode device) "3" then Some (PyStr "Effect")
          else None
        else None).
Proof.
  intros device attrs. unfold attrs, extra_state_attributes. fold device.
  cbv zeta.
  split; [| split; [| split]].
  - rewrite !lookup_chain_ne by done.
    rewrite lookup_insert_ne by done. by rewrite lookup_insert_eq.
  - rewrite !lookup_chain_ne by done. by rewrite lookup_insert_eq.
  - rewrite lookup_chain_ne by done. apply lookup_chain_eq.
    rewrite !lookup_insert_ne by done.
    rewrite !lookup_cond_insert by done. apply lookup_empty.
  - apply lookup_chain_eq. rewrite lookup_chain_ne by done.
    rewrite !lookup_insert_ne by done.
    rewrite !lookup_cond_insert by done. apply lookup_empty.
Qed.

(** X6: whatever the device record holds, the attributes always have the
    entries ["Sun Match"] and ["local_control"]; an entity of type [LIGHT]
    never has ["mode"] or ["effect_mode"], and only a [LIGHTSTRIP] ever has
    ["effect_mode"]; ["local_control"] is true exactly when the local
    control setting is true and the device has not fallen back to the
    cloud. *)
Theorem attributes_entries (self : WyzeLight.t) :
  let attrs := extra_state_attributes self in
  attrs !! "Sun Match"%string = Some (PyBool (Bulb.sun_match (_device self)))
  /\ (exists v, attrs !! "local_control"%string = Some v
                /\ truthy v = truthy (_local_control self)
                              && negb (Bulb.cloud_fallback (_device self)))
  /\ (_device_type self = LIGHT ->
      attrs !! "mode"%string = None /\ attrs !! "effect_mode"%string = None)
  /\ (_device_type self <> LIGHTSTRIP -> attrs !! "effect_mode"%string = None).
Proof.
  intros attrs.
  destruct (attributes_lookup self) as (Hsun & Hlc & Heff & Hmode).
  fold attrs in Hsun, Hlc, Heff, Hmode.
  split; [exact Hsun |]. split.
  { eexists. split; [exact Hlc |]. unfold py_and.
    destruct (truthy (_local_control self)) eqn:Ht; [reflexivity | exact Ht]. }
  split.
  - intros Hty. rewrite Hmode, Heff, Hty. done.
  - intros Hty. rewrite Heff. unfold type_is.
    by rewrite bool_decide_eq_false_2.
Qed.

End Attributes.

Section NetworkAttributes.
Import WyzeLight WyzeLightState.

(** X7: the attributes ["IP"], ["RSSI"] and ["SSID"] are there exactly when
    the device parameter of that name is true in Python's sense, and then
    hold its [str]: a missing parameter, an RSSI of 0 and an empty SSID are
    all left out. *)
Theorem attributes_of_device_params (self : WyzeLight.t) :
  let params := device_params (Bulb.base (_device self)) in
  let attrs := extra_state_attributes self in
  let shown key :=
    if truthy (dict_get params key)
    then Some (PyStr (py_str (dict_get params key))) else None in
  attrs !! "IP"%string = shown "ip"%string
  /\ attrs !! "RSSI"%string = shown "rssi"%string
  /\ attrs !! "SSID"%string = shown "ssid"%string
  /\ (params !! "rssi"%string = None -> attrs !! "RSSI"%string = None)
  /\ (params !! "rssi"%string = Some (PyInt 0) -> attrs !! "RSSI"%string = None)
  /\ (params !! "ssid"%string = Some (PyStr EmptyString) ->
      attrs !! "SSID"%string = None).
Proof.
  intros params attrs shown.
  assert (Hip : attrs !! "IP"%string = shown "ip"%string).
  { unfold attrs, extra_state_attributes, shown. fold params. cbv zeta.
    rewrite !lookup_chain_ne by done. rewrite !lookup_insert_ne by done.
    rewrite !lookup_cond_insert by done.
    destruct (truthy (dict_get params "ip")); [by rewrite lookup_insert_eq | done]. }
  assert (Hrssi : attrs !! "RSSI"%string = shown "rssi"%string).
  { unfold attrs, extra_state_attributes, shown. fold params. cbv zeta.
    rewrite !lookup_chain_ne by done. rewrite !lookup_insert_ne by done.
    rewrite lookup_cond_insert by done.
    destruct (truthy (dict_get params "rssi")).
    - by rewrite lookup_insert_eq.
    - by rewrite lookup_cond_insert. }
  assert (Hssid : attrs !! "SSID"%string = shown "ssid"%string).
  { unfold attrs, extra_state_attributes, shown. fold params. cbv zeta.
    rewrite !lookup_chain_ne by done. rewrite !lookup_insert_ne by done.
    destruct (truthy (dict_get params "ssid")).
    - by rewrite lookup_insert_eq.
    - by rewrite !lookup_cond_insert. }
  split; [exact Hip |]. split; [exact Hrssi |]. split; [exact Hssid |].
  unfold shown, dict_get in *.
  split; [| split]; intros Hp; rewrite ?Hrssi, ?Hssid, Hp; reflexivity.
Qed.

End NetworkAttributes.

(** ** The state after a command *)

Section AfterTurnOn.
Context `{Externals}.
Import WyzeLight WyzeLightState.

Lemma color_mode_in_supported (self : WyzeLight.t) :
  Device_type (Bulb.base (_device self)) ∈ [LIGHT; MESH_LIGHT; LIGHTSTRIP] ->
  color_mode self ∈ supported_color_modes self.
Proof.
  intros Hty. unfold color_mode, supported_color_modes, type_is, type_in.
  set (ty := Device_type (Bulb.base (_device self))) in *.
  assert (Hcases : ty = LIGHT \/ ty = MESH_LIGHT \/ ty = LIGHTSTRIP).
  { rewrite !elem_of_cons in Hty. rewrite elem_of_nil in Hty. tauto. }
  destruct Hcases as [-> | [-> | ->]]; simpl.
  - set_solver.
  - destruct (String.eqb _ _); set_solver.
  - destruct (String.eqb _ _); set_solver.
Qed.

(** X8: the colour mode shown is always one of the supported colour modes
    of an entity whose device is of one of the three light types; the
    colour-temperature mode is always supported, the on/off mode never. *)
Theorem color_mode_is_supported (self : WyzeLight.t) :
  Device_type (Bulb.base (_device self)) ∈ [LIGHT; MESH_LIGHT; LIGHTSTRIP] ->
  color_mode self ∈ supported_color_modes self
  /\ ColorMode.COLOR_TEMP ∈ supported_color_modes self
  /\ ColorMode.ONOFF ∉ supported_color_modes self.
Proof.
  intros Hty. split; [by apply color_mode_in_supported |].
  unfold supported_color_modes.
  destruct (type_in _ _); split; by apply (bool_decide_unpack _).
Qed.

(** The fields of the device record after a call that returned. *)
Lemma expected_device_fields (kw : kwargs) (device_type : DeviceTypes)
    (d : Bulb.t) :
  let d' := expected_device kw device_type d in
  Bulb.base d' = Bulb.base d
  /\ Bulb.on d' = true
  /\ Bulb.cloud_fallback d' = Bulb.cloud_fallback d
  /\ Bulb.color_mode d'
     = (if other_effect kw then "3"
        else if supplied (ATTR_HS_COLOR kw) && has_color_mode device_type then "1"
        else if supplied (ATTR_COLOR_TEMP kw) && has_color_mode device_type then "2"
        else Bulb.color_mode d)%string
  /\ Bulb.effects d'
     = match kwargs_get (ATTR_EFFECT kw) with
       | Some effect =>
           if bool_decide (effect = "sun match"%string) then Bulb.effects d
           else if bool_decide (effect = "shadow"%string) then "1"%string
           else if bool_decide (effect = "leap"%string) then "2"%string
           else if bool_decide (effect = "flicker"%string) then "3"%string
           else Bulb.effects d
       | None => Bulb.effects d
       end
  /\ Bulb.sun_match d'
     = match kwargs_get (ATTR_EFFECT kw) with
       | Some effect =>
           if bool_decide (effect = "sun match"%string) then true
           else Bulb.sun_match d && negb (any_color_argument kw)
       | None => Bulb.sun_match d && negb (any_color_argument kw)
       end.
Proof.
  intros d'. unfold d', expected_device.
  set (d1 := sun_match_dev kw (brightness_dev kw d)).
  set (d2 := color_temp_dev kw device_type d1).
  set (d3 := hs_color_dev kw device_type d2).
  assert (H1 : Bulb.base d1 = Bulb.base d
               /\ Bulb.cloud_fallback d1 = Bulb.cloud_fallback d
               /\ Bulb.color_mode d1 = Bulb.color_mode d
               /\ Bulb.effects d1 = Bulb.effects d
               /\ Bulb.sun_match d1
                  = Bulb.sun_match d && negb (any_color_argument kw)).
  { unfold d1, sun_match_dev, brightness_dev.
    destruct (kwargs_get (ATTR_BRIGHTNESS kw)) as [b |];
      try destruct (brightness_to_percent b) as [p | e |]; simpl;
      destruct (Bulb.sun_match d) eqn:Hsun;
      destruct (any_color_argument kw); simpl; rewrite ?Hsun; done. }
  assert (H2 : Bulb.base d2 = Bulb.base d1
               /\ Bulb.cloud_fallback d2 = Bulb.cloud_fallback d1
               /\ Bulb.color_mode d2
                  = (if supplied (ATTR_COLOR_TEMP kw) && has_color_mode device_type
                     then "2" else Bulb.color_mode d1)%string
               /\ Bulb.effects d2 = Bulb.effects d1
               /\ Bulb.sun_match d2 = Bulb.sun_match d1).
  { unfold d2, color_temp_dev, supplied.
    destruct (kwargs_get (ATTR_COLOR_TEMP kw)) as [mired |];
      destruct (has_color_mode device_type); done. }
  assert (H3 : Bulb.base d3 = Bulb.base d2
               /\ Bulb.cloud_fallback d3 = Bulb.cloud_fallback d2
               /\ Bulb.color_mode d3
                  = (if supplied (ATTR_HS_COLOR kw) && has_color_mode device_type
                     then "1" else Bulb.color_mode d2)%string
               /\ Bulb.effects d3 = Bulb.effects d2
               /\ Bulb.sun_match d3 = Bulb.sun_match d2).
  { unfold d3, hs_color_dev, supplied.
    destruct (kwargs_get (ATTR_HS_COLOR kw)) as [hs |];
      destruct (has_color_mode device_type); done. }
  destruct H1 as (B1 & C1 & M1 & E1 & S1), H2 as (B2 & C2 & M2 & E2 & S2),
    H3 as (B3 & C3 & M3 & E3 & S3).
  clearbody d1 d2 d3.
  unfold effect_dev, other_effect.
  destruct (kwargs_get (ATTR_EFFECT kw)) as [effect |]; simpl.
  - destruct (bool_decide (effect = "sun match"%string)); simpl.
    + rewrite B3, B2, B1, C3, C2, C1, M3, M2, M1, E3, E2, E1.
      repeat split; done.
    + destruct (bool_decide (effect = "shadow"%string)); simpl;
        [| destruct (bool_decide (effect = "leap"%string)); simpl;
           [| destruct (bool_decide (effect = "flicker"%string)); simpl]];
        rewrite ?B3, ?B2, ?B1, ?C3, ?C2, ?C1, ?E3, ?E2, ?E1, ?S3, ?S2, ?S1;
        done.
  - rewrite B3, B2, B1, C3, C2, C1, M3, M2, M1, E3, E2, E1, S3, S2, S1.
    repeat split; done.
Qed.

(** X9: on a mesh light or a light strip, after a call that returned the
    entity shows the HS colour mode when an effect other than sun match or
    an HS colour was supplied (an HS colour wins over a colour temperature
    supplied with it), the colour-temperature mode when only a colour
    temperature was supplied, and the mode it showed before otherwise; the
    mode shown is a supported one. *)
Theorem color_mode_after_turn_on (kw : kwargs) (w w' : World WyzeLight.t) :
  async_turn_on kw w = (Returned tt, w') ->
  has_color_mode (_device_type (this w)) = true ->
  Device_type (Bulb.base (dev w)) = _device_type (this w) ->
  color_mode (this w')
  = (if other_effect kw then ColorMode.HS
     else if supplied (ATTR_HS_COLOR kw) then ColorMode.HS
     else if supplied (ATTR_COLOR_TEMP kw) then ColorMode.COLOR_TEMP
     else color_mode (this w))
  /\ color_mode (this w') ∈ supported_color_modes (this w').
Proof.
  intros Hrun Hcm Hty.
  destruct (async_turn_on_device _ _ _ Hrun) as [Hdev _].
  destruct (expected_device_fields kw (_device_type (this w)) (dev w))
    as (Hbase & _ & _ & Hmode & _).
  rewrite <- Hdev in Hbase, Hmode. unfold dev in *.
  assert (Hin : Device_type (Bulb.base (_device (this w')))
                ∈ [LIGHT; MESH_LIGHT; LIGHTSTRIP]).
  { rewrite Hbase, Hty. unfold has_color_mode in Hcm.
    apply orb_true_iff in Hcm as [Hm | Hs];
      apply bool_decide_eq_true in Hm || apply bool_decide_eq_true in Hs;
      rewrite ?Hm, ?Hs; set_solver. }
  split; [| by apply color_mode_in_supported].
  unfold color_mode. rewrite Hbase, Hty, Hmode, Hcm, !andb_true_r.
  assert (Hnl : type_is (_device_type (this w)) LIGHT = false).
  { unfold has_color_mode in Hcm. unfold type_is.
    apply orb_true_iff in Hcm as [Hm | Hs];
      apply bool_decide_eq_true in Hm || apply bool_decide_eq_true in Hs;
      rewrite ?Hm, ?Hs; reflexivity. }
  rewrite Hnl.
  destruct (other_effect kw); [reflexivity |].
  destruct (supplied (ATTR_HS_COLOR kw)); [reflexivity |].
  destruct (supplied (ATTR_COLOR_TEMP kw)); reflexivity.
Qed.

End AfterTurnOn.

Section Effects.
Context `{Externals}.
Import WyzeLight WyzeLightState.

Lemma turn_on_sends_effect_pairs (kw : kwargs) (w w' : World WyzeLight.t) :
  async_turn_on kw w = (Returned tt, w') ->
  exists local_control before,
    loop w' = loop w ++ [service_turn_on local_control (before ++ effect_pairs kw);
                         update_ha_state].
Proof.
  intros Hrun. rewrite async_turn_on_decorated in Hrun.
  destruct (async_turn_on_undecorated_spec _ _ _ _ Hrun)
    as (_ & _ & _ & _ & _ & Hret & _).
  destruct (Hret eq_refl) as (Hloop & _).
  eexists _, _. rewrite Hloop. unfold expected_options.
  by rewrite !app_assoc.
Qed.

(** X10: every effect of [effect_list] is acted on.  Sun match ends the
    command list with [SUN_MATCH] 1 and sets the sun-match flag; shadow,
    leap and flicker, which only a light strip lists, end it with
    [COLOR_MODE] 3 and the [LIGHTSTRIP_EFFECTS] pair of the effect, and the
    attributes then show the effect by name under ["effect_mode"] and
    ["Effect"] under ["mode"]. *)
Theorem listed_effects_are_sent_and_shown (kw : kwargs)
    (w w' : World WyzeLight.t) (effect : string) :
  kwargs_get (ATTR_EFFECT kw) = Some effect ->
  In effect (effect_list (this w)) ->
  async_turn_on kw w = (Returned tt, w') ->
  (exists local_control before,
     loop w' = loop w ++ [service_turn_on local_control (before ++ effect_pairs kw);
                          update_ha_state])
  /\ (effect = "sun match"%string ->
      effect_pairs kw = [create_pid_pair SUN_MATCH "1"]
      /\ Bulb.sun_match (dev w') = true
      /\ extra_state_attributes (this w') !! "Sun Match"%string
         = Some (PyBool true))
  /\ (effect <> "sun match"%string ->
      exists number shown,
        (effect, number, shown)
        ∈ [("shadow", "1", "Shadow"); ("leap", "2", "Leap");
           ("flicker", "3", "Flicker")]%string
        /\ effect_pairs kw = [create_pid_pair COLOR_MODE "3";
                              create_pid_pair LIGHTSTRIP_EFFECTS number]
        /\ Bulb.color_mode (dev w') = "3"%string
        /\ Bulb.effects (dev w') = number
        /\ extra_state_attributes (this w') !! "effect_mode"%string
           = Some (PyStr shown)
        /\ extra_state_attributes (this w') !! "mode"%string
           = Some (PyStr "Effect")).
Proof.
  intros Hkw Hin Hrun.
  split; [by apply turn_on_sends_effect_pairs |].
  destruct (async_turn_on_device _ _ _ Hrun) as [Hdev _].
  destruct (expected_device_fields kw (_device_type (this w)) (dev w))
    as (_ & _ & _ & Hmode & Heff & Hsun).
  rewrite <- Hdev in Hmode, Heff, Hsun. rewrite Hkw in Heff, Hsun.
  destruct (attributes_lookup (this w')) as (Asun & _ & Aeff & Amode).
  fold (dev w') in Asun, Aeff, Amode.
  assert (Hty' : _device_type (this w') = _device_type (this w)).
  { rewrite async_turn_on_decorated in Hrun.
    by destruct (async_turn_on_undecorated_spec _ _ _ _ Hrun) as (_ & ? & _). }
  split.
  - intros ->. unfold effect_pairs. rewrite Hkw. simpl in *.
    rewrite Asun, Hsun. done.
  - intros Hne. unfold effect_list in Hin.
    destruct (type_is (_device_type (this w)) LIGHTSTRIP) eqn:Hstrip; cycle 1.
    { destruct Hin as [<- | []]. done. }
    assert (Hother : other_effect kw = true).
    { unfold other_effect. rewrite Hkw. by rewrite bool_decide_eq_false_2. }
    rewrite Hother in Hmode.
    rewrite bool_decide_eq_false_2 in Heff by done.
    rewrite Hty', Hstrip, Hmode in Aeff.
    rewrite Hty', Hstrip, orb_true_r, Hmode in Amode. simpl in Aeff, Amode.
    unfold effect_pairs. rewrite Hkw.
    rewrite (bool_decide_eq_false_2 _ Hne).
    unfold EFFECT_SHADOW, EFFECT_LEAP, EFFECT_FLICKER, EFFECT_SUN_MATCH in Hin.
    destruct Hin as [<- | [<- | [<- | [<- | []]]]]; try done.
    + exists "1"%string, "Shadow"%string. simpl in *.
      rewrite Aeff, Heff. split; [set_solver | done].
    + exists "2"%string, "Leap"%string. simpl in *.
      rewrite Aeff, Heff. split; [set_solver | done].
    + exists "3"%string, "Flicker"%string. simpl in *.
      rewrite Aeff, Heff. split; [set_solver | done].
Qed.

(** X11: an effect name the code does not know still puts the bulb in effect
    mode: the command list ends with [COLOR_MODE] 3 alone, the device
    record gets colour mode 3, and its effect number stays as it was. *)
Theorem unknown_effect_switches_mode (kw : kwargs) (w w' : World WyzeLight.t)
    (effect : string) :
  kwargs_get (ATTR_EFFECT kw) = Some effect ->
  effect <> "sun match"%string -> effect <> "shadow"%string ->
  effect <> "leap"%string -> effect <> "flicker"%string ->
  async_turn_on kw w = (Returned tt, w') ->
  effect_pairs kw = [create_pid_pair COLOR_MODE "3"]
  /\ (exists local_control before,
        loop w' = loop w ++
          [service_turn_on local_control
             (before ++ [create_pid_pair COLOR_MODE "3"]);
           update_ha_state])
  /\ Bulb.color_mode (dev w') = "3"%string
  /\ Bulb.effects (dev w') = Bulb.effects (dev w).
Proof.
  intros Hkw H1 H2 H3 H4 Hrun.
  assert (Hpairs : effect_pairs kw = [create_pid_pair COLOR_MODE "3"]).
  { unfold effect_pairs. rewrite Hkw.
    by rewrite !bool_decide_eq_false_2. }
  split; [exact Hpairs |]. split.
  { destruct (turn_on_sends_effect_pairs _ _ _ Hrun) as (lc & before & Hloop).
    exists lc, before. by rewrite <- Hpairs. }
  destruct (async_turn_on_device _ _ _ Hrun) as [Hdev _].
  destruct (expected_device_fields kw (_device_type (this w)) (dev w))
    as (_ & _ & _ & Hmode & Heff & _).
  rewrite <- Hdev in Hmode, Heff. rewrite Hkw in Heff.
  rewrite !bool_decide_eq_false_2 in Heff by done.
  split; [| exact Heff]. rewrite Hmode. unfold other_effect. rewrite Hkw.
  by rewrite bool_decide_eq_false_2.
Qed.

End Effects.

Section Commands.
Context `{Externals}.
Import WyzeLight.

Ltac goal_cases :=
  repeat match goal with
         | |- context [match ?x with _ => _ end] => destruct x
         end;
  try done.

Lemma bulb_eq (d1 d2 : Bulb.t) :
  Bulb.base d1 = Bulb.base d2 ->
  Bulb.brightness d1 = Bulb.brightness d2 ->
  Bulb.color d1 = Bulb.color d2 ->
  Bulb.color_temp d1 = Bulb.color_temp d2 ->
  Bulb.color_mode d1 = Bulb.color_mode d2 ->
  Bulb.effects d1 = Bulb.effects d2 ->
  Bulb.sun_match d1 = Bulb.sun_match d2 ->
  Bulb.on d1 = Bulb.on d2 ->
  Bulb.cloud_fallback d1 = Bulb.cloud_fallback d2 ->
  Bulb.callback_function d1 = Bulb.callback_function d2 ->
  d1 = d2.
Proof. destruct d1, d2. simpl. intros. by subst. Qed.

(** The remaining fields of the device record after a call that returned. *)
Lemma expected_device_values (kw : kwargs) (device_type : DeviceTypes)
    (d : Bulb.t) :
  let d' := expected_device kw device_type d in
  Bulb.callback_function d' = Bulb.callback_function d
  /\ Bulb.brightness d'
     = match kwargs_get (ATTR_BRIGHTNESS kw) with
       | Some b =>
           match brightness_to_percent b with
           | Returned p => p
           | _ => Bulb.brightness d
           end
       | None => Bulb.brightness d
       end
  /\ Bulb.color_temp d'
     = match kwargs_get (ATTR_COLOR_TEMP kw) with
       | Some mired => 1000000 / mired
       | None => Bulb.color_temp d
       end
  /\ Bulb.color d'
     = let after_color_temp :=
         match kwargs_get (ATTR_COLOR_TEMP kw) with
         | Some mired =>
             color_rgb_to_hex (color_temperature_to_rgb (1000000 / mired))
         | None => Bulb.color d
         end in
       match kwargs_get (ATTR_HS_COLOR kw) with
       | Some hs =>
           if has_color_mode device_type
           then color_rgb_to_hex (color_hs_to_RGB hs)
           else after_color_temp
       | None => after_color_temp
       end.
Proof.
  intros d'. unfold d', expected_device.
  set (d1 := sun_match_dev kw (brightness_dev kw d)).
  set (d2 := color_temp_dev kw device_type d1).
  set (d3 := hs_color_dev kw device_type d2).
  assert (H1 : Bulb.callback_function d1 = Bulb.callback_function d
               /\ Bulb.color_temp d1 = Bulb.color_temp d
               /\ Bulb.color d1 = Bulb.color d
               /\ Bulb.brightness d1
                  = match kwargs_get (ATTR_BRIGHTNESS kw) with
                    | Some b =>
                        match brightness_to_percent b with
                        | Returned p => p
                        | _ => Bulb.brightness d
                        end
                    | None => Bulb.brightness d
                    end).
  { unfold d1, sun_match_dev, brightness_dev.
    destruct (kwargs_get (ATTR_BRIGHTNESS kw)) as [b |];
      try destruct (brightness_to_percent b) as [p | e |]; simpl;
      destruct (_ && _); done. }
  assert (H2 : Bulb.callback_function d2 = Bulb.callback_function d1
               /\ Bulb.brightness d2 = Bulb.brightness d1
               /\ Bulb.color_temp d2
                  = match kwargs_get (ATTR_COLOR_TEMP kw) with
                    | Some mired => 1000000 / mired
                    | None => Bulb.color_temp d1
                    end
               /\ Bulb.color d2
                  = match kwargs_get (ATTR_COLOR_TEMP kw) with
                    | Some mired =>
                        color_rgb_to_hex
                          (color_temperature_to_rgb (1000000 / mired))
                    | None => Bulb.color d1
                    end).
  { unfold d2, color_temp_dev.
    destruct (kwargs_get (ATTR_COLOR_TEMP kw)) as [mired |];
      destruct (has_color_mode device_type); done. }
  assert (H3 : Bulb.callback_function d3 = Bulb.callback_function d2
               /\ Bulb.brightness d3 = Bulb.brightness d2
               /\ Bulb.color_temp d3 = Bulb.color_temp d2
               /\ Bulb.color d3
                  = match kwargs_get (ATTR_HS_COLOR kw) with
                    | Some hs =>
                        if has_color_mode device_type
                        then color_rgb_to_hex (color_hs_to_RGB hs)
                        else Bulb.color d2
                    | None => Bulb.color d2
                    end).
  { unfold d3, hs_color_dev.
    destruct (kwargs_get (ATTR_HS_COLOR kw)) as [hs |];
      destruct (has_color_mode device_type); done. }
  destruct H1 as (K1 & T1 & C1 & B1), H2 as (K2 & B2 & T2 & C2),
    H3 as (K3 & B3 & T3 & C3).
  clearbody d1 d2 d3.
  assert (H4 : Bulb.callback_function (effect_dev kw d3) = Bulb.callback_function d3
               /\ Bulb.brightness (effect_dev kw d3) = Bulb.brightness d3
               /\ Bulb.color_temp (effect_dev kw d3) = Bulb.color_temp d3
               /\ Bulb.color (effect_dev kw d3) = Bulb.color d3).
  { unfold effect_dev. goal_cases. }
  destruct H4 as (K4 & B4 & T4 & C4). simpl.
  rewrite K4, B4, T4, C4, K3, B3, T3, C3, K2, B2, T2, C2, K1, B1, T1, C1.
  done.
Qed.

Lemma expected_device_twice (kw : kwargs) (device_type : DeviceTypes)
    (d : Bulb.t) :
  expected_device kw device_type (expected_device kw device_type d)
  = expected_device kw device_type d.
Proof.
  set (d' := expected_device kw device_type d).
  destruct (expected_device_fields kw device_type d)
    as (F1 & F2 & F3 & F4 & F5 & F6).
  destruct (expected_device_values kw device_type d) as (V1 & V2 & V3 & V4).
  destruct (expected_device_fields kw device_type d')
    as (G1 & G2 & G3 & G4 & G5 & G6).
  destruct (expected_device_values kw device_type d') as (W1 & W2 & W3 & W4).
  fold d' in F1, F2, F3, F4, F5, F6, V1, V2, V3, V4.
  apply bulb_eq.
  - by rewrite G1.
  - rewrite W2, V2. goal_cases.
  - rewrite W4, V4. simpl. goal_cases.
  - rewrite W3, V3. goal_cases.
  - rewrite G4, F4. goal_cases.
  - rewrite G5, F5. goal_cases.
  - rewrite G6, F6.
    destruct (kwargs_get (ATTR_EFFECT kw)) as [effect |];
      try destruct (bool_decide (effect = "sun match"%string));
      try done; by destruct (Bulb.sun_match d), (any_color_argument kw).
  - by rewrite G2, F2.
  - by rewrite G3.
  - by rewrite W1.
Qed.

(** X12: repeating a command changes nothing in the device record: when the
    same call of [async_turn_on] returns twice in a row, the device record
    and the local-control setting after the second call are those after the
    first. *)
Theorem turn_on_twice_same_device (kw : kwargs) (w w1 w2 : World WyzeLight.t) :
  async_turn_on kw w = (Returned tt, w1) ->
  async_turn_on kw w1 = (Returned tt, w2) ->
  dev w2 = dev w1
  /\ _local_control (this w2) = _local_control (this w1)
  /\ _just_updated (this w2) = true.
Proof.
  intros Hrun1 Hrun2.
  destruct (async_turn_on_device _ _ _ Hrun1) as [Hd1 Hl1].
  destruct (async_turn_on_device _ _ _ Hrun2) as [Hd2 Hl2].
  rewrite async_turn_on_decorated in Hrun1, Hrun2.
  destruct (async_turn_on_undecorated_spec _ _ _ _ Hrun1)
    as (_ & Hty & _ & Hce & _).
  destruct (async_turn_on_undecorated_spec _ _ _ _ Hrun2)
    as (_ & _ & _ & _ & _ & Hret & _).
  destruct (Hret eq_refl) as (_ & _ & Hflag).
  destruct (expected_device_fields kw (_device_type (this w)) (dev w))
    as (Hbase & _).
  split; [| split; [| exact Hflag]].
  - rewrite Hd2, Hty, Hd1. apply expected_device_twice.
  - rewrite Hl2, Hl1, Hce, Hd1, Hbase. reflexivity.
Qed.

(** X13: a colour temperature of 0 mireds makes [async_turn_on] raise
    [ZeroDivisionError] half-way: nothing is queued, the device is not marked
    on and [_just_updated] keeps its value, but a brightness supplied with
    it has already been written to the device record. *)
Theorem zero_mireds_raises_half_way (kw : kwargs) (w : World WyzeLight.t) :
  kwargs_get (ATTR_COLOR_TEMP kw) = Some 0 ->
  (forall b, kwargs_get (ATTR_BRIGHTNESS kw) = Some b ->
     exists p, brightness_to_percent b = Returned p) ->
  exists w',
    async_turn_on kw w = (Raised ZeroDivisionError, w')
    /\ loop w' = loop w
    /\ vendor_calls w' = vendor_calls w
    /\ dev w' = brightness_dev kw (dev w)
    /\ Bulb.on (dev w') = Bulb.on (dev w)
    /\ _just_updated (this w') = _just_updated (this w).
Proof.
  intros Hct Hb. rewrite async_turn_on_decorated.
  unfold async_turn_on_undecorated.
  cbv [bind read_local_control modify].
  set (w0 := with_this _ w).
  assert (Hd0 : dev w0 = dev w) by reflexivity.
  assert (Hf0 : light_frame w w0) by (repeat split).
  clearbody w0.
  destruct (turn_on_brightness kw [] w0) as [r1 w1] eqn:E1.
  destruct (turn_on_brightness_spec _ _ _ _ _ E1)
    as (F1 & _ & _ & N1 & B1 & _).
  assert (Hr1 : exists o1, r1 = Returned o1).
  { destruct (kwargs_get (ATTR_BRIGHTNESS kw)) as [b |] eqn:Eb.
    - destruct (Hb b eq_refl) as [p Hp]. by destruct (B1 b p eq_refl Hp).
    - destruct (N1 eq_refl) as [-> _]. eauto. }
  destruct Hr1 as [o1 ->].
  destruct (turn_on_brightness_dev _ _ _ _ _ E1) as [Hd1 _]. clear E1.
  destruct (turn_on_sun_match kw o1 w1) as [r2 w2] eqn:E2.
  destruct (turn_on_sun_match_spec _ _ _ _ _ E2) as (_ & _ & -> & _ & Hsame).
  assert (Hany : any_color_argument kw = false).
  { unfold any_color_argument.
    destruct (ATTR_COLOR_TEMP kw) as [| [m |]]; simpl in Hct; try discriminate.
    by injection Hct as ->. }
  rewrite Hany, andb_false_r in Hsame. specialize (Hsame eq_refl). subst w2.
  clear E2.
  destruct (turn_on_color_temp kw _ w1) as [r3 w3] eqn:E3.
  destruct (turn_on_color_temp_spec _ _ _ _ _ E3) as (_ & _ & _ & _ & T3 & _).
  destruct (T3 0 Hct) as [-> ->].
  exists w1. split; [reflexivity |].
  destruct F1 as (L1 & V1 & J1 & _ & _ & _ & O1 & _).
  destruct Hf0 as (L0 & V0 & J0 & _ & _ & _ & O0 & _).
  repeat split; congruence.
Qed.

(** X14: a call of [async_turn_on] without any of the four arguments always
    returns; it queues a service call with an empty command list and marks
    the device on, changing no other field of the device record. *)
Theorem turn_on_without_arguments (kw : kwargs) (w : World WyzeLight.t) :
  kwargs_get (ATTR_BRIGHTNESS kw) = None ->
  kwargs_get (ATTR_COLOR_TEMP kw) = None ->
  kwargs_get (ATTR_HS_COLOR kw) = None ->
  kwargs_get (ATTR_EFFECT kw) = None ->
  exists w' local_control,
    async_turn_on kw w = (Returned tt, w')
    /\ loop w' = loop w ++ [service_turn_on local_control []; update_ha_state]
    /\ dev w' = Bulb.set_on true (dev w).
Proof.
  intros Hb Hct Hhs Heff.
  destruct (async_turn_on kw w) as [r w'] eqn:Hrun.
  assert (Hany : any_color_argument kw = false).
  { unfold any_color_argument. rewrite Hhs.
    destruct (ATTR_COLOR_TEMP kw) as [| [m |]]; try reflexivity. discriminate. }
  assert (Hr : r = Returned tt).
  { rewrite async_turn_on_decorated in Hrun.
    destruct (async_turn_on_undecorated_spec _ _ _ _ Hrun)
      as (_ & _ & _ & _ & _ & _ & _ & _ & _ & Htot).
    apply Htot. split; [intros b Hb'; congruence | congruence]. }
  subst r. exists w'.
  destruct (async_turn_on_device _ _ _ Hrun) as [Hdev _].
  rewrite async_turn_on_decorated in Hrun.
  destruct (async_turn_on_undecorated_spec _ _ _ _ Hrun)
    as (_ & _ & _ & _ & _ & Hret & _).
  destruct (Hret eq_refl) as (Hloop & _).
  eexists. split; [reflexivity |]. split.
  - rewrite Hloop. unfold expected_options, brightness_pairs,
      sun_match_off_pairs, color_temp_pairs, hs_color_pairs, effect_pairs.
    rewrite Hb, Hct, Hhs, Heff, Hany, andb_false_r. reflexivity.
  - rewrite Hdev. unfold expected_device, effect_dev, hs_color_dev,
      color_temp_dev, sun_match_dev, brightness_dev.
    rewrite Hb, Hct, Hhs, Heff, Hany, andb_false_r. reflexivity.
Qed.

(** X15: a poll that fails changes nothing but the record of vendor calls:
    when [async_update] does not return, the entity is as it was, with
    [_just_updated] false, so the next poll asks the service again; it ends
    as the service call ended, except that an authentication failure ends
    in the re-authentication flow. *)
Theorem failed_update_keeps_state (w w' : World WyzeLight.t) (r : outcome unit) :
  async_update w = (r, w') ->
  r <> Returned tt ->
  this w' = this w
  /\ loop w' = loop w
  /\ _just_updated (this w) = false
  /\ vendor_calls w' = vendor_calls w ++ [call_update]
  /\ (forall e, update (_service (this w)) (_device (this w)) = Raised e ->
      r = handled e)
  /\ r <> Raised VendorAuthFailure.
Proof.
  unfold async_update. rewrite handler_of_raise.
  unfold async_update_undecorated. cbv [bind gets modify perform lift].
  destruct (_just_updated (this w)) eqn:Hflag; simpl.
  - intros [= <- <-]. done.
  - destruct (update (_service (this w)) (_device (this w))) as [d | e |];
      intros [= <- <-] Hr; simpl; try done.
    repeat split; try done.
    + by intros e' [= <-].
    + by destruct e.
Qed.

End Commands.

(** ** Set-up: failures and identifiers *)

Section SetupEdges.
Context `{Externals}.

Ltac setup_stops n :=
  intros [= <- <-]; simpl; rewrite <- ?app_assoc; simpl;
  split; [reflexivity |]; split; [reflexivity |];
  split; [exists n; simpl; by rewrite ?app_nil_r |];
  split; [intros Hr; try discriminate Hr; exfalso; revert Hr
         | intros _; reflexivity].

(** Building the lights changes no state; it fails exactly when some bulb
    is not supported, with the error of the first such bulb. *)
Lemma mapM_init_cases (bulb_service : BulbService) (config_entry : ConfigEntry)
    (bulbs : list Bulb.t) (w : World HomeAssistant) :
  (exists lights,
     mapM (fun light => lift (WyzeLight.__init__ light bulb_service config_entry))
          bulbs w = (Returned lights, w)
     /\ Forall supported_bulb bulbs)
  \/ (exists e,
        mapM (fun light => lift (WyzeLight.__init__ light bulb_service config_entry))
             bulbs w = (Raised e, w)
        /\ init_error e
        /\ Exists (fun bulb => ~ supported_bulb bulb) bulbs).
Proof.
  induction bulbs as [| bulb bulbs IH].
  - left. exists []. split; [reflexivity | constructor].
  - assert (Hstep : forall r,
      lift (WyzeLight.__init__ bulb bulb_service config_entry) w = (r, w) ->
      mapM (fun light => lift (WyzeLight.__init__ light bulb_service config_entry))
           (bulb :: bulbs) w
      = match r with
        | Returned self =>
            match mapM (fun light =>
                          lift (WyzeLight.__init__ light bulb_service config_entry))
                       bulbs w with
            | (Returned lights, w1) => (Returned (self :: lights), w1)
            | (Raised e, w1) => (Raised e, w1)
            | (Reauth, w1) => (Reauth, w1)
            end
        | Raised e => (Raised e, w)
        | Reauth => (Reauth, w)
        end).
    { intros r Hr. simpl. unfold bind at 1. rewrite Hr.
      destruct r; reflexivity. }
    rewrite (Hstep _ eq_refl). clear Hstep.
    pose proof (init_cases bulb bulb_service config_entry) as Hc.
    destruct (DeviceTypes_call (product_type (Bulb.base bulb))) as [ty |] eqn:Hty.
    + destruct (WyzeLight.type_in ty [LIGHT; MESH_LIGHT; LIGHTSTRIP]) eqn:Hin.
      * destruct Hc as (self & -> & _).
        assert (Hsup : supported_bulb bulb).
        { exists ty. split; [exact Hty | by apply type_in_lights]. }
        destruct IH as [(lights & Hrun & Hall) | (e & Hrun & He & Hex)];
          rewrite Hrun.
        -- left. exists (self :: lights). split; [reflexivity | by constructor].
        -- right. exists e.
           split; [reflexivity |]. split; [exact He | by apply Exists_cons_tl].
      * right. rewrite Hc. eexists. split; [reflexivity |].
        split; [by left |]. apply Exists_cons_hd.
        intros (ty' & Hty' & Hin'). rewrite Hty in Hty'. injection Hty' as <-.
        apply type_in_lights in Hin'. congruence.
    + right. rewrite Hc. eexists. split; [reflexivity |].
      split; [by right |]. apply Exists_cons_hd.
      intros (ty' & Hty' & _). congruence.
Qed.

(** Going through the cameras changes no state; it fails exactly when some
    ["spotlight_status"] is no number, with [TypeError]. *)
Lemma append_floodlights_cases (camera_service : CameraService)
    (cameras : list Camera.t) (lights : list Entity) (w : World HomeAssistant) :
  (exists entities,
     append_floodlights camera_service cameras lights w = (Returned entities, w)
     /\ Forall (fun camera => is_number (spotlight_status camera)) cameras)
  \/ (append_floodlights camera_service cameras lights w = (Raised TypeError, w)
      /\ Exists (fun camera => ~ is_number (spotlight_status camera)) cameras).
Proof.
  revert lights. induction cameras as [| camera cameras IH]; intros lights.
  - left. exists lights. split; [reflexivity | constructor].
  - assert (Hstep :
      append_floodlights camera_service (camera :: cameras) lights w
      = match py_gt (spotlight_status camera) 0 with
        | Returned lit =>
            append_floodlights camera_service cameras
              (if (lit : bool) then
                 lights ++ [FloodlightEntity
                              (WyzeCamerafloodlight.__init__ camera camera_service)]
               else lights) w
        | Raised e => (Raised e, w)
        | Reauth => (Reauth, w)
        end).
    { simpl. unfold bind at 1. unfold lift at 1. unfold spotlight_status.
      destruct (py_gt _ 0); reflexivity. }
    rewrite Hstep. clear Hstep.
    destruct (spotlight_status camera) as [| b | z |] eqn:Hs; simpl.
    + right. split; [reflexivity |]. apply Exists_cons_hd.
      intros Hn. rewrite Hs in Hn. exact Hn.
    + destruct (IH (if 0 <? Z.b2z b then lights ++ [FloodlightEntity
                      (WyzeCamerafloodlight.__init__ camera camera_service)]
                    else lights)) as [(ents & Hrun & Hall) | [Hrun Hex]].
      * left. exists ents. split; [exact Hrun |].
        constructor; [rewrite Hs; exact I | done].
      * right. split; [exact Hrun | by apply Exists_cons_tl].
    + destruct (IH (if 0 <? z then lights ++ [FloodlightEntity
                      (WyzeCamerafloodlight.__init__ camera camera_service)]
                    else lights)) as [(ents & Hrun & Hall) | [Hrun Hex]].
      * left. exists ents. split; [exact Hrun |].
        constructor; [rewrite Hs; exact I | done].
      * right. split; [exact Hrun | by apply Exists_cons_tl].
    + right. split; [reflexivity |]. apply Exists_cons_hd.
      intros Hn. rewrite Hs in Hn. exact Hn.
Qed.

(** X17: the set-up adds all its entities or none.  However it ends, it keeps
    the clients and the event loop as they were and makes its vendor calls
    in the order client camera service, client bulb service, [get_bulbs],
    [get_cameras], stopping at the first that fails; when it returns it has
    made all four and added one list, to be updated before it is added;
    when it does not return it has added nothing. *)
Theorem setup_adds_all_or_nothing (config_entry : ConfigEntry)
    (w w' : World HomeAssistant) (r : outcome unit) :
  async_setup_entry config_entry w = (r, w') ->
  data (this w') = data (this w)
  /\ loop w' = loop w
  /\ (exists n,
        vendor_calls w'
        = vendor_calls w ++
          firstn n [call_camera_service; call_bulb_service; call_get_bulbs;
                    call_get_cameras])
  /\ (r = Returned tt ->
      (exists entities, added (this w') = added (this w) ++ [(entities, true)])
      /\ vendor_calls w'
         = vendor_calls w ++
           [call_camera_service; call_bulb_service; call_get_bulbs;
            call_get_cameras])
  /\ (r <> Returned tt -> added (this w') = added (this w)).
Proof.
  unfold async_setup_entry. rewrite handler_of_raise.
  unfold async_setup_entry_undecorated.
  cbv [bind gets perform modify lift].
  destruct (data (this w) !! entry_id config_entry) as [client |]; simpl; cycle 1.
  { setup_stops 0%nat. }
  destruct (camera_service client) as [cs | e |]; simpl; cycle 1.
  { setup_stops 1%nat. by destruct e. }
  { setup_stops 1%nat. }
  destruct (bulb_service client) as [bs | e |]; simpl; cycle 1.
  { setup_stops 2%nat. by destruct e. }
  { setup_stops 2%nat. }
  destruct (get_bulbs bs) as [bulbs | e |]; simpl; cycle 1.
  { setup_stops 3%nat. by destruct e. }
  { setup_stops 3%nat. }
  match goal with
  | |- context [mapM ?f bulbs ?v] =>
      destruct (mapM_init_cases bs config_entry bulbs v)
        as [(lights & Hrun & _) | (e & Hrun & He & _)];
      change (mapM f bulbs v = (Returned lights, v)) in Hrun
      || change (mapM f bulbs v = (Raised e, v)) in Hrun
  end; rewrite Hrun; simpl; cycle 1.
  { setup_stops 3%nat. by destruct He as [-> | ->]. }
  destruct (get_cameras cs) as [cameras | e |]; simpl; cycle 1.
  { setup_stops 4%nat. by destruct e. }
  { setup_stops 4%nat. }
  match goal with
  | |- context [append_floodlights ?s ?c ?l ?v] =>
      destruct (append_floodlights_cases s c l v)
        as [(ents & Hcam & _) | [Hcam _]]
  end; rewrite Hcam; simpl.
  - intros [= <- <-]; simpl; rewrite <- !app_assoc; simpl.
    split; [reflexivity |]. split; [reflexivity |].
    split; [by exists 4%nat |].
    split; [intros _; split; [by eexists | reflexivity] | done].
  - setup_stops 4%nat.
Qed.

(** X18: one bulb that is not supported stops the whole set-up: when
    [get_bulbs] answers with a list that holds such a bulb, the set-up
    raises the error of its constructor ([AttributeError] or [ValueError]),
    adds no entity, not even for the bulbs that are supported, and never
    asks for the cameras. *)
Theorem unsupported_bulb_stops_setup (config_entry : ConfigEntry)
    (w : World HomeAssistant) (client : Wyzeapy) (cameras_of : CameraService)
    (bulbs_of : BulbService) (bulbs : list Bulb.t) :
  data (this w) !! entry_id config_entry = Some client ->
  camera_service client = Returned cameras_of ->
  bulb_service client = Returned bulbs_of ->
  get_bulbs bulbs_of = Returned bulbs ->
  Exists (fun bulb => ~ supported_bulb bulb) bulbs ->
  exists e w',
    async_setup_entry config_entry w = (Raised e, w')
    /\ init_error e
    /\ added (this w') = added (this w)
    /\ vendor_calls w'
       = vendor_calls w ++ [call_camera_service; call_bulb_service; call_get_bulbs].
Proof.
  intros Hclient Hcs Hbs Hbulbs Hex.
  unfold async_setup_entry. rewrite handler_of_raise.
  unfold async_setup_entry_undecorated.
  cbv [bind gets perform modify lift]. rewrite Hclient, Hcs, Hbs, Hbulbs.
  match goal with
  | |- context [mapM ?f bulbs ?v] =>
      destruct (mapM_init_cases bulbs_of config_entry bulbs v)
        as [(lights & Hrun & Hall) | (e & Hrun & He & _)];
      change (mapM f bulbs v = (Returned lights, v)) in Hrun
      || change (mapM f bulbs v = (Raised e, v)) in Hrun
  end.
  - exfalso. apply Exists_exists in Hex as (bulb & Hin & Hnot).
    rewrite Forall_forall in Hall. by apply Hnot, Hall.
  - rewrite Hrun. exists e. eexists. split.
    + destruct He as [-> | ->]; reflexivity.
    + simpl. rewrite <- !app_assoc. by repeat split.
Qed.

(** X19: a camera whose ["spotlight_status"] is no number (a string, or
    [None] stored under the key) stops the set-up with [TypeError] after
    all four vendor calls; no entity is added, the lights included. *)
Theorem spotlight_status_type_error (config_entry : ConfigEntry)
    (w : World HomeAssistant) (client : Wyzeapy) (cameras_of : CameraService)
    (bulbs_of : BulbService) (bulbs : list Bulb.t) (cameras : list Camera.t) :
  data (this w) !! entry_id config_entry = Some client ->
  camera_service client = Returned cameras_of ->
  bulb_service client = Returned bulbs_of ->
  get_bulbs bulbs_of = Returned bulbs ->
  get_cameras cameras_of = Returned cameras ->
  Forall supported_bulb bulbs ->
  Exists (fun camera => ~ is_number (spotlight_status camera)) cameras ->
  exists w',
    async_setup_entry config_entry w = (Raised TypeError, w')
    /\ added (this w') = added (this w)
    /\ vendor_calls w'
       = vendor_calls w ++ [call_camera_service; call_bulb_service;
                            call_get_bulbs; call_get_cameras].
Proof.
  intros Hclient Hcs Hbs Hbulbs Hcams Hsup Hex.
  unfold async_setup_entry. rewrite handler_of_raise.
  unfold async_setup_entry_undecorated.
  cbv [bind gets perform modify lift]. rewrite Hclient, Hcs, Hbs, Hbulbs.
  match goal with
  | |- context [mapM ?f bulbs ?v] =>
      destruct (mapM_init bulbs_of config_entry bulbs v Hsup)
        as (lights & Hrun & _);
      change (mapM f bulbs v = (Returned lights, v)) in Hrun
  end.
  rewrite Hrun, Hcams.
  match goal with
  | |- context [append_floodlights ?s ?c ?l ?v] =>
      destruct (append_floodlights_cases s c l v)
        as [(ents & _ & Hall) | [Hcam _]]
  end.
  - exfalso. apply Exists_exists in Hex as (camera & Hin & Hnot).
    rewrite Forall_forall in Hall. by apply Hnot, Hall.
  - rewrite Hcam. eexists. split; [reflexivity |]. simpl.
    rewrite <- !app_assoc. by split.
Qed.

End SetupEdges.

(** ** The floodlight, the device information and the update callback *)

Section Floodlight.

(** X21: the floodlight switches are not optimistic.  [async_turn_on] and
    [async_turn_off] of [WyzeCamerafloodlight] make exactly one vendor call
    and wait for it; the entity, and with it [is_on], stays as it was; the
    state is written to the host only when the call has returned, and not
    at all when it raised. *)
Theorem floodlight_waits_for_vendor (w : World WyzeCamerafloodlight.t) :
  let on_ := WyzeCamerafloodlight.async_turn_on w in
  let off := WyzeCamerafloodlight.async_turn_off w in
  let self := this w in
  this (snd on_) = self /\ this (snd off) = self
  /\ vendor_calls (snd on_) = vendor_calls w ++ [call_floodlight_on]
  /\ vendor_calls (snd off) = vendor_calls w ++ [call_floodlight_off]
  /\ loop (snd on_)
     = match floodlight_on (WyzeCamerafloodlight._service self)
                           (WyzeCamerafloodlight._device self) with
       | Returned _ => loop w ++ [update_ha_state]
       | _ => loop w
       end
  /\ loop (snd off)
     = match floodlight_off (WyzeCamerafloodlight._service self)
                            (WyzeCamerafloodlight._device self) with
       | Returned _ => loop w ++ [update_ha_state]
       | _ => loop w
       end.
Proof.
  unfold WyzeCamerafloodlight.async_turn_on, WyzeCamerafloodlight.async_turn_off.
  rewrite !handler_of_raise.
  unfold WyzeCamerafloodlight.async_turn_on_undecorated,
    WyzeCamerafloodlight.async_turn_off_undecorated,
    async_schedule_update_ha_state, create_task.
  cbv [bind gets perform modify lift]. simpl.
  destruct (floodlight_on _ _) as [[] | e1 |];
    destruct (floodlight_off _ _) as [[] | e2 |]; simpl; done.
Qed.

(** X22: entities of devices with the same parent are grouped under one
    device of the host.  A device that names a parent (a non-empty
    [parent_device_mac]) gets a device information that holds the parent's
    MAC and nothing of the device itself, so two such devices get the same
    one; a device without parent, whether [parent_device_mac] is [None] or
    the empty string, is described by its own MAC, nickname, model and
    firmware version, with the manufacturer's name. *)
Theorem children_share_parent_device (device other : Device) (parent : string) :
  parent <> EmptyString ->
  parent_device_mac device = Some parent ->
  (parent_device_mac other = Some parent ->
   WyzeDeviceEntity.device_info device = WyzeDeviceEntity.device_info other)
  /\ WyzeDeviceEntity.device_info device
     = {| info_mac := parent; info_name := None; info_manufacturer := None;
          info_model := None; info_sw_version := None |}
  /\ (parent_device_mac other = None
      \/ parent_device_mac other = Some EmptyString ->
      WyzeDeviceEntity.device_info other
      = {| info_mac := mac other; info_name := Some (nickname other);
           info_manufacturer := Some "WyzeLabs"%string;
           info_model := Some (product_model other);
           info_sw_version := Some (firmware_ver other) |}).
Proof.
  intros Hne Hp. unfold WyzeDeviceEntity.device_info. rewrite Hp.
  rewrite bool_decide_eq_false_2 by exact Hne.
  split; [intros ->; by rewrite bool_decide_eq_false_2 |].
  split; [reflexivity |].
  intros [-> | ->]; reflexivity.
Qed.

End Floodlight.

Section Lifecycle.
Context `{Externals}.

(** X23: a light added to the host and removed again.  Adding sets the
    callback of the device, registers the updater with an interval of 30
    and then starts the update manager, whose answer is the answer of the
    method; removing unregisters the updater and nothing else: the callback
    of the device stays set, and the rest of the entity is as before. *)
Theorem light_added_then_removed (w : World WyzeLight.t) :
  let added_ := WyzeLight.async_added_to_hass w in
  let removed := WyzeLight.async_will_remove_from_hass (snd added_) in
  fst added_ = start_update_manager (WyzeLight._service (this w))
  /\ vendor_calls (snd added_)
     = vendor_calls w ++ [call_register_updater 30; call_start_update_manager]
  /\ fst removed = Returned tt
  /\ vendor_calls (snd removed)
     = vendor_calls w ++ [call_register_updater 30; call_start_update_manager;
                          call_unregister_updater]
  /\ dev (snd removed)
     = Bulb.set_callback_function (Some async_update_callback_of_light) (dev w)
  /\ this (snd removed)
     = WyzeLight.set__device (dev (snd removed)) (this w)
  /\ loop (snd removed) = loop w.
Proof.
  unfold WyzeLight.async_added_to_hass, WyzeLight.async_will_remove_from_hass,
    WyzeLight.set_device_field, dev.
  cbv [bind gets perform modify lift]. simpl.
  destruct (start_update_manager _) as [[] | e |]; simpl;
    rewrite <- ?app_assoc; done.
Qed.

End Lifecycle.

Section Push.
Context `{Externals}.
Variable LIGHT_UPDATED : string.

Lemma async_update_callback_eq (bulb : Bulb.t) (w : World WyzeLight.t)
    (signals : list Signal) :
  async_update_callback LIGHT_UPDATED bulb (w, signals)
  = (Returned tt,
     ({| this := WyzeLight.set__local_control
                   (dict_get (options (WyzeLight._config_entry (this w)))
                             BULB_LOCAL_CONTROL)
                   (WyzeLight.set__device bulb (this w));
         loop := loop w ++ [update_ha_state];
         vendor_calls := vendor_calls w |},
      signals ++ [{| signal := (LIGHT_UPDATED +:+ "-" +:+ mac (Bulb.base bulb))%string;
                     payload := bulb |}])).
Proof. reflexivity. Qed.

(** X24: a state pushed by the vendor library right after a command is not
    polled over.  After [async_turn_off], the callback replaces the device
    by the pushed bulb, sends one signal named after the MAC of the pushed
    bulb and schedules a state write, without a vendor call and without
    touching the flag the command set; so the next [async_update] only
    clears the flag, and the pushed bulb is still the device.  The update
    after that one polls the vendor with the pushed bulb. *)
Theorem pushed_bulb_survives_next_poll (bulb : Bulb.t) (w : World WyzeLight.t)
    (signals : list Signal) :
  let w1 := snd (WyzeLight.async_turn_off w) in
  let pushed := snd (async_update_callback LIGHT_UPDATED bulb (w1, signals)) in
  let w2 := snd (WyzeLight.async_update (fst pushed)) in
  let w3 := snd (WyzeLight.async_update w2) in
  snd pushed
  = signals ++ [{| signal := (LIGHT_UPDATED +:+ "-" +:+ mac (Bulb.base bulb))%string;
                   payload := bulb |}]
  /\ dev (fst pushed) = bulb
  /\ WyzeLight._just_updated (this (fst pushed)) = true
  /\ loop (fst pushed) = loop w1 ++ [update_ha_state]
  /\ vendor_calls (fst pushed) = vendor_calls w
  /\ fst (WyzeLight.async_update (fst pushed)) = Returned tt
  /\ dev w2 = bulb
  /\ vendor_calls w2 = vendor_calls w
  /\ WyzeLight._just_updated (this w2) = false
  /\ vendor_calls w3 = vendor_calls w ++ [call_update]
  /\ (forall device,
        update (WyzeLight._service (this w)) bulb = Returned device ->
        dev w3 = device).
Proof.
  intros w1 pushed w2 w3. subst pushed.
  rewrite async_update_callback_eq in *. subst w1.
  rewrite async_turn_off_eq in *. simpl in *.
  subst w3 w2.
  unfold WyzeLight.async_update. rewrite !handler_of_raise.
  unfold WyzeLight.async_update_undecorated, dev.
  cbv [bind gets perform modify lift]. simpl.
  repeat (split; [reflexivity |]).
  split.
  - destruct (update _ bulb) as [d | e |]; [| destruct e |]; reflexivity.
  - intros device ->. reflexivity.
Qed.

End Push.

Section UniqueIds.
Context `{Externals}.

Lemma append_length (s1 s2 : string) :
  String.length (s1 +:+ s2) = (String.length s1 + String.length s2)%nat.
Proof. induction s1 as [| a s1 IH]; simpl; [reflexivity | by rewrite IH]. Qed.

Lemma append_inj_r (s1 s2 suffix : string) :
  (s1 +:+ suffix)%string = (s2 +:+ suffix)%string -> s1 = s2.
Proof.
  revert s2. induction s1 as [| a s1 IH]; intros [| b s2] Heq.
  - reflexivity.
  - apply (f_equal String.length) in Heq.
    rewrite !append_length in Heq. simpl in Heq. lia.
  - apply (f_equal String.length) in Heq.
    rewrite !append_length in Heq. simpl in Heq. lia.
  - change (String a (s1 +:+ suffix) = String b (s2 +:+ suffix)) in Heq.
    injection Heq as -> Heq. f_equal. by apply IH.
Qed.

Lemma light_ids (bulb_service : BulbService) (config_entry : ConfigEntry)
    (bulbs : list Bulb.t) (lights : list WyzeLight.t) :
  Forall2 (fun bulb light =>
             WyzeLight.__init__ bulb bulb_service config_entry = Returned light
             /\ WyzeLight._device light = bulb) bulbs lights ->
  map entity_unique_id (map LightEntity lights)
  = map (fun bulb => mac (Bulb.base bulb)) bulbs.
Proof.
  induction 1 as [| bulb light bulbs lights [_ Hdev] _ IH]; [reflexivity |].
  simpl. rewrite IH. unfold WyzeLightState.unique_id. by rewrite Hdev.
Qed.

(** X20: the identifiers of the entities of one set-up.  When the set-up
    goes through, the entities it adds have, in order, the MAC of each bulb
    and, for each camera with a spotlight, its MAC followed by
    [-floodlight].  They are pairwise different when the bulbs have
    different MACs, the cameras with a spotlight have different MACs, and no
    bulb has the MAC of such a camera followed by [-floodlight]. *)
Theorem setup_unique_ids_distinct (config_entry : ConfigEntry)
    (w : World HomeAssistant) (client : Wyzeapy) (cameras_of : CameraService)
    (bulbs_of : BulbService) (bulbs : list Bulb.t) (cameras : list Camera.t) :
  data (this w) !! entry_id config_entry = Some client ->
  camera_service client = Returned cameras_of ->
  bulb_service client = Returned bulbs_of ->
  get_bulbs bulbs_of = Returned bulbs ->
  get_cameras cameras_of = Returned cameras ->
  Forall supported_bulb bulbs ->
  Forall (fun camera => is_number (spotlight_status camera)) cameras ->
  exists entities,
    added (this (snd (async_setup_entry config_entry w)))
    = added (this w) ++ [(entities, true)]
    /\ map entity_unique_id entities = setup_unique_ids bulbs cameras
    /\ (List.NoDup (map (fun bulb => mac (Bulb.base bulb)) bulbs) ->
        List.NoDup (map (fun camera => mac (Camera.base camera))
                        (List.filter has_spotlight cameras)) ->
        (forall bulb camera,
           In bulb bulbs -> In camera (List.filter has_spotlight cameras) ->
           mac (Bulb.base bulb)
           <> (mac (Camera.base camera) +:+ "-floodlight")%string) ->
        List.NoDup (map entity_unique_id entities)).
Proof.
  intros Hclient Hcs Hbs Hbulbs Hcams Hsup Hnum.
  unfold async_setup_entry, token_exception_handler, async_setup_entry_undecorated.
  cbv [bind gets perform modify lift]. rewrite Hclient, Hcs, Hbs, Hbulbs.
  match goal with
  | |- context [mapM ?f bulbs ?v] =>
      destruct (mapM_init bulbs_of config_entry bulbs v Hsup)
        as (lights & Hrun & Hall);
      change (mapM f bulbs v = (Returned lights, v)) in Hrun
  end.
  rewrite Hrun, Hcams.
  match goal with
  | |- context [append_floodlights ?s ?c ?l ?v] =>
      rewrite (append_floodlights_spec s c l v Hnum)
  end.
  eexists. split; [reflexivity |].
  assert (Hids :
    map entity_unique_id
      (map LightEntity lights ++
       map (fun camera =>
              FloodlightEntity (WyzeCamerafloodlight.__init__ camera cameras_of))
           (List.filter has_spotlight cameras))
    = setup_unique_ids bulbs cameras).
  { unfold setup_unique_ids.
    rewrite List.map_app, (light_ids _ _ _ _ Hall), List.map_map. reflexivity. }
  split; [exact Hids |].
  intros Hb Hc Hdiff. rewrite Hids. unfold setup_unique_ids.
  apply List.NoDup_app.
  - exact Hb.
  - rewrite <- (List.map_map (fun camera => mac (Camera.base camera))
                  (fun m => (m +:+ "-floodlight")%string)).
    apply List.NoDup_map_NoDup_ForallPairs; [| exact Hc].
    intros m1 m2 _ _. apply append_inj_r.
  - intros id Hin1 Hin2.
    apply List.in_map_iff in Hin1 as (bulb & <- & Hbulb).
    apply List.in_map_iff in Hin2 as (camera & Heq & Hcamera).
    by apply (Hdiff bulb camera).
Qed.

End UniqueIds.

(** ** Local control *)

Section LocalControl.
Context `{Externals}.
Import WyzeLight WyzeLightState.

(** X16: local control is a setting of the config entry that is read again by
    every command.  [async_turn_on] sends its commands with the value
    stored under [BULB_LOCAL_CONTROL] ([None] when there is none), except
    that an effect other than sun match on a device of type [MESH_LIGHT] is
    always sent with [False]; the attributes then show ["local_control"]
    false.  The exception does not last: the next [async_turn_off] is sent
    with the stored value again. *)
Theorem effect_on_mesh_light_not_local (kw : kwargs) (w w' : World WyzeLight.t) :
  async_turn_on kw w = (Returned tt, w') ->
  let setting := dict_get (options (_config_entry (this w))) BULB_LOCAL_CONTROL in
  let sent :=
    if other_effect kw && type_is (Device_type (Bulb.base (dev w))) MESH_LIGHT
    then PyBool false else setting in
  loop w'
  = loop w ++
    [service_turn_on sent
       (expected_options kw (Bulb.sun_match (dev w)) (_device_type (this w)));
     update_ha_state]
  /\ _local_control (this w') = sent
  /\ (other_effect kw = true ->
      Device_type (Bulb.base (dev w)) = MESH_LIGHT ->
      extra_state_attributes (this w') !! "local_control"%string
      = Some (PyBool false))
  /\ loop (snd (async_turn_off w'))
     = loop w' ++ [service_turn_off setting; update_ha_state].
Proof.
  intros Hrun setting sent.
  destruct (async_turn_on_device _ _ _ Hrun) as [_ Hlc].
  rewrite async_turn_on_decorated in Hrun.
  destruct (async_turn_on_undecorated_spec _ _ _ _ Hrun)
    as (_ & _ & _ & Hcfg & _ & Hok & _).
  destruct (Hok eq_refl) as (Hloop & _).
  split; [rewrite Hloop, Hlc; reflexivity |].
  split; [exact Hlc |].
  split.
  - intros Heff Hty.
    destruct (attributes_lookup (this w')) as (_ & Hattr & _).
    rewrite Hattr, Hlc, Heff, Hty. reflexivity.
  - rewrite async_turn_off_eq. simpl. rewrite Hcfg. reflexivity.
Qed.

End LocalControl.

Lemma effect_on_mesh_light_not_local_witness :
  exists options,
    loop (snd (@WyzeLight.async_turn_on Sample.externals
                 (Sample.kwargs Missing Missing Missing (Passed (Some "leap"%string)))
                 Sample.mesh_light))
    = [service_turn_on (PyBool false) options; update_ha_state].
Proof.
  destruct (effect_on_mesh_light_not_local (H := Sample.externals)
              (Sample.kwargs Missing Missing Missing (Passed (Some "leap"%string)))
              Sample.mesh_light
              (snd (@WyzeLight.async_turn_on Sample.externals
                      (Sample.kwargs Missing Missing Missing
                         (Passed (Some "leap"%string)))
                      Sample.mesh_light))) as (Hloop & _).
  - vm_compute. reflexivity.
  - eexists. exact Hloop.
Defined.

(** ** The further properties at sample values *)

Lemma brightness_set_then_read_witness :
  PyNum.leb (PyNum.of_int 253)
    (PyNum.mul
       (WyzeLight.brightness
          (this (snd (@WyzeLight.async_turn_on Sample.externals
                        (Sample.kwargs (Passed (Some 128)) Missing Missing Missing)
                        Sample.plain_light))))
       (PyNum.of_int 2)) = true.
Proof.
  destruct (brightness_set_then_read (H := Sample.externals)
              (Sample.kwargs (Passed (Some 128)) Missing Missing Missing)
              Sample.plain_light
              (snd (@WyzeLight.async_turn_on Sample.externals
                      (Sample.kwargs (Passed (Some 128)) Missing Missing Missing)
                      Sample.plain_light))
              128) as [Hlow _].
  - reflexivity.
  - lia.
  - vm_compute. reflexivity.
  - exact Hlow.
Defined.

Lemma color_temp_within_advertised_range_witness :
  exists m, WyzeLight.color_temp (this Sample.mesh_light) = Returned m
            /\ (2700 = 6500 -> m = 153).
Proof.
  destruct (color_temp_within_advertised_range (this Sample.mesh_light))
    as (m & Hm & _ & Hlast).
  - vm_compute. discriminate.
  - exists m. split; [exact Hm | exact Hlast].
Defined.

Lemma color_mode_is_supported_witness :
  @WyzeLightState.color_mode Sample.externals (this Sample.mesh_light)
  ∈ @WyzeLightState.supported_color_modes Sample.externals (this Sample.mesh_light).
Proof.
  destruct (color_mode_is_supported (H := Sample.externals)
              (this Sample.mesh_light)) as [Hmode _].
  - by apply (bool_decide_unpack _).
  - exact Hmode.
Defined.

Lemma color_mode_after_turn_on_witness :
  @WyzeLightState.color_mode Sample.externals
    (this (snd (@WyzeLight.async_turn_on Sample.externals
                  (Sample.kwargs Missing (Passed (Some 250))
                     (Passed (Some (30, 80))) Missing)
                  Sample.mesh_light)))
  = ColorMode.HS.
Proof.
  destruct (color_mode_after_turn_on (H := Sample.externals)
              (Sample.kwargs Missing (Passed (Some 250))
                 (Passed (Some (30, 80))) Missing)
              Sample.mesh_light
              (snd (@WyzeLight.async_turn_on Sample.externals
                      (Sample.kwargs Missing (Passed (Some 250))
                         (Passed (Some (30, 80))) Missing)
                      Sample.mesh_light))) as [Hmode _].
  - vm_compute. reflexivity.
  - reflexivity.
  - reflexivity.
  - rewrite Hmode. reflexivity.
Defined.

Lemma listed_effects_are_sent_and_shown_witness :
  exists local_control before,
    loop (snd (@WyzeLight.async_turn_on Sample.externals
                 (Sample.kwargs Missing Missing Missing (Passed (Some "leap"%string)))
                 MoreSamples.strip_light))
    = [service_turn_on local_control
         (before ++ [create_pid_pair COLOR_MODE "3";
                     create_pid_pair LIGHTSTRIP_EFFECTS "2"]);
       update_ha_state].
Proof.
  destruct (listed_effects_are_sent_and_shown (H := Sample.externals)
              (Sample.kwargs Missing Missing Missing (Passed (Some "leap"%string)))
              MoreSamples.strip_light
              (snd (@WyzeLight.async_turn_on Sample.externals
                      (Sample.kwargs Missing Missing Missing
                         (Passed (Some "leap"%string)))
                      MoreSamples.strip_light))
              "leap"%string) as [(local_control & before & Hloop) _].
  - reflexivity.
  - right. left. reflexivity.
  - vm_compute. reflexivity.
  - exists local_control, before. exact Hloop.
Defined.

Lemma unknown_effect_switches_mode_witness :
  Bulb.color_mode
    (dev (snd (@WyzeLight.async_turn_on Sample.externals
                 (Sample.kwargs Missing Missing Missing (Passed (Some "disco"%string)))
                 Sample.mesh_light)))
  = "3"%string.
Proof.
  destruct (unknown_effect_switches_mode (H := Sample.externals)
              (Sample.kwargs Missing Missing Missing (Passed (Some "disco"%string)))
              Sample.mesh_light
              (snd (@WyzeLight.async_turn_on Sample.externals
                      (Sample.kwargs Missing Missing Missing
                         (Passed (Some "disco"%string)))
                      Sample.mesh_light))
              "disco"%string) as (_ & _ & Hmode & _).
  - reflexivity.
  - discriminate.
  - discriminate.
  - discriminate.
  - discriminate.
  - vm_compute. reflexivity.
  - exact Hmode.
Defined.

Lemma turn_on_twice_same_device_witness :
  dev (snd (@WyzeLight.async_turn_on Sample.externals
              (Sample.kwargs (Passed (Some 128)) Missing (Passed (Some (30, 80)))
                 Missing)
              (snd (@WyzeLight.async_turn_on Sample.externals
                      (Sample.kwargs (Passed (Some 128)) Missing
                         (Passed (Some (30, 80))) Missing)
                      Sample.mesh_light))))
  = dev (snd (@WyzeLight.async_turn_on Sample.externals
                (Sample.kwargs (Passed (Some 128)) Missing (Passed (Some (30, 80)))
                   Missing)
                Sample.mesh_light)).
Proof.
  apply (turn_on_twice_same_device (H := Sample.externals)
           (Sample.kwargs (Passed (Some 128)) Missing (Passed (Some (30, 80)))
              Missing)
           Sample.mesh_light).
  - vm_compute. reflexivity.
  - vm_compute. reflexivity.
Defined.

Lemma zero_mireds_raises_half_way_witness :
  exists w',
    @WyzeLight.async_turn_on Sample.externals
      (Sample.kwargs (Passed (Some 128)) (Passed (Some 0)) Missing Missing)
      Sample.plain_light
    = (Raised ZeroDivisionError, w')
    /\ loop w' = []
    /\ Bulb.brightness (dev w') = 50
    /\ Bulb.on (dev w') = false.
Proof.
  destruct (zero_mireds_raises_half_way (H := Sample.externals)
              (Sample.kwargs (Passed (Some 128)) (Passed (Some 0)) Missing Missing)
              Sample.plain_light)
    as (w' & Hrun & Hloop & _ & Hdev & Hon & _).
  - reflexivity.
  - intros b [= <-]. exists 50. vm_compute. reflexivity.
  - exists w'. split; [exact Hrun |]. split; [exact Hloop |].
    split; [rewrite Hdev; vm_compute; reflexivity | exact Hon].
Defined.

Lemma turn_on_without_arguments_witness :
  exists w' local_control,
    @WyzeLight.async_turn_on Sample.externals
      (Sample.kwargs Missing (Passed None) Missing Missing) Sample.plain_light
    = (Returned tt, w')
    /\ loop w' = [service_turn_on local_control []; update_ha_state]
    /\ dev w' = Bulb.set_on true (dev Sample.plain_light).
Proof.
  apply (turn_on_without_arguments (H := Sample.externals)
           (Sample.kwargs Missing (Passed None) Missing Missing)
           Sample.plain_light); reflexivity.
Defined.

Lemma failed_update_keeps_state_witness :
  this (snd (@WyzeLight.async_update MoreSamples.failing_light))
  = this MoreSamples.failing_light
  /\ fst (@WyzeLight.async_update MoreSamples.failing_light)
     = Raised (VendorFailure "timeout").
Proof.
  destruct (failed_update_keeps_state MoreSamples.failing_light
              (snd (WyzeLight.async_update MoreSamples.failing_light))
              (Raised (VendorFailure "timeout")))
    as (Hthis & _).
  - vm_compute. reflexivity.
  - discriminate.
  - split; [exact Hthis | vm_compute; reflexivity].
Defined.

Lemma setup_adds_all_or_nothing_witness :
  vendor_calls (snd (@async_setup_entry Sample.externals Sample.config_entry
                       Sample.hass))
  = [call_camera_service; call_bulb_service; call_get_bulbs; call_get_cameras]
  /\ exists entities,
       added (this (snd (@async_setup_entry Sample.externals Sample.config_entry
                           Sample.hass)))
       = [(entities, true)].
Proof.
  destruct (setup_adds_all_or_nothing (H := Sample.externals)
              Sample.config_entry Sample.hass
              (snd (@async_setup_entry Sample.externals Sample.config_entry
                      Sample.hass))
              (Returned tt)) as (_ & _ & _ & Hok & _).
  - vm_compute. reflexivity.
  - destruct (Hok eq_refl) as [Hadded Hcalls]. split; [exact Hcalls | exact Hadded].
Defined.

Lemma unsupported_bulb_stops_setup_witness :
  exists e w',
    @async_setup_entry Sample.externals Sample.config_entry
      (MoreSamples.hass_of
         [MoreSamples.bulb_at "Light" "AA"; MoreSamples.bulb_at "Plug" "BB"] [])
    = (Raised e, w')
    /\ added (this w') = []
    /\ vendor_calls w' = [call_camera_service; call_bulb_service; call_get_bulbs].
Proof.
  destruct (unsupported_bulb_stops_setup (H := Sample.externals)
              Sample.config_entry
              (MoreSamples.hass_of
                 [MoreSamples.bulb_at "Light" "AA"; MoreSamples.bulb_at "Plug" "BB"]
                 [])
              (Build_Wyzeapy
                 (Returned (Sample.camera_service [] (Returned tt)))
                 (Returned (Sample.bulb_service
                              [MoreSamples.bulb_at "Light" "AA";
                               MoreSamples.bulb_at "Plug" "BB"] (Returned tt))))
              (Sample.camera_service [] (Returned tt))
              (Sample.bulb_service
                 [MoreSamples.bulb_at "Light" "AA"; MoreSamples.bulb_at "Plug" "BB"]
                 (Returned tt))
              [MoreSamples.bulb_at "Light" "AA"; MoreSamples.bulb_at "Plug" "BB"])
    as (e & w' & Hrun & _ & Hadded & Hcalls).
  - vm_compute. reflexivity.
  - reflexivity.
  - reflexivity.
  - reflexivity.
  - apply Exists_cons_tl, Exists_cons_hd.
    intros (ty & Hty & Hin). injection Hty as <-.
    apply type_in_lights in Hin. discriminate Hin.
  - exists e, w'. split; [exact Hrun |]. split; [exact Hadded | exact Hcalls].
Defined.

Lemma spotlight_status_type_error_witness :
  exists w',
    @async_setup_entry Sample.externals Sample.config_entry
      (MoreSamples.hass_of [MoreSamples.bulb_at "Light" "AA"]
         [MoreSamples.camera_at "CC" (PyStr "1")])
    = (Raised TypeError, w')
    /\ added (this w') = [].
Proof.
  destruct (spotlight_status_type_error (H := Sample.externals)
              Sample.config_entry
              (MoreSamples.hass_of [MoreSamples.bulb_at "Light" "AA"]
                 [MoreSamples.camera_at "CC" (PyStr "1")])
              (Build_Wyzeapy
                 (Returned (Sample.camera_service
                              [MoreSamples.camera_at "CC" (PyStr "1")] (Returned tt)))
                 (Returned (Sample.bulb_service
                              [MoreSamples.bulb_at "Light" "AA"] (Returned tt))))
              (Sample.camera_service
                 [MoreSamples.camera_at "CC" (PyStr "1")] (Returned tt))
              (Sample.bulb_service [MoreSamples.bulb_at "Light" "AA"] (Returned tt))
              [MoreSamples.bulb_at "Light" "AA"]
              [MoreSamples.camera_at "CC" (PyStr "1")])
    as (w' & Hrun & Hadded & _).
  - vm_compute. reflexivity.
  - reflexivity.
  - reflexivity.
  - reflexivity.
  - reflexivity.
  - repeat constructor.
    exists LIGHT. split; [reflexivity | by apply (bool_decide_unpack _)].
  - apply Exists_cons_hd. intros Hn. vm_compute in Hn. exact Hn.
  - exists w'. split; [exact Hrun | exact Hadded].
Defined.

Lemma children_share_parent_device_witness :
  WyzeDeviceEntity.device_info
    (MoreSamples.device_at "Camera" "CC" (Some "HUB") "rssi" (PyInt 1))
  = WyzeDeviceEntity.device_info
      (MoreSamples.device_at "Light" "AA" (Some "HUB") "ip" (PyStr "10.0.0.2"))
  /\ info_mac
       (WyzeDeviceEntity.device_info
          (MoreSamples.device_at "Light" "AA" (Some EmptyString) "ip"
             (PyStr "10.0.0.2")))
     = "AA"%string.
Proof.
  destruct (children_share_parent_device
              (MoreSamples.device_at "Camera" "CC" (Some "HUB") "rssi" (PyInt 1))
              (MoreSamples.device_at "Light" "AA" (Some "HUB") "ip" (PyStr "10.0.0.2"))
              "HUB") as [Hsame _].
  - discriminate.
  - reflexivity.
  - destruct (children_share_parent_device
                (MoreSamples.device_at "Camera" "CC" (Some "HUB") "rssi" (PyInt 1))
                (MoreSamples.device_at "Light" "AA" (Some EmptyString) "ip"
                   (PyStr "10.0.0.2"))
                "HUB") as (_ & _ & Hown).
    + discriminate.
    + reflexivity.
    + split; [apply Hsame; reflexivity |].
      rewrite Hown by (right; reflexivity). reflexivity.
Defined.

Lemma setup_unique_ids_distinct_witness :
  exists entities,
    added (this (snd (@async_setup_entry Sample.externals Sample.config_entry
                        (MoreSamples.hass_of
                           [MoreSamples.bulb_at "Light" "AA";
                            MoreSamples.bulb_at "MeshLight" "BB"]
                           [MoreSamples.camera_at "CC" (PyInt 1);
                            MoreSamples.camera_at "DD" (PyInt 0);
                            MoreSamples.camera_at "EE" (PyBool true)]))))
    = [(entities, true)]
    /\ map entity_unique_id entities
       = ["AA"; "BB"; "CC-floodlight"; "EE-floodlight"]%string
    /\ List.NoDup (map entity_unique_id entities).
Proof.
  destruct (setup_unique_ids_distinct (H := Sample.externals)
              Sample.config_entry
              (MoreSamples.hass_of
                 [MoreSamples.bulb_at "Light" "AA";
                  MoreSamples.bulb_at "MeshLight" "BB"]
                 [MoreSamples.camera_at "CC" (PyInt 1);
                  MoreSamples.camera_at "DD" (PyInt 0);
                  MoreSamples.camera_at "EE" (PyBool true)])
              (Build_Wyzeapy
                 (Returned (Sample.camera_service
                              [MoreSamples.camera_at "CC" (PyInt 1);
                               MoreSamples.camera_at "DD" (PyInt 0);
                               MoreSamples.camera_at "EE" (PyBool true)]
                              (Returned tt)))
                 (Returned (Sample.bulb_service
                              [MoreSamples.bulb_at "Light" "AA";
                               MoreSamples.bulb_at "MeshLight" "BB"]
                              (Returned tt))))
              (Sample.camera_service
                 [MoreSamples.camera_at "CC" (PyInt 1);
                  MoreSamples.camera_at "DD" (PyInt 0);
                  MoreSamples.camera_at "EE" (PyBool true)] (Returned tt))
              (Sample.bulb_service
                 [MoreSamples.bulb_at "Light" "AA";
                  MoreSamples.bulb_at "MeshLight" "BB"] (Returned tt))
              [MoreSamples.bulb_at "Light" "AA"; MoreSamples.bulb_at "MeshLight" "BB"]
              [MoreSamples.camera_at "CC" (PyInt 1);
               MoreSamples.camera_at "DD" (PyInt 0);
               MoreSamples.camera_at "EE" (PyBool true)])
    as (entities & Hadded & Hids & Hnodup).
  - vm_compute. reflexivity.
  - reflexivity.
  - reflexivity.
  - reflexivity.
  - reflexivity.
  - repeat constructor.
    + exists LIGHT. split; [reflexivity | by apply (bool_decide_unpack _)].
    + exists MESH_LIGHT. split; [reflexivity | by apply (bool_decide_unpack _)].
  - repeat constructor; vm_compute; exact I.
  - exists entities. split; [exact Hadded |]. split; [exact Hids |].
    apply Hnodup.
    + vm_compute. repeat (constructor; [simpl; intuition discriminate |]).
      constructor.
    + vm_compute. repeat (constructor; [simpl; intuition discriminate |]).
      constructor.
    + intros bulb camera Hbulb Hcamera.
      vm_compute in Hcamera.
      destruct Hbulb as [<- | [<- | []]];
        destruct Hcamera as [<- | [<- | []]]; discriminate.
Defined.
